(** * uri.py: a shallow embedding of [UriParser] and its specification

    The parser of [src/uri.py] is a Python class whose methods mutate the
    fields of one instance and signal malformed input by raising.  It is
    embedded as a state-and-exception monad over a record of the instance
    fields; a raised exception leaves the fields as they were when it was
    raised, exactly as a Python instance survives a failed method call.

    Python strings are sequences of Unicode code points: a character is a
    code point in [N], a string is a list of them. *)

From Stdlib Require Import Ascii String.
From Stdlib Require Import NArith ZArith List Bool Lia Arith.
Import ListNotations.

(** ** Characters and strings *)

Definition char := N.
Definition str := list char.

(** The code point of an ASCII character, to write character constants. *)
Definition ch (a : ascii) : char := N_of_ascii a.

(** A Python string literal made of ASCII characters. *)
Definition py (s : string) : str := map ch (list_ascii_of_string s).

Definition char_eqb (a b : char) : bool := N.eqb a b.

Fixpoint str_eqb (a b : str) : bool :=
  match a, b with
  | [], [] => true
  | x :: a', y :: b' => char_eqb x y && str_eqb a' b'
  | _, _ => false
  end.

(** [c in t] for a tuple of one-character strings. *)
Definition in_tuple (c : char) (t : list char) : bool := existsb (char_eqb c) t.

(** ** Exceptions and outcomes *)

Inductive exn : Type :=
| UriSyntaxError
| ValueError
| IndexError
| OverflowError.

(** What a built-in or a pure function yields: a value or a raised exception. *)
Inductive res (A : Type) : Type :=
| Ok (a : A)
| Err (e : exn).

Arguments Ok {A} a.
Arguments Err {A} e.

Definition res_map {A B} (f : A -> B) (r : res A) : res B :=
  match r with
  | Ok a => Ok (f a)
  | Err e => Err e
  end.

(** What running a method yields: a value, a raised exception, or [OutOfFuel]
    when the bound given to a [while] loop of the model is exhausted (shown
    below never to happen). *)
Inductive outcome (A : Type) : Type :=
| Return (a : A)
| Raise (e : exn)
| OutOfFuel.

Arguments Return {A} a.
Arguments Raise {A} e.
Arguments OutOfFuel {A}.

Definition to_outcome {A} (r : res A) : outcome A :=
  match r with
  | Ok a => Return a
  | Err e => Raise e
  end.

(** ** Built-in string operations *)

(** [s.find(c)]: the lowest index of [c] in [s], or [-1]. *)
Fixpoint find_from (s : str) (c : char) (i : Z) : Z :=
  match s with
  | [] => (-1)%Z
  | x :: r => if char_eqb x c then i else find_from r c (i + 1)%Z
  end.

Definition str_find (s : str) (c : char) : Z := find_from s c 0%Z.

(** [s.index(c)]: as [find], but raises [ValueError] when [c] is absent. *)
Definition str_index (s : str) (c : char) : res Z :=
  let i := str_find s c in
  if (i =? -1)%Z then Err ValueError else Ok i.

Definition cons_first (x : char) (l : list str) : list str :=
  match l with
  | h :: t => (x :: h) :: t
  | [] => [[x]]
  end.

(** [s.split(sep, maxsplit)] for a one-character separator: at most
    [maxsplit] splits are done, from the left; a negative [maxsplit] (Python's
    default is [-1]) means no limit. *)
Fixpoint str_split (s : str) (sep : char) (maxsplit : Z) : list str :=
  match s with
  | [] => [[]]
  | x :: r =>
      if char_eqb x sep && negb (maxsplit =? 0)%Z
      then [] :: str_split r sep (maxsplit - 1)%Z
      else cons_first x (str_split r sep maxsplit)
  end.

(** [s.count(c)]. *)
Fixpoint str_count (s : str) (c : char) : nat :=
  match s with
  | [] => 0
  | x :: r => (if char_eqb x c then 1 else 0) + str_count r c
  end.

(** [l[i]] on a list of strings, for a non-negative index. *)
Definition getitem (l : list str) (i : nat) : res str :=
  match nth_error l i with
  | Some x => Ok x
  | None => Err IndexError
  end.

(** [a, b = l]: unpacking into two targets raises [ValueError] unless [l] has
    exactly two elements. *)
Definition unpack2 (l : list str) : res (str * str) :=
  match l with
  | [a; b] => Ok (a, b)
  | _ => Err ValueError
  end.

(** [chr(value)]: the character of that code point; [ValueError] outside
    [range(0x110000)], [OverflowError] when the argument does not fit a C int. *)
Definition chr (value : Z) : res char :=
  if ((value <? - 2147483648) || (2147483647 <? value))%Z then Err OverflowError
  else if ((value <? 0) || (1114111 <? value))%Z then Err ValueError
  else Ok (Z.to_N value).

(** ** [int(s, 16)]

    CPython first maps a string that is not pure ASCII to ASCII
    ([_PyUnicode_TransformDecimalAndSpaceToASCII]): code points below 127 are
    kept, a Unicode space becomes a blank, a Unicode decimal digit becomes the
    ASCII digit of its value, and the string is cut after a [?] put in place
    of the first other character.  [PyLong_FromString] then skips leading
    white space, reads an optional sign and an optional [0x] prefix, the
    digits (single underscores allowed between digits), and trailing white
    space; anything else is a [ValueError].

    The two Unicode tables belong to the interpreter, not to the program;
    the development is parametric in them. *)

Definition Py_ISSPACE (c : char) : bool :=
  ((9 <=? c) && (c <=? 13) || (c =? 32))%N.

(** [_PyLong_DigitValue]: 37 stands for "not a digit in any base". *)
Definition _PyLong_DigitValue (c : char) : Z :=
  if ((48 <=? c) && (c <=? 57))%N then Z.of_N c - 48
  else if ((97 <=? c) && (c <=? 122))%N then Z.of_N c - 87
  else if ((65 <=? c) && (c <=? 90))%N then Z.of_N c - 55
  else 37.

Fixpoint skip_spaces (a : str) : str :=
  match a with
  | c :: r => if Py_ISSPACE c then skip_spaces r else a
  | [] => []
  end.

(** The digit loop of [long_from_binary_base]: the value read, the number of
    digits, and what is left; [None] on a doubled or trailing underscore. *)
Fixpoint scan_digits (a : str) (prev_underscore : bool) (acc : Z) (digits : nat)
  : option (Z * nat * str) :=
  match a with
  | [] => if prev_underscore then None else Some (acc, digits, [])
  | c :: r =>
      if char_eqb c (ch "_") then
        if prev_underscore then None else scan_digits r true acc digits
      else if (_PyLong_DigitValue c <? 16)%Z then
        scan_digits r false (16 * acc + _PyLong_DigitValue c)%Z (S digits)
      else if prev_underscore then None else Some (acc, digits, a)
  end.

(** [PyLong_FromString(a, 16)] on an ASCII buffer; [None] is [ValueError]. *)
Definition PyLong_FromString16 (a : str) : option Z :=
  let a := skip_spaces a in
  let '(sign, a) :=
    match a with
    | c :: r => if char_eqb c (ch "+") then (1%Z, r)
                else if char_eqb c (ch "-") then ((-1)%Z, r)
                else (1%Z, a)
    | [] => (1%Z, a)
    end in
  let a :=
    match a with
    | c :: x :: r =>
        if char_eqb c (ch "0") && (char_eqb x (ch "x") || char_eqb x (ch "X"))
        then match r with
             | u :: r' => if char_eqb u (ch "_") then r' else r
             | [] => r
             end
        else a
    | _ => a
    end in
  match a with
  | u :: _ => if char_eqb u (ch "_") then None else
      match scan_digits a false 0 0 with
      | Some (v, S _, rest) =>
          match skip_spaces rest with
          | [] => Some (sign * v)%Z
          | _ :: _ => None
          end
      | _ => None
      end
  | [] => None
  end.

Section Interpreter.

(** [Py_UNICODE_ISSPACE] and [Py_UNICODE_TODECIMAL] of the running
    interpreter (they depend on its Unicode version). *)
Variable Py_UNICODE_ISSPACE : char -> bool.
Variable Py_UNICODE_TODECIMAL : char -> option N.

Fixpoint transform_nonascii (s : str) : str :=
  match s with
  | [] => []
  | c :: r =>
      if (c <? 127)%N then c :: transform_nonascii r
      else if Py_UNICODE_ISSPACE c then ch " " :: transform_nonascii r
      else match Py_UNICODE_TODECIMAL c with
           | Some d => (ch "0" + d)%N :: transform_nonascii r
           | None => [ch "?"]
           end
  end.

Definition _PyUnicode_TransformDecimalAndSpaceToASCII (s : str) : str :=
  if forallb (fun c => (c <? 128)%N) s then s else transform_nonascii s.

(** [int(s, 16)]; [None] stands for the [ValueError] it raises. *)
Definition int16 (s : str) : option Z :=
  PyLong_FromString16 (_PyUnicode_TransformDecimalAndSpaceToASCII s).

End Interpreter.

(** ** The parser instance and its methods *)

(** An insertion-ordered dictionary from strings to strings (a Python [dict]):
    assigning to a key that is present replaces its value in place, assigning
    to a new key appends it. *)
Definition dict := list (str * str).

Fixpoint dict_setitem (d : dict) (k v : str) : dict :=
  match d with
  | [] => [(k, v)]
  | (k', v') :: r =>
      if str_eqb k' k then (k', v) :: r else (k', v') :: dict_setitem r k v
  end.

Fixpoint dict_get (d : dict) (k : str) : option str :=
  match d with
  | [] => None
  | (k', v') :: r => if str_eqb k' k then Some v' else dict_get r k
  end.

Definition dict_keys (d : dict) : list str := map fst d.

(** The fields of a [UriParser] instance ([_reserved_chars] is a constant). *)
Record UriParser : Type := mkUriParser {
  _uri_content : str;
  _path : str;
  _fragment : str;
  _query : str;
  _query_params : dict;
  _iter : nat
}.

Definition _reserved_chars : list char :=
  map ch [":"; "/"; "?"; "#"; "["; "]"; "@";
          "!"; "$"; "&"; "'"; "("; ")"; "*";
          ","; ";"; "="]%char.

(** [UriParser(uri_content)] *)
Definition __init__ (uri_content : str) : UriParser :=
  {| _uri_content := uri_content;
     _path := [];
     _fragment := [];
     _query := [];
     _query_params := [];
     _iter := 0 |}.

Definition set_path (v : str) (self : UriParser) : UriParser :=
  mkUriParser (_uri_content self) v (_fragment self) (_query self)
              (_query_params self) (_iter self).
Definition set_fragment (v : str) (self : UriParser) : UriParser :=
  mkUriParser (_uri_content self) (_path self) v (_query self)
              (_query_params self) (_iter self).
Definition set_query (v : str) (self : UriParser) : UriParser :=
  mkUriParser (_uri_content self) (_path self) (_fragment self) v
              (_query_params self) (_iter self).
Definition set_query_params (v : dict) (self : UriParser) : UriParser :=
  mkUriParser (_uri_content self) (_path self) (_fragment self) (_query self)
              v (_iter self).
Definition set_iter (v : nat) (self : UriParser) : UriParser :=
  mkUriParser (_uri_content self) (_path self) (_fragment self) (_query self)
              (_query_params self) v.

(** A method body: it runs on an instance, and yields the instance as it has
    left it together with what it returned or raised. *)
Definition M (A : Type) : Type := UriParser -> UriParser * outcome A.

Definition ret {A} (a : A) : M A := fun self => (self, Return a).
Definition raise {A} (e : exn) : M A := fun self => (self, Raise e).
Definition out_of_fuel {A} : M A := fun self => (self, OutOfFuel).
Definition bind {A B} (m : M A) (k : A -> M B) : M B :=
  fun self =>
    match m self with
    | (self', Return a) => k a self'
    | (self', Raise e) => (self', Raise e)
    | (self', OutOfFuel) => (self', OutOfFuel)
    end.
Definition gets {A} (f : UriParser -> A) : M A := fun self => (self, Return (f self)).
Definition modify (f : UriParser -> UriParser) : M unit := fun self => (f self, Return tt).
Definition lift {A} (r : res A) : M A := fun self => (self, to_outcome r).

Declare Scope py_scope.
Delimit Scope py_scope with py.
Notation "x <- m ;; k" := (bind m (fun x => k))
  (at level 100, m at next level, right associativity) : py_scope.
Notation "m ;;; k" := (bind m (fun _ => k))
  (at level 100, right associativity) : py_scope.
Open Scope py_scope.

(** The accessors. *)
Definition get_path (self : UriParser) : str := _path self.
Definition get_fragment (self : UriParser) : str := _fragment self.
Definition get_query_params (self : UriParser) : dict := _query_params self.

(** [_get_next_char]: the character under the cursor [_iter], which it
    advances; [None] at the end of the string. *)
Definition _get_next_char (string : str) : M (option char) :=
  it <- gets _iter ;;
  if Nat.eqb it (length string) then ret None
  else
    modify (set_iter (it + 1)) ;;;
    it <- gets _iter ;;
    c <- lift (match nth_error string (it - 1) with
               | Some c => Ok c
               | None => Err IndexError
               end) ;;
    ret (Some c).

(** [_split_uri] *)
Definition _split_uri : M unit :=
  uri <- gets _uri_content ;;
  if negb (str_find uri (ch "?") =? -1)%Z then
    if negb (str_find uri (ch "#") =? -1)%Z then
      iq <- lift (str_index uri (ch "?")) ;;
      ih <- lift (str_index uri (ch "#")) ;;
      if (iq >? ih)%Z then raise UriSyntaxError
      else
        let tokens := str_split uri (ch "?") 1 in
        t0 <- lift (getitem tokens 0) ;;
        modify (set_path t0) ;;;
        t1 <- lift (getitem tokens 1) ;;
        qf <- lift (unpack2 (str_split t1 (ch "#") 1)) ;;
        modify (set_query (fst qf)) ;;;
        modify (set_fragment (snd qf))
    else
      pq <- lift (unpack2 (str_split uri (ch "?") 1)) ;;
      modify (set_path (fst pq)) ;;;
      modify (set_query (snd pq))
  else if negb (str_find uri (ch "#") =? -1)%Z then
    pf <- lift (unpack2 (str_split uri (ch "#") 1)) ;;
    modify (set_path (fst pf)) ;;;
    modify (set_fragment (snd pf))
  else
    modify (set_path uri).

Section Methods.

Variable Py_UNICODE_ISSPACE : char -> bool.
Variable Py_UNICODE_TODECIMAL : char -> option N.

(** [_decode]: the [ValueError] of [int] is turned into [UriSyntaxError]; the
    call of [chr] is outside the [try]. *)
Definition _decode (hex_num : str) : M str :=
  match int16 Py_UNICODE_ISSPACE Py_UNICODE_TODECIMAL hex_num with
  | None => raise UriSyntaxError
  | Some value => c <- lift (chr value) ;; ret [c]
  end.

(** The [while] loop of [_parse_path]; [fuel] bounds the number of times its
    condition is evaluated. *)
Fixpoint _parse_path_while (fuel : nat) (next_char : option char) (decoded_path : str)
  : M str :=
  match fuel with
  | O => out_of_fuel
  | S fuel' =>
      match next_char with
      | None => ret decoded_path
      | Some c =>
          decoded_path <-
            (if char_eqb c (ch "%") then
               p <- gets _path ;;
               first_hex_digit <- _get_next_char p ;;
               p <- gets _path ;;
               second_hex_digit <- _get_next_char p ;;
               match first_hex_digit, second_hex_digit with
               | Some h1, Some h2 =>
                   d <- _decode ([h1] ++ [h2]) ;;
                   ret (decoded_path ++ d)
               | _, _ => raise UriSyntaxError
               end
             else if in_tuple c _reserved_chars
                     && negb (in_tuple c [ch "/"; ch ":"]) then
               raise UriSyntaxError
             else ret (decoded_path ++ [c])) ;;
          p <- gets _path ;;
          next_char <- _get_next_char p ;;
          _parse_path_while fuel' next_char decoded_path
      end
  end.

Definition _parse_path : M unit :=
  modify (set_iter 0) ;;;
  p <- gets _path ;;
  next_char <- _get_next_char p ;;
  p <- gets _path ;;
  decoded_path <- _parse_path_while (S (length p)) next_char [] ;;
  modify (set_path decoded_path).

(** The [while] loop of [_parse_fragment]. *)
Fixpoint _parse_fragment_while (fuel : nat) (next_char : option char)
  (decoded_fragment : str) : M str :=
  match fuel with
  | O => out_of_fuel
  | S fuel' =>
      match next_char with
      | None => ret decoded_fragment
      | Some c =>
          decoded_fragment <-
            (if char_eqb c (ch "%") then
               f <- gets _fragment ;;
               first_hex_digit <- _get_next_char f ;;
               f <- gets _fragment ;;
               second_hex_digit <- _get_next_char f ;;
               match first_hex_digit, second_hex_digit with
               | Some h1, Some h2 =>
                   d <- _decode ([h1] ++ [h2]) ;;
                   ret (decoded_fragment ++ d)
               | _, _ => raise UriSyntaxError
               end
             else if in_tuple c _reserved_chars then raise UriSyntaxError
             else ret (decoded_fragment ++ [c])) ;;
          f <- gets _fragment ;;
          next_char <- _get_next_char f ;;
          _parse_fragment_while fuel' next_char decoded_fragment
      end
  end.

Definition _parse_fragment : M unit :=
  modify (set_iter 0) ;;;
  f <- gets _fragment ;;
  next_char <- _get_next_char f ;;
  f <- gets _fragment ;;
  decoded_fragment <- _parse_fragment_while (S (length f)) next_char [] ;;
  modify (set_fragment decoded_fragment).

(** The [while] loop of [_decode_all]. *)
Fixpoint _decode_all_while (string : str) (fuel : nat) (next_char : option char)
  (outStr : str) : M str :=
  match fuel with
  | O => out_of_fuel
  | S fuel' =>
      match next_char with
      | None => ret outStr
      | Some c =>
          outStr <-
            (if char_eqb c (ch "%") then
               first_hex_digit <- _get_next_char string ;;
               second_hex_digit <- _get_next_char string ;;
               match first_hex_digit, second_hex_digit with
               | Some h1, Some h2 =>
                   d <- _decode ([h1] ++ [h2]) ;;
                   ret (outStr ++ d)
               | _, _ => raise UriSyntaxError
               end
             else ret (outStr ++ [c])) ;;
          next_char <- _get_next_char string ;;
          _decode_all_while string fuel' next_char outStr
      end
  end.

Definition _decode_all (string : str) : M str :=
  modify (set_iter 0) ;;;
  next_char <- _get_next_char string ;;
  _decode_all_while string (S (length string)) next_char [].

(** The character check of [_parse_query]: [for c in self._query]. *)
Fixpoint _parse_query_charset (q : str) : M unit :=
  match q with
  | [] => ret tt
  | c :: r =>
      if in_tuple c _reserved_chars && negb (in_tuple c [ch "&"; ch "="])
      then raise UriSyntaxError
      else _parse_query_charset r
  end.

(** The second loop of [_parse_query]: [for token in tokens]. *)
Fixpoint _parse_query_tokens (tokens : list str) : M unit :=
  match tokens with
  | [] => ret tt
  | token :: rest =>
      if negb (Nat.eqb (str_count token (ch "=")) 1) then raise UriSyntaxError
      else
        pv <- lift (unpack2 (str_split token (ch "=") 1)) ;;
        param <- _decode_all (fst pv) ;;
        value <- _decode_all (snd pv) ;;
        d <- gets _query_params ;;
        modify (set_query_params (dict_setitem d param value)) ;;;
        _parse_query_tokens rest
  end.

Definition _parse_query : M unit :=
  q <- gets _query ;;
  if str_eqb q [] then ret tt
  else
    _parse_query_charset q ;;;
    q <- gets _query ;;
    let tokens := str_split q (ch "&") (-1) in
    _parse_query_tokens tokens.

Definition parse : M unit :=
  _split_uri ;;;
  _parse_path ;;;
  _parse_fragment ;;;
  _parse_query.

(** Constructing a parser on [uri] and calling [parse] once. *)
Definition run_parse (uri : str) : UriParser * outcome unit :=
  parse (__init__ uri).

End Methods.

(** ** The Unicode tables of one interpreter

    The tables of CPython 3.11 (Unicode 14.0), to run the model on concrete
    inputs.  A decimal digit lies in a run of ten consecutive code points
    whose first one has value 0. *)

Definition unicode14_spaces : list char :=
  [133; 160; 5760; 8192; 8193; 8194; 8195; 8196; 8197; 8198; 8199; 8200;
   8201; 8202; 8232; 8233; 8239; 8287; 12288]%N.

Definition unicode14_digit_zeros : list char :=
  [1632; 1776; 1984; 2406; 2534; 2662; 2790; 2918; 3046; 3174; 3302; 3430;
   3558; 3664; 3792; 3872; 4160; 4240; 6112; 6160; 6470; 6608; 6784; 6800;
   6992; 7088; 7232; 7248; 42528; 43216; 43264; 43472; 43504; 43600; 44016;
   65296; 66720; 68912; 69734; 69872; 69942; 70096; 70384; 70736; 70864;
   71248; 71360; 71472; 71904; 72016; 72784; 73040; 73120; 92768; 92864;
   93008; 120782; 120792; 120802; 120812; 120822; 123200; 123632; 125264;
   130032]%N.

Definition unicode14_isspace (c : char) : bool := in_tuple c unicode14_spaces.

Definition unicode14_todecimal (c : char) : option N :=
  match find (fun z => (z <=? c) && (c <? z + 10))%N unicode14_digit_zeros with
  | Some z => Some (c - z)%N
  | None => None
  end.

(** The parser run under that interpreter. *)
Definition run_parse14 (uri : str) : UriParser * outcome unit :=
  run_parse unicode14_isspace unicode14_todecimal uri.

(** * Functional reference

    Pure functions on strings that the cursor-driven loops are shown to
    compute.  They return in [res], which has no fuel case. *)

(** What the literal (unescaped) character [c] is rejected for, per component. *)
Definition path_reject (c : char) : bool :=
  in_tuple c _reserved_chars && negb (in_tuple c [ch "/"; ch ":"]).
Definition fragment_reject (c : char) : bool := in_tuple c _reserved_chars.
Definition no_reject (c : char) : bool := false.
Definition query_reject (c : char) : bool :=
  in_tuple c _reserved_chars && negb (in_tuple c [ch "&"; ch "="]).

(** [s] cut at the first occurrence of [c]: what is before it and what is
    after it. *)
Fixpoint break_at (c : char) (s : str) : option (str * str) :=
  match s with
  | [] => None
  | x :: r =>
      if char_eqb x c then Some ([], r)
      else match break_at c r with
           | Some (a, b) => Some (x :: a, b)
           | None => None
           end
  end.

(** The raw path, query and fragment that [_split_uri] leaves in the fields. *)
Definition split_ref (uri : str) : res (str * str * str) :=
  match break_at (ch "?") uri, break_at (ch "#") uri with
  | Some (p, rest), Some (a, _) =>
      if length a <? length p then Err UriSyntaxError
      else match break_at (ch "#") rest with
           | Some (q, f) => Ok (p, q, f)
           | None => Err ValueError
           end
  | Some (p, q), None => Ok (p, q, [])
  | None, Some (p, f) => Ok (p, [], f)
  | None, None => Ok (uri, [], [])
  end.

Section Reference.

Variable Py_UNICODE_ISSPACE : char -> bool.
Variable Py_UNICODE_TODECIMAL : char -> option N.

Local Abbreviation int16' := (int16 Py_UNICODE_ISSPACE Py_UNICODE_TODECIMAL).
Local Abbreviation _decode' := (_decode Py_UNICODE_ISSPACE Py_UNICODE_TODECIMAL).

(** The character an escape [%h1h2] stands for. *)
Definition decode_pair (h1 h2 : char) : res char :=
  match int16' [h1; h2] with
  | None => Err UriSyntaxError
  | Some value => chr value
  end.

(** One left-to-right pass over [s]: escapes are decoded, a literal character
    that [reject] holds of stops the pass. *)
Fixpoint scan (reject : char -> bool) (s : str) : res str :=
  match s with
  | [] => Ok []
  | c :: r =>
      if char_eqb c (ch "%") then
        match r with
        | h1 :: h2 :: r' =>
            match decode_pair h1 h2 with
            | Ok d => res_map (cons d) (scan reject r')
            | Err e => Err e
            end
        | _ => Err UriSyntaxError
        end
      else if reject c then Err UriSyntaxError
      else res_map (cons c) (scan reject r)
  end.

(** The three loops of the source have one shape; this is it, with the
    string scanned and the rejected literals as parameters. *)
Fixpoint decode_while (reject : char -> bool) (string : str) (fuel : nat)
  (next_char : option char) (out : str) : M str :=
  match fuel with
  | O => out_of_fuel
  | S fuel' =>
      match next_char with
      | None => ret out
      | Some c =>
          out <-
            (if char_eqb c (ch "%") then
               first_hex_digit <- _get_next_char string ;;
               second_hex_digit <- _get_next_char string ;;
               match first_hex_digit, second_hex_digit with
               | Some h1, Some h2 =>
                   d <- _decode' ([h1] ++ [h2]) ;;
                   ret (out ++ d)
               | _, _ => raise UriSyntaxError
               end
             else if reject c then raise UriSyntaxError
             else ret (out ++ [c])) ;;
          next_char <- _get_next_char string ;;
          decode_while reject string fuel' next_char out
      end
  end.

(** The decoded key and value of one query token. *)
Definition token_pair (token : str) : res (str * str) :=
  if negb (Nat.eqb (str_count token (ch "=")) 1) then Err UriSyntaxError
  else
    match unpack2 (str_split token (ch "=") 1) with
    | Err e => Err e
    | Ok (raw_key, raw_value) =>
        match scan no_reject raw_key with
        | Err e => Err e
        | Ok k =>
            match scan no_reject raw_value with
            | Err e => Err e
            | Ok v => Ok (k, v)
            end
        end
    end.

(** The dictionary after the tokens are processed in order, up to the first
    one that fails. *)
Fixpoint tokens_ref (tokens : list str) (d : dict) : dict * res unit :=
  match tokens with
  | [] => (d, Ok tt)
  | token :: rest =>
      match token_pair token with
      | Ok (k, v) => tokens_ref rest (dict_setitem d k v)
      | Err e => (d, Err e)
      end
  end.

Definition query_ref (q : str) (d : dict) : dict * res unit :=
  if str_eqb q [] then (d, Ok tt)
  else if existsb query_reject q then (d, Err UriSyntaxError)
  else tokens_ref (str_split q (ch "&") (-1)) d.

(** The fields [_path], [_fragment], [_query], [_query_params] after
    [parse], and what [parse] yields. *)
Definition parse_ref (uri : str) : (str * str * str * dict) * res unit :=
  match split_ref uri with
  | Err e => (([], [], [], []), Err e)
  | Ok (p, q, f) =>
      match scan path_reject p with
      | Err e => ((p, f, q, []), Err e)
      | Ok p' =>
          match scan fragment_reject f with
          | Err e => ((p', f, q, []), Err e)
          | Ok f' =>
              let (d, r) := query_ref q [] in ((p', f', q, d), r)
          end
      end
  end.

End Reference.

(** * Vocabulary of the properties *)

(** The hexadecimal digit of value [d], in upper or lower case. *)
Definition hex_digit (upper : bool) (d : N) : char :=
  if (d <? 10)%N then (48 + d)%N
  else if upper then (55 + d)%N else (87 + d)%N.

(** The escape of the byte [b]: a percent sign and its two hexadecimal
    digits, each in the case asked for. *)
Definition percent_encode (upper1 upper2 : bool) (b : N) : str :=
  [ch "%"; hex_digit upper1 (b / 16); hex_digit upper2 (b mod 16)].

(** The percent-decoding of the specification (section 4.2), written from
    its words and not from the code, to compare the code with: after a
    percent sign the next two characters are a pair of hexadecimal digits,
    read as a byte value in base 16; without two characters, or with a
    character that is no hexadecimal digit, there is no decoding; any other
    character is copied. *)
Definition spec_hex_value (c : char) : option N :=
  if ((48 <=? c) && (c <=? 57))%N then Some (c - 48)%N
  else if ((65 <=? c) && (c <=? 70))%N then Some (c - 55)%N
  else if ((97 <=? c) && (c <=? 102))%N then Some (c - 87)%N
  else None.

Fixpoint spec_percent_decode (s : str) : option str :=
  match s with
  | [] => Some []
  | c :: r =>
      if char_eqb c (ch "%") then
        match r with
        | h1 :: h2 :: r' =>
            match spec_hex_value h1, spec_hex_value h2 with
            | Some a, Some b => option_map (cons (16 * a + b)%N) (spec_percent_decode r')
            | _, _ => None
            end
        | _ => None
        end
      else option_map (cons c) (spec_percent_decode r)
  end.

(** The slice [s[i:j]] and the slice [s[i:]], for [0 <= i <= j]. *)
Definition slice (s : str) (i j : Z) : str :=
  firstn (Z.to_nat (j - i)) (skipn (Z.to_nat i) s).
Definition slice_from (s : str) (i : Z) : str := skipn (Z.to_nat i) s.

(** The elements of [l] in the order of their first occurrence. *)
Fixpoint first_occurrences (l : list str) : list str :=
  match l with
  | [] => []
  | k :: r => k :: filter (fun k' => negb (str_eqb k k')) (first_occurrences r)
  end.

(** The value of the last pair of [pairs] whose key is [k]. *)
Fixpoint last_value (pairs : list (str * str)) (k : str) : option str :=
  match pairs with
  | [] => None
  | (k', v) :: r =>
      match last_value r k with
      | Some v' => Some v'
      | None => if str_eqb k' k then Some v else None
      end
  end.

(** [k in l] for a list of strings. *)
Definition str_mem (k : str) (l : list str) : bool := existsb (str_eqb k) l.

(** Filling a dictionary with [pairs], in order. *)
Definition dict_fill (pairs : list (str * str)) (d : dict) : dict :=
  fold_left (fun d kv => dict_setitem d (fst kv) (snd kv)) pairs d.

Section Vocabulary.

Variable Py_UNICODE_ISSPACE : char -> bool.
Variable Py_UNICODE_TODECIMAL : char -> option N.

(** [token] is a raw key, one [=] and a raw value, and [_decode_all] turns
    them into the key and the value of [kv]. *)
Definition token_decodes (token : str) (kv : str * str) : Prop :=
  exists raw_key raw_value,
    token = raw_key ++ ch "=" :: raw_value /\
    ~ In (ch "=") raw_key /\ ~ In (ch "=") raw_value /\
    (forall st, snd (_decode_all Py_UNICODE_ISSPACE Py_UNICODE_TODECIMAL raw_key st)
                = Return (fst kv)) /\
    (forall st, snd (_decode_all Py_UNICODE_ISSPACE Py_UNICODE_TODECIMAL raw_value st)
                = Return (snd kv)).

End Vocabulary.

Section Provenance.

Variable Py_UNICODE_ISSPACE : char -> bool.
Variable Py_UNICODE_TODECIMAL : char -> option N.

(** [decoding reject raw out]: [out] is [raw] read from left to right, where
    each character of [out] is either a literal character of [raw], which is
    not a percent sign and which [reject] does not hold of, or the character
    that [_decode] gives for the two characters after a percent sign. *)
Inductive decoding (reject : char -> bool) : str -> str -> Prop :=
| decoding_end : decoding reject [] []
| decoding_literal c raw out :
    c <> ch "%" -> reject c = false -> decoding reject raw out ->
    decoding reject (c :: raw) (c :: out)
| decoding_escape h1 h2 d raw out :
    (forall st, _decode Py_UNICODE_ISSPACE Py_UNICODE_TODECIMAL [h1; h2] st
                = (st, Return [d])) ->
    decoding reject raw out ->
    decoding reject (ch "%" :: h1 :: h2 :: raw) (d :: out).

End Provenance.

(** The text [path?query], followed by [#fragment] when there is one. *)
Definition assemble (p q : str) (frag : option str) : str :=
  p ++ ch "?" :: q ++ match frag with
                      | Some f => ch "#" :: f
                      | None => []
                      end.


Section Violations.

Variable Py_UNICODE_ISSPACE : char -> bool.
Variable Py_UNICODE_TODECIMAL : char -> option N.

(** What stops a pass at the head of [t]: a percent sign with fewer than
    two characters after it, a percent sign before two characters that [int]
    refuses, or a literal character that is rejected. *)
Inductive violation (reject : char -> bool) : str -> Prop :=
| violation_truncated t : length t < 2 -> violation reject (ch "%" :: t)
| violation_digits h1 h2 t :
    int16 Py_UNICODE_ISSPACE Py_UNICODE_TODECIMAL [h1; h2] = None -> violation reject (ch "%" :: h1 :: h2 :: t)
| violation_literal c t :
    c <> ch "%" -> reject c = true -> violation reject (c :: t).

End Violations.

(** The characters of a string of two characters that [int(s, 16)] can
    accept: white space, a sign or a hexadecimal digit in the first place,
    white space or a hexadecimal digit in the second. *)
Definition int_first_char (c : char) : bool :=
  Py_ISSPACE c || char_eqb c (ch "+") || char_eqb c (ch "-")
  || (_PyLong_DigitValue c <? 16)%Z.
Definition int_second_char (c : char) : bool :=
  Py_ISSPACE c || (_PyLong_DigitValue c <? 16)%Z.

(** Every byte of [bytes] escaped, the two hexadecimal digits in the cases
    asked for. *)
Definition percent_encode_all (upper1 upper2 : bool) (bytes : str) : str :=
  flat_map (percent_encode upper1 upper2) bytes.

(** What [int(s, 16)] gives on two ASCII characters told apart by kind: two
    hexadecimal digits; white space or a plus sign, then a digit; a minus
    sign, then a digit; a digit, then white space. *)
Definition lenient_pair (h1 h2 : char) : option Z :=
  let d1 := _PyLong_DigitValue h1 in
  let d2 := _PyLong_DigitValue h2 in
  if (d1 <? 16)%Z && (d2 <? 16)%Z then Some (16 * d1 + d2)%Z
  else if (Py_ISSPACE h1 || char_eqb h1 (ch "+")) && (d2 <? 16)%Z then Some d2
  else if char_eqb h1 (ch "-") && (d2 <? 16)%Z then Some (- d2)%Z
  else if (d1 <? 16)%Z && Py_ISSPACE h2 then Some d1
  else None.

(** * Proofs *)

(** ** The instance fields *)

Lemma set_iter_same self : set_iter (_iter self) self = self.
Proof. destruct self; reflexivity. Qed.

(** ** The monad *)

Lemma bind_run {A B} (m : M A) (k : A -> M B) self :
  bind m k self =
  match m self with
  | (self', Return a) => k a self'
  | (self', Raise e) => (self', Raise e)
  | (self', OutOfFuel) => (self', OutOfFuel)
  end.
Proof. reflexivity. Qed.

Lemma bind_ext {A B} (m : M A) (k k' : A -> M B) self :
  (forall a st, k a st = k' a st) -> bind m k self = bind m k' self.
Proof.
  intro H. unfold bind. destruct (m self) as [st [a|e|]]; [apply H|reflexivity..].
Qed.

Lemma bind_ext_run {A B} (m : M A) (k k' : A -> M B) self :
  (forall a st, m self = (st, Return a) -> k a st = k' a st) ->
  bind m k self = bind m k' self.
Proof.
  intro H. unfold bind. destruct (m self) as [st [a|e|]]; [now apply H|reflexivity..].
Qed.

Lemma bind_assoc {A B C} (m : M A) (k : A -> M B) (h : B -> M C) self :
  bind (bind m k) h self = bind m (fun a => bind (k a) h) self.
Proof. unfold bind. destruct (m self) as [st [a|e|]]; reflexivity. Qed.

(** ** Strings *)

Lemma char_eqb_eq a b : char_eqb a b = true <-> a = b.
Proof. apply N.eqb_eq. Qed.

Lemma char_eqb_refl a : char_eqb a a = true.
Proof. apply N.eqb_refl. Qed.

Lemma char_eqb_neq a b : char_eqb a b = false <-> a <> b.
Proof. apply N.eqb_neq. Qed.

Lemma str_eqb_eq a : forall b, str_eqb a b = true <-> a = b.
Proof.
  induction a as [|x a IH]; intros [|y b]; simpl; split; intro H;
    try reflexivity; try discriminate.
  - apply andb_true_iff in H. destruct H as [H1 H2].
    apply char_eqb_eq in H1. apply IH in H2. congruence.
  - injection H as -> ->. rewrite char_eqb_refl. simpl. now apply IH.
Qed.

Lemma str_eqb_refl a : str_eqb a a = true.
Proof. now apply str_eqb_eq. Qed.

Lemma str_eqb_neq a b : str_eqb a b = false <-> a <> b.
Proof.
  split; intro H.
  - intro E. apply str_eqb_eq in E. congruence.
  - destruct (str_eqb a b) eqn:E; [|reflexivity]. apply str_eqb_eq in E. contradiction.
Qed.

(** ** The cursor *)

Lemma _get_next_char_unfold string self :
  _get_next_char string self =
  if Nat.eqb (_iter self) (length string) then (self, Return None)
  else match nth_error string (_iter self) with
       | Some c => (set_iter (_iter self + 1) self, Return (Some c))
       | None => (set_iter (_iter self + 1) self, Raise IndexError)
       end.
Proof.
  unfold _get_next_char, bind, gets, ret, modify, lift. simpl.
  destruct (Nat.eqb (_iter self) (length string)); [reflexivity|].
  replace (_iter self + 1 - 1) with (_iter self) by lia.
  destruct (nth_error string (_iter self)); reflexivity.
Qed.

(** With the cursor inside the string, [_get_next_char] hands out the head of
    what lies after the cursor and moves one step. *)
Lemma _get_next_char_skipn string self :
  _iter self <= length string ->
  _get_next_char string self =
  match skipn (_iter self) string with
  | [] => (self, Return None)
  | c :: _ => (set_iter (S (_iter self)) self, Return (Some c))
  end.
Proof.
  intro Hle. rewrite _get_next_char_unfold.
  destruct (Nat.eqb_spec (_iter self) (length string)) as [E|E].
  - rewrite E, skipn_all. reflexivity.
  - destruct (nth_error string (_iter self)) as [c|] eqn:Hn.
    + destruct (nth_error_split _ _ Hn) as (l1 & l2 & Hs & Hl).
      rewrite Hs at 1. rewrite <- Hl, skipn_app, skipn_all, Nat.sub_diag. simpl.
      now rewrite Nat.add_1_r.
    + apply nth_error_None in Hn. lia.
Qed.

Lemma skipn_S_tail (string : str) i c r :
  skipn i string = c :: r -> skipn (S i) string = r /\ S i <= length string.
Proof.
  intro H. split.
  - replace (S i) with (1 + i) by lia. rewrite <- skipn_skipn, H. reflexivity.
  - destruct (Nat.le_gt_cases (length string) i) as [Hl|Hl]; [|lia].
    rewrite skipn_all2 in H by lia. discriminate.
Qed.

(** ** Cutting a string at a character *)

Lemma break_at_Some c s a b :
  break_at c s = Some (a, b) <-> s = a ++ c :: b /\ ~ In c a.
Proof.
  revert a b. induction s as [|x r IH]; intros a b; simpl.
  - split; [discriminate|]. intros [H _]. destruct a; discriminate.
  - destruct (char_eqb x c) eqn:E.
    + apply char_eqb_eq in E. subst x. split.
      * intro H. injection H as <- <-. split; [reflexivity|intros []].
      * intros [H Hn]. destruct a as [|y a]; simpl in H.
        -- injection H as ->. reflexivity.
        -- injection H as -> _. exfalso. apply Hn. now left.
    + apply char_eqb_neq in E. split.
      * destruct (break_at c r) as [[a' b']|]; [|discriminate].
        intro H. injection H as <- <-.
        destruct (proj1 (IH a' b') eq_refl) as [-> Hn].
        split; [reflexivity|]. intros [H|H]; [congruence|contradiction].
      * intros [H Hn]. destruct a as [|y a]; simpl in H.
        -- injection H as -> _. congruence.
        -- injection H as -> ->.
           rewrite (proj2 (IH a b)); [reflexivity|].
           split; [reflexivity|]. intro H. apply Hn. now right.
Qed.

Lemma break_at_None c s : break_at c s = None <-> ~ In c s.
Proof.
  induction s as [|x r IH]; simpl.
  - split; [intros _ []|reflexivity].
  - destruct (char_eqb x c) eqn:E.
    + apply char_eqb_eq in E. split; [discriminate|]. intro H. exfalso. apply H. now left.
    + apply char_eqb_neq in E. destruct (break_at c r) as [[a b]|].
      * split; [discriminate|]. intro H. exfalso.
        assert (Hr : ~ In c r) by (intro; apply H; now right).
        apply IH in Hr. discriminate.
      * split; [|reflexivity]. intros _ [H|H]; [congruence|].
        now apply (proj1 IH).
Qed.

Lemma find_from_break c s :
  forall i, find_from s c i =
            match break_at c s with
            | Some (a, _) => (i + Z.of_nat (length a))%Z
            | None => (-1)%Z
            end.
Proof.
  induction s as [|x r IH]; intro i; simpl; [reflexivity|].
  destruct (char_eqb x c); [simpl; lia|].
  rewrite IH. destruct (break_at c r) as [[a b]|]; [|reflexivity].
  simpl length. lia.
Qed.

Lemma str_find_break c s :
  str_find s c =
  match break_at c s with
  | Some (a, _) => Z.of_nat (length a)
  | None => (-1)%Z
  end.
Proof.
  unfold str_find. rewrite find_from_break.
  destruct (break_at c s) as [[a b]|]; reflexivity.
Qed.

Lemma str_split_0 c s : str_split s c 0 = [s].
Proof.
  induction s as [|x r IH]; simpl; [reflexivity|].
  rewrite andb_false_r, IH. reflexivity.
Qed.

Lemma str_split_1 c s :
  str_split s c 1 =
  match break_at c s with
  | Some (a, b) => [a; b]
  | None => [s]
  end.
Proof.
  induction s as [|x r IH]; simpl; [reflexivity|].
  destruct (char_eqb x c); simpl.
  - now rewrite str_split_0.
  - rewrite IH. destruct (break_at c r) as [[a b]|]; reflexivity.
Qed.

(** When the first [?] is not after the first [#], that [#] is the first one
    of what follows the [?]. *)
Lemma break_at_twice c1 c2 s :
  c1 <> c2 ->
  forall p rest a b,
    break_at c1 s = Some (p, rest) ->
    break_at c2 s = Some (a, b) ->
    length p <= length a ->
    exists q, break_at c2 rest = Some (q, b) /\ a = p ++ c1 :: q.
Proof.
  intro Hne. induction s as [|x r IH]; intros p rest a b; simpl; [discriminate|].
  destruct (char_eqb x c1) eqn:E1.
  - apply char_eqb_eq in E1. subst x.
    intro H. injection H as <- <-.
    destruct (char_eqb c1 c2) eqn:E2; [apply char_eqb_eq in E2; contradiction|].
    destruct (break_at c2 r) as [[a' b']|]; [|discriminate].
    intros H _. injection H as <- <-. now exists a'.
  - destruct (break_at c1 r) as [[p' rest']|]; [|discriminate].
    intro H. injection H as <- <-.
    destruct (char_eqb x c2) eqn:E2.
    + intro H. injection H as <- <-. simpl. lia.
    + destruct (break_at c2 r) as [[a' b']|]; [|discriminate].
      intros H Hl. injection H as <- <-. simpl in Hl.
      destruct (IH p' rest' a' b' eq_refl eq_refl ltac:(lia)) as (q & Hq & ->).
      now exists q.
Qed.

(** ** [_split_uri] *)

Lemma question_neq_hash : ch "?" <> ch "#".
Proof. discriminate. Qed.

Lemma _split_uri_ref uri :
  _split_uri (__init__ uri) =
  match split_ref uri with
  | Ok (p, q, f) => (mkUriParser uri p f q [] 0, Return tt)
  | Err e => (__init__ uri, Raise e)
  end.
Proof.
  unfold _split_uri, split_ref, str_index.
  rewrite bind_run. cbn [gets __init__ _uri_content].
  rewrite !str_find_break, !str_split_1.
  destruct (break_at (ch "?") uri) as [[p rest]|] eqn:Eq;
    destruct (break_at (ch "#") uri) as [[a b]|] eqn:Eh.
  - replace (Z.of_nat (length p) =? -1)%Z with false by (symmetry; apply Z.eqb_neq; lia).
    replace (Z.of_nat (length a) =? -1)%Z with false by (symmetry; apply Z.eqb_neq; lia).
    cbn [negb]. unfold bind, lift. cbn [to_outcome].
    destruct (Nat.ltb_spec (length a) (length p)) as [Hl|Hl].
    + replace (Z.of_nat (length p) >? Z.of_nat (length a))%Z with true
        by (symmetry; apply Z.gtb_lt; lia). reflexivity.
    + replace (Z.of_nat (length p) >? Z.of_nat (length a))%Z with false
        by (symmetry; rewrite Z.gtb_ltb; apply Z.ltb_ge; lia).
      destruct (break_at_twice _ _ _ question_neq_hash _ _ _ _ Eq Eh Hl) as (q & Hq & _).
      rewrite Hq. cbn [getitem nth_error to_outcome modify].
      rewrite str_split_1, Hq. reflexivity.
  - replace (Z.of_nat (length p) =? -1)%Z with false by (symmetry; apply Z.eqb_neq; lia).
    reflexivity.
  - replace (Z.of_nat (length a) =? -1)%Z with false by (symmetry; apply Z.eqb_neq; lia).
    reflexivity.
  - reflexivity.
Qed.

Section Refinement.

Variable Py_UNICODE_ISSPACE : char -> bool.
Variable Py_UNICODE_TODECIMAL : char -> option N.

Local Abbreviation _decode' := (_decode Py_UNICODE_ISSPACE Py_UNICODE_TODECIMAL).
Local Abbreviation decode_pair' := (decode_pair Py_UNICODE_ISSPACE Py_UNICODE_TODECIMAL).
Local Abbreviation scan' := (scan Py_UNICODE_ISSPACE Py_UNICODE_TODECIMAL).
Local Abbreviation decode_while' := (decode_while Py_UNICODE_ISSPACE Py_UNICODE_TODECIMAL).

Lemma _decode_pair h1 h2 self :
  _decode' ([h1] ++ [h2]) self =
  (self, to_outcome (res_map (fun c => [c]) (decode_pair' h1 h2))).
Proof.
  unfold _decode, decode_pair. simpl.
  destruct (int16 _ _ _) as [v|]; [|reflexivity].
  unfold bind, lift, ret. destruct (chr v); reflexivity.
Qed.

Lemma decode_while_Some reject string fuel c out :
  decode_while' reject string (S fuel) (Some c) out =
  (out <-
     (if char_eqb c (ch "%") then
        first_hex_digit <- _get_next_char string ;;
        second_hex_digit <- _get_next_char string ;;
        match first_hex_digit, second_hex_digit with
        | Some h1, Some h2 => d <- _decode' ([h1] ++ [h2]) ;; ret (out ++ d)
        | _, _ => raise UriSyntaxError
        end
      else if reject c then raise UriSyntaxError
      else ret (out ++ [c])) ;;
   next_char <- _get_next_char string ;;
   decode_while' reject string fuel next_char out).
Proof. reflexivity. Qed.

Lemma res_map_app_cons (out : str) (d : char) (r : res str) :
  res_map (app out) (res_map (cons d) r) = res_map (app (out ++ [d])) r.
Proof. destruct r; simpl; [rewrite <- app_assoc|]; reflexivity. Qed.

(** Fetching the next character and entering the loop computes [scan] on what
    lies after the cursor; only the cursor is written. *)
Lemma decode_while_scan reject string :
  forall fuel self out,
    _iter self <= length string ->
    length (skipn (_iter self) string) < fuel ->
    exists k,
      (next_char <- _get_next_char string ;;
       decode_while' reject string fuel next_char out) self =
      (set_iter k self,
       to_outcome (res_map (app out) (scan' reject (skipn (_iter self) string)))).
Proof.
  induction fuel as [|fuel IH]; intros self out Hle Hfuel; [lia|].
  rewrite bind_run, (_get_next_char_skipn _ _ Hle).
  destruct (skipn (_iter self) string) as [|c r] eqn:Hr.
  { exists (_iter self). simpl. rewrite set_iter_same, app_nil_r. reflexivity. }
  destruct (skipn_S_tail _ _ _ _ Hr) as [Hr0 Hle0].
  set (self0 := set_iter (S (_iter self)) self).
  assert (Hi0 : _iter self0 = S (_iter self)) by reflexivity.
  rewrite decode_while_Some. cbn [length] in Hfuel. cbn [scan].
  rewrite bind_run.
  destruct (char_eqb c (ch "%")) eqn:Hc.
  - (* an escape *)
    rewrite bind_run, _get_next_char_skipn by (rewrite Hi0; exact Hle0).
    rewrite Hi0, Hr0.
    destruct r as [|h1 r1].
    { rewrite bind_run, _get_next_char_skipn by (rewrite Hi0; exact Hle0).
      rewrite Hi0, Hr0. exists (S (_iter self)). reflexivity. }
    destruct (skipn_S_tail _ _ _ _ Hr0) as [Hr1 Hle1].
    set (self1 := set_iter (S (S (_iter self))) self0).
    assert (Hi1 : _iter self1 = S (S (_iter self))) by reflexivity.
    rewrite bind_run, _get_next_char_skipn by (rewrite Hi1; exact Hle1).
    rewrite Hi1, Hr1.
    destruct r1 as [|h2 r2].
    { exists (S (S (_iter self))). reflexivity. }
    destruct (skipn_S_tail _ _ _ _ Hr1) as [Hr2 Hle2].
    set (self2 := set_iter (S (S (S (_iter self)))) self1).
    assert (Hi2 : _iter self2 = S (S (S (_iter self)))) by reflexivity.
    rewrite bind_run, _decode_pair.
    destruct (decode_pair' h1 h2) as [d|e]; cbn [res_map to_outcome].
    2:{ exists (S (S (S (_iter self)))). reflexivity. }
    unfold ret at 1.
    destruct (IH self2 (out ++ [d])) as [k Hk].
    { rewrite Hi2. exact Hle2. }
    { rewrite Hi2, Hr2. cbn [length] in Hfuel. lia. }
    rewrite Hk, Hi2, Hr2, res_map_app_cons. exists k. reflexivity.
  - destruct (reject c).
    { exists (S (_iter self)). reflexivity. }
    unfold ret at 1.
    destruct (IH self0 (out ++ [c])) as [k Hk].
    { rewrite Hi0. exact Hle0. }
    { rewrite Hi0, Hr0. lia. }
    rewrite Hk, Hi0, Hr0, res_map_app_cons. exists k. reflexivity.
Qed.


Local Abbreviation _parse_path_while' :=
  (_parse_path_while Py_UNICODE_ISSPACE Py_UNICODE_TODECIMAL).
Local Abbreviation _parse_fragment_while' :=
  (_parse_fragment_while Py_UNICODE_ISSPACE Py_UNICODE_TODECIMAL).
Local Abbreviation _decode_all_while' :=
  (_decode_all_while Py_UNICODE_ISSPACE Py_UNICODE_TODECIMAL).

(** [_get_next_char] and [_decode] write no field but the cursor. *)
Lemma _get_next_char_frame string self :
  exists k o, _get_next_char string self = (set_iter k self, o).
Proof.
  rewrite _get_next_char_unfold.
  destruct (Nat.eqb _ _).
  - exists (_iter self), (Return None). now rewrite set_iter_same.
  - destruct (nth_error _ _); eauto.
Qed.

Lemma _decode_frame hex_num self :
  exists o, _decode' hex_num self = (self, o).
Proof.
  unfold _decode. destruct (int16 _ _ _); [|eexists; reflexivity].
  unfold bind, lift, ret. destruct (chr z); eexists; reflexivity.
Qed.

(** Running a method body one call at a time. *)
Ltac run_fetch :=
  match goal with
  | |- context [_get_next_char ?s ?st] =>
      let k := fresh "k" in let o := fresh "o" in let E := fresh "E" in
      destruct (_get_next_char_frame s st) as (k & o & E);
      rewrite !E; clear E; destruct o as [[?|]| |];
      cbv beta iota; cbn [_path _fragment _query set_iter]; try reflexivity
  end.

Ltac run_decode :=
  match goal with
  | |- context [_decode ?a ?b ?h ?st] =>
      let o := fresh "o" in let E := fresh "E" in
      destruct (_decode_frame h st) as (o & E);
      rewrite !E; clear E; destruct o as [?| |];
      cbv beta iota; try reflexivity
  end.

Lemma _parse_path_while_shape :
  forall fuel next_char out self,
    _parse_path_while' fuel next_char out self =
    decode_while' path_reject (_path self) fuel next_char out self.
Proof.
  induction fuel as [|fuel IH]; intros next_char out self; [reflexivity|].
  destruct next_char as [c|]; [|reflexivity].
  cbn [_parse_path_while decode_while]. unfold path_reject.
  unfold bind, gets.
  destruct (char_eqb c (ch "%")).
  - do 2 run_fetch. run_decode. unfold ret; cbv beta iota; cbn [_path _fragment set_iter].
    run_fetch; rewrite IH; reflexivity.
  - destruct (in_tuple c _reserved_chars && _)%bool; [reflexivity|].
    unfold ret; cbv beta iota; cbn [_path _fragment set_iter]. run_fetch; rewrite IH; reflexivity.
Qed.

Lemma _parse_fragment_while_shape :
  forall fuel next_char out self,
    _parse_fragment_while' fuel next_char out self =
    decode_while' fragment_reject (_fragment self) fuel next_char out self.
Proof.
  induction fuel as [|fuel IH]; intros next_char out self; [reflexivity|].
  destruct next_char as [c|]; [|reflexivity].
  cbn [_parse_fragment_while decode_while]. unfold fragment_reject.
  unfold bind, gets.
  destruct (char_eqb c (ch "%")).
  - do 2 run_fetch. run_decode. unfold ret; cbv beta iota; cbn [_path _fragment set_iter].
    run_fetch; rewrite IH; reflexivity.
  - destruct (in_tuple c _reserved_chars); [reflexivity|].
    unfold ret; cbv beta iota; cbn [_path _fragment set_iter]. run_fetch; rewrite IH; reflexivity.
Qed.

Lemma _decode_all_while_shape string :
  forall fuel next_char out self,
    _decode_all_while' string fuel next_char out self =
    decode_while' no_reject string fuel next_char out self.
Proof.
  induction fuel as [|fuel IH]; intros next_char out self; [reflexivity|].
  destruct next_char as [c|]; [|reflexivity].
  cbn [_decode_all_while decode_while]. 
  unfold bind, no_reject.
  destruct (char_eqb c (ch "%")).
  - do 2 run_fetch. run_decode. unfold ret; cbv beta iota; cbn [_path _fragment set_iter].
    run_fetch; rewrite IH; reflexivity.
  - unfold ret; cbv beta iota; cbn [_path _fragment set_iter]. run_fetch; rewrite IH; reflexivity.
Qed.


Lemma res_map_app_nil (r : res str) : res_map (app []) r = r.
Proof. destruct r; reflexivity. Qed.

(** ** The three decoders *)

Local Abbreviation _decode_all' := (_decode_all Py_UNICODE_ISSPACE Py_UNICODE_TODECIMAL).
Local Abbreviation _parse_path' := (_parse_path Py_UNICODE_ISSPACE Py_UNICODE_TODECIMAL).
Local Abbreviation _parse_fragment' :=
  (_parse_fragment Py_UNICODE_ISSPACE Py_UNICODE_TODECIMAL).

Lemma _decode_all_scan string self :
  exists k,
    _decode_all' string self = (set_iter k self, to_outcome (scan' no_reject string)).
Proof.
  unfold _decode_all. rewrite bind_run. cbn [modify].
  rewrite (bind_ext _ _ (fun nc => decode_while' no_reject string (S (length string)) nc []))
    by (intros; apply _decode_all_while_shape).
  destruct (decode_while_scan no_reject string (S (length string)) (set_iter 0 self) [])
    as [k Hk]; cbn [_iter set_iter]; [lia|simpl; lia|].
  rewrite Hk. cbn [_iter set_iter skipn]. rewrite res_map_app_nil. now exists k.
Qed.

Lemma _parse_path_scan self :
  exists k,
    _parse_path' self =
    match scan' path_reject (_path self) with
    | Ok d => (set_iter k (set_path d self), Return tt)
    | Err e => (set_iter k self, Raise e)
    end.
Proof.
  unfold _parse_path. rewrite bind_run. cbn [modify].
  unfold gets at 1. rewrite bind_run. cbn [_path set_iter].
  rewrite (bind_ext_run _ _
             (fun nc => d <- decode_while' path_reject (_path self)
                               (S (length (_path self))) nc [] ;;
                        modify (set_path d))).
  2:{ intros nc st E. destruct (_get_next_char_frame (_path self) (set_iter 0 self))
        as (k & o & E'). rewrite E' in E. injection E as <- _.
      unfold gets at 1. rewrite bind_run. cbn [_path set_iter].
      rewrite !bind_run, _parse_path_while_shape. reflexivity. }
  rewrite <- bind_assoc, bind_run.
  destruct (decode_while_scan path_reject (_path self) (S (length (_path self)))
              (set_iter 0 self) []) as [k Hk]; cbn [_iter set_iter]; [lia|simpl; lia|].
  rewrite Hk. cbn [_iter set_iter skipn]. rewrite res_map_app_nil.
  exists k. destruct (scan' path_reject (_path self)); reflexivity.
Qed.

Lemma _parse_fragment_scan self :
  exists k,
    _parse_fragment' self =
    match scan' fragment_reject (_fragment self) with
    | Ok d => (set_iter k (set_fragment d self), Return tt)
    | Err e => (set_iter k self, Raise e)
    end.
Proof.
  unfold _parse_fragment. rewrite bind_run. cbn [modify].
  unfold gets at 1. rewrite bind_run. cbn [_fragment set_iter].
  rewrite (bind_ext_run _ _
             (fun nc => d <- decode_while' fragment_reject (_fragment self)
                               (S (length (_fragment self))) nc [] ;;
                        modify (set_fragment d))).
  2:{ intros nc st E. destruct (_get_next_char_frame (_fragment self) (set_iter 0 self))
        as (k & o & E'). rewrite E' in E. injection E as <- _.
      unfold gets at 1. rewrite bind_run. cbn [_fragment set_iter].
      rewrite !bind_run, _parse_fragment_while_shape. reflexivity. }
  rewrite <- bind_assoc, bind_run.
  destruct (decode_while_scan fragment_reject (_fragment self)
              (S (length (_fragment self))) (set_iter 0 self) [])
    as [k Hk]; cbn [_iter set_iter]; [lia|simpl; lia|].
  rewrite Hk. cbn [_iter set_iter skipn]. rewrite res_map_app_nil.
  exists k. destruct (scan' fragment_reject (_fragment self)); reflexivity.
Qed.


(** ** [_parse_query] *)

Local Abbreviation token_pair' := (token_pair Py_UNICODE_ISSPACE Py_UNICODE_TODECIMAL).
Local Abbreviation tokens_ref' := (tokens_ref Py_UNICODE_ISSPACE Py_UNICODE_TODECIMAL).
Local Abbreviation query_ref' := (query_ref Py_UNICODE_ISSPACE Py_UNICODE_TODECIMAL).
Local Abbreviation parse_ref' := (parse_ref Py_UNICODE_ISSPACE Py_UNICODE_TODECIMAL).
Local Abbreviation _parse_query_tokens' :=
  (_parse_query_tokens Py_UNICODE_ISSPACE Py_UNICODE_TODECIMAL).
Local Abbreviation _parse_query' := (_parse_query Py_UNICODE_ISSPACE Py_UNICODE_TODECIMAL).
Local Abbreviation parse' := (parse Py_UNICODE_ISSPACE Py_UNICODE_TODECIMAL).
Local Abbreviation run_parse' := (run_parse Py_UNICODE_ISSPACE Py_UNICODE_TODECIMAL).

Lemma _parse_query_charset_ref q self :
  _parse_query_charset q self =
  (self, if existsb query_reject q then Raise UriSyntaxError else Return tt).
Proof.
  induction q as [|c r IH]; [reflexivity|].
  cbn [_parse_query_charset existsb]. fold (query_reject c).
  destruct (query_reject c); [reflexivity|]. exact IH.
Qed.

Lemma _parse_query_tokens_ref tokens :
  forall self,
  exists k,
    _parse_query_tokens' tokens self =
    (set_iter k (set_query_params (fst (tokens_ref' tokens (_query_params self))) self),
     to_outcome (snd (tokens_ref' tokens (_query_params self)))).
Proof.
  induction tokens as [|token rest IH]; intro self.
  - exists (_iter self). destruct self; reflexivity.
  - cbn [_parse_query_tokens tokens_ref]. unfold token_pair.
    destruct (negb (Nat.eqb (str_count token (ch "=")) 1)).
    { exists (_iter self). destruct self; reflexivity. }
    rewrite bind_run. unfold lift at 1.
    destruct (unpack2 (str_split token (ch "=") 1)) as [[raw_key raw_value]|e];
      cbn [to_outcome fst snd].
    2:{ exists (_iter self). destruct self; reflexivity. }
    rewrite bind_run.
    destruct (_decode_all_scan raw_key self) as [k1 ->].
    destruct (scan' no_reject raw_key) as [key|e]; cbn [to_outcome fst snd].
    2:{ exists k1. destruct self; reflexivity. }
    rewrite bind_run.
    destruct (_decode_all_scan raw_value (set_iter k1 self)) as [k2 ->].
    destruct (scan' no_reject raw_value) as [value|e]; cbn [to_outcome fst snd].
    2:{ exists k2. destruct self; reflexivity. }
    rewrite bind_run. cbn [gets]. rewrite bind_run. cbn [modify].
    cbn [_query_params set_iter].
    destruct (IH (set_query_params (dict_setitem (_query_params self) key value)
                    (set_iter k2 (set_iter k1 self)))) as [k Hk].
    rewrite Hk. exists k. destruct self; reflexivity.
Qed.

Lemma _parse_query_ref self :
  exists k,
    _parse_query' self =
    (set_iter k (set_query_params
                   (fst (query_ref' (_query self) (_query_params self))) self),
     to_outcome (snd (query_ref' (_query self) (_query_params self)))).
Proof.
  unfold _parse_query, query_ref. rewrite bind_run. cbn [gets].
  destruct (str_eqb (_query self) []).
  { exists (_iter self). destruct self; reflexivity. }
  rewrite bind_run, _parse_query_charset_ref.
  destruct (existsb query_reject (_query self)).
  { exists (_iter self). destruct self; reflexivity. }
  rewrite bind_run. cbn [gets].
  apply _parse_query_tokens_ref.
Qed.

(** ** [parse] *)

(** [parse] on a fresh instance computes [parse_ref]: the fields it leaves
    and what it yields. *)
Lemma run_parse_ref uri :
  exists k,
    run_parse' uri =
    (let '(p, f, q, d) := fst (parse_ref' uri) in mkUriParser uri p f q d k,
     to_outcome (snd (parse_ref' uri))).
Proof.
  unfold run_parse, parse, parse_ref.
  rewrite bind_run, _split_uri_ref.
  destruct (split_ref uri) as [[[p q] f]|e].
  2:{ exists 0. reflexivity. }
  rewrite bind_run.
  destruct (_parse_path_scan (mkUriParser uri p f q [] 0)) as [k1 ->]. cbn [_path].
  destruct (scan' path_reject p) as [p'|e].
  2:{ exists k1. reflexivity. }
  rewrite bind_run.
  destruct (_parse_fragment_scan (set_iter k1 (set_path p' (mkUriParser uri p f q [] 0))))
    as [k2 ->].
  cbn [_fragment set_iter set_path].
  destruct (scan' fragment_reject f) as [f'|e].
  2:{ exists k2. reflexivity. }
  match goal with |- context [_parse_query _ _ ?st] =>
    destruct (_parse_query_ref st) as [k3 ->] end.
  cbn [_query _query_params set_iter set_path set_fragment].
  exists k3. destruct (query_ref' q []) as [d r]. reflexivity.
Qed.

End Refinement.

(** * The escape of a byte decodes to that byte *)

Lemma below_16_cases (d : N) :
  (d < 16)%N ->
  In d [0; 1; 2; 3; 4; 5; 6; 7; 8; 9; 10; 11; 12; 13; 14; 15]%N.
Proof.
  intro H.
  change [0; 1; 2; 3; 4; 5; 6; 7; 8; 9; 10; 11; 12; 13; 14; 15]%N
    with (map N.of_nat (seq 0 16)).
  apply in_map_iff. exists (N.to_nat d). split; [lia|]. apply in_seq. lia.
Qed.

Ltac digit_cases d H :=
  apply below_16_cases in H; cbn [In] in H;
  repeat (destruct H as [H|H]; [subst d|]); [..|contradiction].

(** A pair of hexadecimal digits is pure ASCII, holds no character that
    matters to the parser, and reads as the number it writes. *)
Lemma hex_pair_reads u1 u2 d1 d2 :
  (d1 < 16)%N -> (d2 < 16)%N ->
  let h1 := hex_digit u1 d1 in
  let h2 := hex_digit u2 d2 in
  forallb (fun c => (c <? 128)%N) [h1; h2] = true /\
  PyLong_FromString16 [h1; h2] = Some (Z.of_N (16 * d1 + d2)) /\
  in_tuple h1 (ch "%" :: _reserved_chars) = false /\
  in_tuple h2 (ch "%" :: _reserved_chars) = false.
Proof.
  intros H1 H2.
  destruct u1, u2; digit_cases d1 H1; digit_cases d2 H2; vm_compute; auto.
Qed.

Lemma in_tuple_In c t : in_tuple c t = true <-> In c t.
Proof.
  unfold in_tuple. rewrite existsb_exists. split.
  - intros (x & Hx & E). apply char_eqb_eq in E. now subst.
  - intro H. exists c. split; [exact H|apply char_eqb_refl].
Qed.

Lemma in_tuple_not_In c t : in_tuple c t = false <-> ~ In c t.
Proof.
  rewrite <- in_tuple_In. destruct (in_tuple c t); split; congruence.
Qed.

Section Escapes.

Variable Py_UNICODE_ISSPACE : char -> bool.
Variable Py_UNICODE_TODECIMAL : char -> option N.

Local Abbreviation int16' := (int16 Py_UNICODE_ISSPACE Py_UNICODE_TODECIMAL).
Local Abbreviation _decode' := (_decode Py_UNICODE_ISSPACE Py_UNICODE_TODECIMAL).
Local Abbreviation _decode_all' := (_decode_all Py_UNICODE_ISSPACE Py_UNICODE_TODECIMAL).
Local Abbreviation decode_pair' := (decode_pair Py_UNICODE_ISSPACE Py_UNICODE_TODECIMAL).
Local Abbreviation scan' := (scan Py_UNICODE_ISSPACE Py_UNICODE_TODECIMAL).
Local Abbreviation parse_ref' := (parse_ref Py_UNICODE_ISSPACE Py_UNICODE_TODECIMAL).
Local Abbreviation run_parse' := (run_parse Py_UNICODE_ISSPACE Py_UNICODE_TODECIMAL).

Lemma chr_byte (b : N) : (b < 256)%N -> chr (Z.of_N b) = Ok b.
Proof.
  intro H. unfold chr.
  destruct (Z.ltb_spec (Z.of_N b) (-2147483648)); [lia|].
  destruct (Z.ltb_spec 2147483647 (Z.of_N b)); [lia|].
  destruct (Z.ltb_spec (Z.of_N b) 0); [lia|].
  destruct (Z.ltb_spec 1114111 (Z.of_N b)); [lia|].
  cbn [orb]. now rewrite N2Z.id.
Qed.

Lemma decode_pair_hex u1 u2 b :
  (b < 256)%N ->
  decode_pair' (hex_digit u1 (b / 16)) (hex_digit u2 (b mod 16)) = Ok b.
Proof.
  intro Hb.
  assert (H1 : (b / 16 < 16)%N) by (apply N.Div0.div_lt_upper_bound; lia).
  assert (H2 : (b mod 16 < 16)%N) by (apply N.mod_lt; lia).
  destruct (hex_pair_reads u1 u2 _ _ H1 H2) as (Ha & Hv & _).
  unfold decode_pair, int16, _PyUnicode_TransformDecimalAndSpaceToASCII.
  rewrite Ha, Hv.
  replace (16 * (b / 16) + b mod 16)%N with b by (rewrite (N.div_mod b 16) at 1; lia).
  now apply chr_byte.
Qed.

Lemma scan_escape reject h1 h2 :
  scan' reject [ch "%"; h1; h2] = res_map (fun d => [d]) (decode_pair' h1 h2).
Proof. cbn. destruct (decode_pair' h1 h2); reflexivity. Qed.

Lemma percent_encode_no_delimiter u1 u2 b c :
  (b < 256)%N -> In c _reserved_chars -> ~ In c (percent_encode u1 u2 b).
Proof.
  intros Hb Hc.
  assert (H1 : (b / 16 < 16)%N) by (apply N.Div0.div_lt_upper_bound; lia).
  assert (H2 : (b mod 16 < 16)%N) by (apply N.mod_lt; lia).
  destruct (hex_pair_reads u1 u2 _ _ H1 H2) as (_ & _ & Hn1 & Hn2).
  cbv zeta in Hn1, Hn2. apply in_tuple_not_In in Hn1, Hn2.
  unfold percent_encode. intros [E|[E|[E|[]]]].
  - subst c. revert Hc. vm_compute. intuition discriminate.
  - apply Hn1. right. now rewrite E.
  - apply Hn2. right. now rewrite E.
Qed.

(** C9. For every byte [b] (00 to FF), the escape made of a percent sign and
    the two hexadecimal digits of [b], each digit in upper or in lower case,
    decodes to the one character of code point [b]: [_decode] on the digit
    pair, [_decode_all] on the escape, and [parse] on a path or on a fragment
    that is this escape. *)
Theorem percent_escape_roundtrip (upper1 upper2 : bool) (b : N) (self : UriParser) :
  (b < 256)%N ->
  _decode' [hex_digit upper1 (b / 16); hex_digit upper2 (b mod 16)] self
    = (self, Return [b]) /\
  snd (_decode_all' (percent_encode upper1 upper2 b) self) = Return [b] /\
  (exists st, run_parse' (percent_encode upper1 upper2 b) = (st, Return tt) /\
              get_path st = [b]) /\
  (exists st, run_parse' (ch "#" :: percent_encode upper1 upper2 b) = (st, Return tt) /\
              get_fragment st = [b]).
Proof.
  intro Hb. pose proof (decode_pair_hex upper1 upper2 b Hb) as Hd.
  assert (Hq : break_at (ch "?") (percent_encode upper1 upper2 b) = None).
  { apply break_at_None, percent_encode_no_delimiter; [exact Hb|].
    vm_compute. tauto. }
  assert (Hh : break_at (ch "#") (percent_encode upper1 upper2 b) = None).
  { apply break_at_None, percent_encode_no_delimiter; [exact Hb|].
    vm_compute. tauto. }
  repeat split.
  - change [hex_digit upper1 (b / 16); hex_digit upper2 (b mod 16)]
      with ([hex_digit upper1 (b / 16)] ++ [hex_digit upper2 (b mod 16)]).
    rewrite _decode_pair, Hd. reflexivity.
  - destruct (_decode_all_scan Py_UNICODE_ISSPACE Py_UNICODE_TODECIMAL
                (percent_encode upper1 upper2 b) self) as [k ->].
    unfold percent_encode. rewrite scan_escape, Hd. reflexivity.
  - destruct (run_parse_ref Py_UNICODE_ISSPACE Py_UNICODE_TODECIMAL
                (percent_encode upper1 upper2 b)) as [k ->].
    unfold parse_ref, split_ref. rewrite Hq, Hh.
    unfold percent_encode. rewrite scan_escape, Hd. cbn.
    eexists. split; reflexivity.
  - destruct (run_parse_ref Py_UNICODE_ISSPACE Py_UNICODE_TODECIMAL
                (ch "#" :: percent_encode upper1 upper2 b)) as [k ->].
    unfold parse_ref, split_ref.
    change (break_at (ch "?") (ch "#" :: percent_encode upper1 upper2 b))
      with (match break_at (ch "?") (percent_encode upper1 upper2 b) with
            | Some (a, b0) => Some (ch "#" :: a, b0)
            | None => None
            end).
    rewrite Hq.
    change (break_at (ch "#") (ch "#" :: percent_encode upper1 upper2 b))
      with (Some (@nil char, percent_encode upper1 upper2 b)).
    unfold percent_encode. rewrite scan_escape, Hd. cbn.
    eexists. split; reflexivity.
Qed.

End Escapes.

(** The escape [%2b] and the escape [%2B] both decode to a plus sign. *)
Lemma percent_escape_roundtrip_witness :
  snd (_decode_all unicode14_isspace unicode14_todecimal (py "%2b") (__init__ []))
    = Return (py "+") /\
  snd (_decode_all unicode14_isspace unicode14_todecimal (py "%2B") (__init__ []))
    = Return (py "+").
Proof.
  split.
  - apply (percent_escape_roundtrip unicode14_isspace unicode14_todecimal
             false false 43 (__init__ [])). reflexivity.
  - apply (percent_escape_roundtrip unicode14_isspace unicode14_todecimal
             false true 43 (__init__ [])). reflexivity.
Defined.

(** * Escapes that [int] accepts although they are not two hexadecimal digits

    [_decode] leaves the validation of the digit pair to [int(hex_num, 16)],
    which also accepts a sign and surrounding white space, and calls [chr]
    outside the [try]: a pair such as [+A] decodes, and a pair such as [-1]
    makes [chr] raise [ValueError], which nothing turns into
    [UriSyntaxError]. *)

Section SignedEscapes.

Variable Py_UNICODE_ISSPACE : char -> bool.
Variable Py_UNICODE_TODECIMAL : char -> option N.

Local Abbreviation run_parse' := (run_parse Py_UNICODE_ISSPACE Py_UNICODE_TODECIMAL).

(** C3. On the malformed input [%-1] (an escape whose digits are not
    hexadecimal), [parse] raises [ValueError], not [UriSyntaxError]. *)
Theorem parse_minus_escape_raises_ValueError :
  snd (run_parse' (py "%-1")) = Raise ValueError.
Proof. vm_compute. reflexivity. Qed.

(** C4. On the input [%+A], whose escape is not made of two hexadecimal
    digits, [parse] does not fail: the path is the line feed, code point 10.
    The same holds for a blank in place of a digit. *)
Theorem parse_signed_escape_succeeds :
  (exists st, run_parse' (py "%+A") = (st, Return tt) /\ get_path st = [10%N]) /\
  (exists st, run_parse' (py "% 1") = (st, Return tt) /\ get_path st = [1%N]) /\
  (exists st, run_parse' (py "%1 ") = (st, Return tt) /\ get_path st = [1%N]).
Proof. repeat split; eexists; split; vm_compute; reflexivity. Qed.

(** C5. On [%-1@] the raw path holds the unescaped reserved character [@],
    and on [#%-1@] the raw fragment does; [parse] raises [ValueError] on
    both, not [UriSyntaxError]. *)
Theorem parse_reserved_after_minus_escape :
  snd (run_parse' (py "%-1@")) = Raise ValueError /\
  snd (run_parse' (py "#%-1@")) = Raise ValueError.
Proof. split; vm_compute; reflexivity. Qed.

(** C6. On [?a=%-1&b] the raw query has the token [b], with no [=]; [parse]
    raises [ValueError], not [UriSyntaxError]. *)
Theorem parse_bad_token_after_minus_escape :
  snd (run_parse' (py "?a=%-1&b")) = Raise ValueError.
Proof. vm_compute. reflexivity. Qed.

End SignedEscapes.

(** * The splitter *)

Lemma break_at_slices c s a b :
  break_at c s = Some (a, b) ->
  str_find s c = Z.of_nat (length a) /\
  a = slice s 0 (Z.of_nat (length a)) /\
  b = slice_from s (Z.of_nat (length a) + 1).
Proof.
  intro H. rewrite str_find_break, H. split; [reflexivity|].
  apply break_at_Some in H. destruct H as [-> _].
  unfold slice, slice_from. split.
  - rewrite Z.sub_0_r, Nat2Z.id. cbn [Z.to_nat skipn].
    now rewrite firstn_app, Nat.sub_diag, firstn_all, app_nil_r.
  - replace (Z.to_nat (Z.of_nat (length a) + 1)) with (length a + 1) by lia.
    rewrite skipn_app, skipn_all2 by lia.
    replace (length a + 1 - length a) with 1 by lia. reflexivity.
Qed.

Lemma str_find_absent c s : str_find s c = (-1)%Z <-> break_at c s = None.
Proof.
  rewrite str_find_break. destruct (break_at c s) as [[a b]|]; split;
    try reflexivity; try discriminate. lia.
Qed.

Section Splitter.

Variable Py_UNICODE_ISSPACE : char -> bool.
Variable Py_UNICODE_TODECIMAL : char -> option N.

Local Abbreviation _decode_all' := (_decode_all Py_UNICODE_ISSPACE Py_UNICODE_TODECIMAL).
Local Abbreviation scan' := (scan Py_UNICODE_ISSPACE Py_UNICODE_TODECIMAL).
Local Abbreviation parse_ref' := (parse_ref Py_UNICODE_ISSPACE Py_UNICODE_TODECIMAL).
Local Abbreviation run_parse' := (run_parse Py_UNICODE_ISSPACE Py_UNICODE_TODECIMAL).

(** A pass that succeeds still succeeds, with the same result, when fewer
    literal characters are rejected. *)
Lemma scan_weaken (reject reject' : char -> bool) :
  (forall c, reject' c = true -> reject c = true) ->
  forall n s d, length s <= n -> scan' reject s = Ok d -> scan' reject' s = Ok d.
Proof.
  intro Hw. induction n as [|n IH]; intros s d Hn.
  - destruct s; [auto|simpl in Hn; lia].
  - destruct s as [|c r]; [auto|]. cbn [scan]. simpl in Hn.
    destruct (char_eqb c (ch "%")).
    + destruct r as [|h1 [|h2 r']]; try discriminate.
      destruct (decode_pair _ _ h1 h2) as [x|]; [|discriminate].
      destruct (scan' reject r') as [o|] eqn:E; [|discriminate].
      rewrite (IH r' o) by (simpl in Hn; auto; lia). auto.
    + destruct (reject c) eqn:Er; [discriminate|].
      destruct (reject' c) eqn:Er'; [apply Hw in Er'; congruence|].
      destruct (scan' reject r) as [o|] eqn:E; [|discriminate].
      rewrite (IH r o) by (auto; lia). auto.
Qed.

Lemma spec_hex_value_digit c a :
  spec_hex_value c = Some a -> (a < 16)%N /\ exists upper, c = hex_digit upper a.
Proof.
  unfold spec_hex_value, hex_digit.
  destruct ((48 <=? c) && (c <=? 57))%N eqn:E1.
  { apply andb_true_iff in E1. destruct E1 as [L U].
    apply N.leb_le in L, U. intro H. injection H as <-.
    split; [lia|]. exists true. destruct (N.ltb_spec (c - 48) 10); lia. }
  destruct ((65 <=? c) && (c <=? 70))%N eqn:E2.
  { apply andb_true_iff in E2. destruct E2 as [L U].
    apply N.leb_le in L, U. intro H. injection H as <-.
    split; [lia|]. exists true. destruct (N.ltb_spec (c - 55) 10); lia. }
  destruct ((97 <=? c) && (c <=? 102))%N eqn:E3; [|discriminate].
  apply andb_true_iff in E3. destruct E3 as [L U].
  apply N.leb_le in L, U. intro H. injection H as <-.
  split; [lia|]. exists false. destruct (N.ltb_spec (c - 87) 10); lia.
Qed.

(** On a pair of hexadecimal digits the code decodes as the specification
    does. *)
Lemma decode_pair_spec h1 h2 a b :
  spec_hex_value h1 = Some a -> spec_hex_value h2 = Some b ->
  decode_pair Py_UNICODE_ISSPACE Py_UNICODE_TODECIMAL h1 h2 = Ok (16 * a + b)%N.
Proof.
  intros H1 H2.
  apply spec_hex_value_digit in H1, H2.
  destruct H1 as [La [u1 ->]], H2 as [Lb [u2 ->]].
  assert (Hd : ((16 * a + b) / 16 = a)%N)
    by (symmetry; apply (N.div_unique _ _ _ b); lia).
  assert (Hm : ((16 * a + b) mod 16 = b)%N)
    by (symmetry; apply (N.mod_unique _ _ a); lia).
  rewrite <- Hd at 1. rewrite <- Hm at 2.
  apply decode_pair_hex. lia.
Qed.

(** Where the specification's decoding is defined, a pass of the code that
    succeeds gives it. *)
Lemma scan_spec_decode reject :
  forall n s p' d,
    length s <= n -> scan' reject s = Ok p' -> spec_percent_decode s = Some d -> p' = d.
Proof.
  induction n as [|n IH]; intros s p' d Hn.
  - destruct s; [|simpl in Hn; lia].
    cbn. intros H H'. injection H as <-. now injection H' as <-.
  - destruct s as [|c r];
      [cbn; intros H H'; injection H as <-; now injection H' as <-|].
    cbn [scan spec_percent_decode]. simpl in Hn.
    destruct (char_eqb c (ch "%")).
    + destruct r as [|h1 [|h2 r']]; try discriminate.
      destruct (spec_hex_value h1) as [a|] eqn:E1; [|discriminate].
      destruct (spec_hex_value h2) as [b|] eqn:E2; [|discriminate].
      rewrite (decode_pair_spec _ _ _ _ E1 E2).
      destruct (scan' reject r') as [o|] eqn:Eo; [|discriminate].
      destruct (spec_percent_decode r') as [o'|] eqn:Es; [|discriminate].
      intros H H'. injection H as <-. injection H' as <-.
      f_equal. apply (IH r'); auto. simpl in Hn. lia.
    + destruct (reject c); [discriminate|].
      destruct (scan' reject r) as [o|] eqn:Eo; [|discriminate].
      destruct (spec_percent_decode r) as [o'|] eqn:Es; [|discriminate].
      intros H H'. injection H as <-. injection H' as <-.
      f_equal. apply (IH r); auto. lia.
Qed.

(** Where the specification's decoding is defined and no character is
    rejected, the pass of the code succeeds. *)
Lemma spec_decode_scan reject :
  forall n s d,
    length s <= n ->
    (forall c, In c s -> reject c = false) ->
    spec_percent_decode s = Some d -> scan' reject s = Ok d.
Proof.
  induction n as [|n IH]; intros s d Hn Hr.
  - destruct s; [|simpl in Hn; lia].
    cbn. intros H. now injection H as <-.
  - destruct s as [|c r]; [cbn; intros H; now injection H as <-|].
    cbn [scan spec_percent_decode]. simpl in Hn.
    destruct (char_eqb c (ch "%")).
    + destruct r as [|h1 [|h2 r']]; try discriminate.
      destruct (spec_hex_value h1) as [a|] eqn:E1; [|discriminate].
      destruct (spec_hex_value h2) as [b|] eqn:E2; [|discriminate].
      rewrite (decode_pair_spec _ _ _ _ E1 E2).
      destruct (spec_percent_decode r') as [o'|] eqn:Es; [|discriminate].
      intro H. injection H as <-.
      rewrite (IH r' o'); auto; [simpl in Hn; lia|].
      intros c' Hc'. apply Hr. right. right. now right.
    + rewrite (Hr c) by now left.
      destruct (spec_percent_decode r) as [o'|] eqn:Es; [|discriminate].
      intro H. injection H as <-.
      rewrite (IH r o'); auto; [lia|].
      intros c' Hc'. apply Hr. now right.
Qed.

(** C2. The splitter uses the first [?] and the first [#] only.  With
    [iq] and [ih] their indices ([-1] when absent): when both occur and the
    [?] comes after the [#], [parse] raises [UriSyntaxError]; when both occur
    in order, the raw path is [uri[:iq]], the raw query [uri[iq+1:ih]] and the
    raw fragment [uri[ih+1:]]; when only one occurs, what follows it is the
    raw query (for [?]) or the raw fragment (for [#]); and when none occurs
    and [parse] succeeds, the path is the percent-decoded input, and the
    query parameters and the fragment are empty.  The percent-decoded
    input is what [_decode_all] returns (fifth part) and, for an input
    whose escapes are pairs of hexadecimal digits, the decoding [d] that the
    specification defines (last part): the path of a successful [parse] is
    [d], and [parse] does succeed when each reserved character of the input
    is [/] or [:]. *)
Theorem split_uri_partition (uri : str) :
  let iq := str_find uri (ch "?") in
  let ih := str_find uri (ch "#") in
  (iq <> -1 -> ih <> -1 -> ih < iq ->
   run_parse' uri = (__init__ uri, Raise UriSyntaxError))%Z /\
  (iq <> -1 -> ih <> -1 -> iq < ih ->
   exists st, _split_uri (__init__ uri) = (st, Return tt) /\
              _path st = slice uri 0 iq /\
              _query st = slice uri (iq + 1) ih /\
              _fragment st = slice_from uri (ih + 1))%Z /\
  (iq <> -1 -> ih = -1 ->
   exists st, _split_uri (__init__ uri) = (st, Return tt) /\
              _path st = slice uri 0 iq /\
              _query st = slice_from uri (iq + 1) /\
              _fragment st = [])%Z /\
  (iq = -1 -> ih <> -1 ->
   exists st, _split_uri (__init__ uri) = (st, Return tt) /\
              _path st = slice uri 0 ih /\
              _query st = [] /\
              _fragment st = slice_from uri (ih + 1))%Z /\
  (iq = -1 -> ih = -1 ->
   forall self, run_parse' uri = (self, Return tt) ->
                (forall st, snd (_decode_all' uri st) = Return (get_path self)) /\
                get_query_params self = [] /\
                get_fragment self = [])%Z /\
  (iq = -1 -> ih = -1 ->
   forall d, spec_percent_decode uri = Some d ->
             (forall self, run_parse' uri = (self, Return tt) -> get_path self = d) /\
             ((forall c, In c uri -> in_tuple c _reserved_chars = true ->
                         c = ch "/" \/ c = ch ":") ->
              exists self, run_parse' uri = (self, Return tt) /\
                           get_path self = d /\
                           get_query_params self = [] /\
                           get_fragment self = []))%Z.
Proof.
  cbv zeta.
  destruct (run_parse_ref Py_UNICODE_ISSPACE Py_UNICODE_TODECIMAL uri) as [k Hrun].
  pose proof (_split_uri_ref uri) as Hsplit.
  unfold parse_ref in Hrun. unfold split_ref in Hrun, Hsplit.
  destruct (break_at (ch "?") uri) as [[p rest]|] eqn:Eq;
    destruct (break_at (ch "#") uri) as [[a b]|] eqn:Eh.
  - (* both delimiters *)
    destruct (break_at_slices _ _ _ _ Eq) as (Hiq & Hp & Hrest).
    destruct (break_at_slices _ _ _ _ Eh) as (Hih & Ha & Hb).
    rewrite Hiq, Hih.
    repeat split; try (intros; exfalso; lia).
    + intros _ _ Hlt.
      destruct (Nat.ltb_spec (length a) (length p)); [|lia].
      unfold run_parse, parse. rewrite bind_run, Hsplit. reflexivity.
    + intros _ _ Hlt.
      destruct (Nat.ltb_spec (length a) (length p)) as [|Hle]; [lia|].
      destruct (break_at_twice _ _ _ question_neq_hash _ _ _ _ Eq Eh Hle)
        as (q & Hq & Hapq).
      rewrite Hq in Hsplit. eexists. split; [exact Hsplit|]. cbn [_path _query _fragment].
      repeat split; [exact Hp| |exact Hb].
      destruct (break_at_slices _ _ _ _ Hq) as (_ & Hq' & _).
      rewrite Hq' at 1. rewrite Hrest. unfold slice, slice_from.
      rewrite Hapq, length_app. cbn [length skipn Z.to_nat]. f_equal. lia.
  - (* only a question mark *)
    destruct (break_at_slices _ _ _ _ Eq) as (Hiq & Hp & Hrest).
    rewrite Hiq, (proj2 (str_find_absent _ _) Eh).
    repeat split; try (intros; exfalso; lia).
    intros _ _. eexists. split; [exact Hsplit|]. cbn [_path _query _fragment].
    repeat split; assumption.
  - (* only a hash *)
    destruct (break_at_slices _ _ _ _ Eh) as (Hih & Ha & Hb).
    rewrite Hih, (proj2 (str_find_absent _ _) Eq).
    repeat split; try (intros; exfalso; lia).
    intros _ _. eexists. split; [exact Hsplit|]. cbn [_path _query _fragment].
    repeat split; assumption.
  - (* no delimiter *)
    rewrite (proj2 (str_find_absent _ _) Eq), (proj2 (str_find_absent _ _) Eh).
    do 4 (split; [intros; exfalso; lia|]).
    split.
    + intros _ _ self Hself. rewrite Hself in Hrun.
      destruct (scan' path_reject uri) as [p'|e] eqn:Ep; [|discriminate].
      cbn in Hrun. injection Hrun as ->.
      unfold get_path, get_query_params, get_fragment.
      cbn [_path _fragment _query_params]. split; [|split; reflexivity].
      intro st.
      destruct (_decode_all_scan Py_UNICODE_ISSPACE Py_UNICODE_TODECIMAL uri st)
        as [k' ->]. cbn [snd].
      rewrite (scan_weaken path_reject no_reject ltac:(discriminate)
                 (length uri) uri p' (Nat.le_refl _) Ep).
      reflexivity.
    + intros _ _ d Hd. split.
      * intros self Hself. rewrite Hself in Hrun.
        destruct (scan' path_reject uri) as [p'|e] eqn:Ep; [|discriminate].
        cbn in Hrun. injection Hrun as ->. unfold get_path. cbn [_path].
        exact (scan_spec_decode path_reject (length uri) uri p' d (Nat.le_refl _) Ep Hd).
      * intro Hres.
        assert (Hrej : forall c, In c uri -> path_reject c = false).
        { intros c Hc. unfold path_reject.
          destruct (in_tuple c _reserved_chars) eqn:Er; [|reflexivity].
          destruct (Hres c Hc Er) as [-> | ->]; reflexivity. }
        rewrite (spec_decode_scan path_reject (length uri) uri d (Nat.le_refl _) Hrej Hd)
          in Hrun.
        cbn in Hrun. eexists. split; [exact Hrun|]. now repeat split.
Qed.

End Splitter.

(** The input [/a%41b] holds no delimiter and its escape is a pair of
    hexadecimal digits: [parse] succeeds and the path is [/aAb]. *)
Lemma split_uri_partition_witness :
  exists self,
    run_parse14 (py "/a%41b") = (self, Return tt) /\
    get_path self = py "/aAb" /\
    get_query_params self = [] /\
    get_fragment self = [].
Proof.
  pose proof (split_uri_partition unicode14_isspace unicode14_todecimal (py "/a%41b")) as T.
  cbv zeta in T. destruct T as (_ & _ & _ & _ & _ & T).
  assert (Hq : str_find (py "/a%41b") (ch "?") = (-1)%Z) by (vm_compute; reflexivity).
  assert (Hh : str_find (py "/a%41b") (ch "#") = (-1)%Z) by (vm_compute; reflexivity).
  assert (Hd : spec_percent_decode (py "/a%41b") = Some (py "/aAb"))
    by (vm_compute; reflexivity).
  specialize (T Hq Hh (py "/aAb") Hd). destruct T as [_ T]. apply T.
  intros c Hc Hr.
  repeat (destruct Hc as [<-|Hc]; [first [discriminate Hr|now left|now right]|]).
  destruct Hc.
Defined.

(** * The query parameters *)

Lemma str_count_app s1 s2 c : str_count (s1 ++ s2) c = str_count s1 c + str_count s2 c.
Proof. induction s1 as [|x r IH]; simpl; [reflexivity|]. rewrite IH. lia. Qed.

Lemma str_count_0 s c : str_count s c = 0 <-> ~ In c s.
Proof.
  induction s as [|x r IH]; simpl; [tauto|].
  destruct (char_eqb x c) eqn:E.
  - apply char_eqb_eq in E. split; [discriminate|]. intro H. exfalso. apply H. now left.
  - apply char_eqb_neq in E. simpl. rewrite IH. tauto.
Qed.

(** ** Dictionaries *)

Lemma str_eqb_sym a b : str_eqb a b = str_eqb b a.
Proof.
  destruct (str_eqb a b) eqn:E; symmetry.
  - apply str_eqb_eq in E. subst. apply str_eqb_refl.
  - apply str_eqb_neq. apply str_eqb_neq in E. congruence.
Qed.

Lemma dict_keys_setitem d k v :
  dict_keys (dict_setitem d k v) =
  if str_mem k (dict_keys d) then dict_keys d else dict_keys d ++ [k].
Proof.
  unfold dict_keys, str_mem.
  induction d as [|[k' v'] r IH]; [reflexivity|].
  cbn [dict_setitem map fst existsb].
  rewrite (str_eqb_sym k k').
  destruct (str_eqb k' k); [reflexivity|]. cbn [orb map fst].
  rewrite IH. now destruct (existsb (str_eqb k) (map fst r)).
Qed.

Lemma dict_get_setitem d k v k' :
  dict_get (dict_setitem d k v) k' = if str_eqb k k' then Some v else dict_get d k'.
Proof.
  induction d as [|[k0 v0] r IH]; [reflexivity|].
  cbn [dict_setitem dict_get].
  destruct (str_eqb k0 k) eqn:E0.
  - apply str_eqb_eq in E0. subst k0. cbn [dict_get].
    now destruct (str_eqb k k').
  - cbn [dict_get]. rewrite IH.
    destruct (str_eqb k0 k') eqn:E1; [|reflexivity].
    apply str_eqb_eq in E1. subst k0. now rewrite (str_eqb_sym k k'), E0.
Qed.

Lemma filter_filter_and {A} (f g : A -> bool) l :
  filter f (filter g l) = filter (fun x => g x && f x) l.
Proof.
  induction l as [|x l IH]; [reflexivity|]. simpl.
  destruct (g x); simpl; [destruct (f x)|]; now rewrite IH.
Qed.

(** The keys of a filled dictionary: those it had, then the new ones in the
    order of their first occurrence. *)
Lemma dict_keys_fill pairs :
  forall d,
    dict_keys (dict_fill pairs d) =
    dict_keys d ++ filter (fun k => negb (str_mem k (dict_keys d)))
                          (first_occurrences (map fst pairs)).
Proof.
  induction pairs as [|[k v] r IH]; intro d.
  - cbn. now rewrite app_nil_r.
  - cbn [dict_fill fold_left fst snd map first_occurrences filter].
    fold (dict_fill r (dict_setitem d k v)). rewrite IH, dict_keys_setitem.
    rewrite filter_filter_and.
    destruct (str_mem k (dict_keys d)) eqn:Ek; cbn [negb].
    + f_equal. apply filter_ext. intro x.
      destruct (str_eqb k x) eqn:E; [|reflexivity].
      apply str_eqb_eq in E. subst x. now rewrite Ek.
    + rewrite <- app_assoc. cbn [app]. do 2 f_equal. apply filter_ext. intro x.
      unfold str_mem. rewrite existsb_app. cbn [existsb].
      rewrite orb_false_r, negb_orb, (str_eqb_sym x k). apply andb_comm.
Qed.

Lemma dict_get_fill pairs k :
  forall d,
    dict_get (dict_fill pairs d) k =
    match last_value pairs k with
    | Some v => Some v
    | None => dict_get d k
    end.
Proof.
  induction pairs as [|[k' v'] r IH]; intro d; [reflexivity|].
  cbn [dict_fill fold_left fst snd last_value].
  fold (dict_fill r (dict_setitem d k' v')). rewrite IH, dict_get_setitem.
  destruct (last_value r k); [reflexivity|]. now destruct (str_eqb k' k).
Qed.


Section Query.

Variable Py_UNICODE_ISSPACE : char -> bool.
Variable Py_UNICODE_TODECIMAL : char -> option N.

Local Abbreviation _decode_all' := (_decode_all Py_UNICODE_ISSPACE Py_UNICODE_TODECIMAL).
Local Abbreviation scan' := (scan Py_UNICODE_ISSPACE Py_UNICODE_TODECIMAL).
Local Abbreviation token_pair' := (token_pair Py_UNICODE_ISSPACE Py_UNICODE_TODECIMAL).
Local Abbreviation tokens_ref' := (tokens_ref Py_UNICODE_ISSPACE Py_UNICODE_TODECIMAL).
Local Abbreviation query_ref' := (query_ref Py_UNICODE_ISSPACE Py_UNICODE_TODECIMAL).
Local Abbreviation parse_ref' := (parse_ref Py_UNICODE_ISSPACE Py_UNICODE_TODECIMAL).
Local Abbreviation run_parse' := (run_parse Py_UNICODE_ISSPACE Py_UNICODE_TODECIMAL).
Local Abbreviation token_decodes' :=
  (token_decodes Py_UNICODE_ISSPACE Py_UNICODE_TODECIMAL).

Lemma _decode_all_Return string d :
  (forall st, snd (_decode_all' string st) = Return d) <-> scan' no_reject string = Ok d.
Proof.
  split.
  - intro H. specialize (H (__init__ [])).
    destruct (_decode_all_scan Py_UNICODE_ISSPACE Py_UNICODE_TODECIMAL string (__init__ []))
      as [k Hk].
    rewrite Hk in H. cbn [snd] in H.
    destruct (scan' no_reject string); cbn in H; congruence.
  - intros H st.
    destruct (_decode_all_scan Py_UNICODE_ISSPACE Py_UNICODE_TODECIMAL string st)
      as [k ->].
    now rewrite H.
Qed.

Lemma token_pair_decodes token kv :
  token_pair' token = Ok kv <-> token_decodes' token kv.
Proof.
  unfold token_pair, token_decodes. rewrite str_split_1. split.
  - destruct (Nat.eqb_spec (str_count token (ch "=")) 1) as [Hc|]; [|discriminate].
    cbn [negb].
    destruct (break_at (ch "=") token) as [[rk rv]|] eqn:Eb; [|discriminate].
    cbn [unpack2]. apply break_at_Some in Eb. destruct Eb as [-> Hrk].
    rewrite str_count_app in Hc. cbn [str_count] in Hc.
    rewrite char_eqb_refl in Hc.
    destruct (scan' no_reject rk) as [k|] eqn:Ek; [|discriminate].
    destruct (scan' no_reject rv) as [v|] eqn:Ev; [|discriminate].
    intro H. injection H as <-. exists rk, rv. cbn [fst snd].
    repeat split; [exact Hrk| | |].
    + apply str_count_0. lia.
    + now apply _decode_all_Return.
    + now apply _decode_all_Return.
  - intros (rk & rv & -> & Hrk & Hrv & Hk & Hv).
    rewrite str_count_app. cbn [str_count]. rewrite char_eqb_refl.
    rewrite (proj2 (str_count_0 _ _) Hrk), (proj2 (str_count_0 _ _) Hrv).
    cbn [Nat.add Nat.eqb negb].
    rewrite (proj2 (break_at_Some _ _ _ _) (conj eq_refl Hrk)). cbn [unpack2].
    apply _decode_all_Return in Hk, Hv. rewrite Hk, Hv. now destruct kv.
Qed.

(** The token loop either goes through all tokens, or stops at the first
    token that fails; the dictionary holds the pairs of the tokens before. *)
Lemma tokens_ref_cases tokens :
  forall d0,
    (exists pairs,
        Forall2 token_decodes' tokens pairs /\
        tokens_ref' tokens d0 = (dict_fill pairs d0, Ok tt)) \/
    (exists done failing rest pairs e,
        tokens = done ++ failing :: rest /\
        Forall2 token_decodes' done pairs /\
        token_pair' failing = Err e /\
        tokens_ref' tokens d0 = (dict_fill pairs d0, Err e)).
Proof.
  induction tokens as [|token rest IH]; intro d0.
  - left. exists []. split; [constructor|reflexivity].
  - cbn [tokens_ref]. destruct (token_pair' token) as [[k v]|e] eqn:Et.
    + apply token_pair_decodes in Et.
      destruct (IH (dict_setitem d0 k v)) as [(pairs & Hf & Hr)|
                                               (done & failing & rest' & pairs & e & -> & Hf & He & Hr)].
      * left. exists ((k, v) :: pairs). split; [now constructor|exact Hr].
      * right. exists (token :: done), failing, rest', ((k, v) :: pairs), e.
        repeat split; [now constructor|exact He|exact Hr].
    + right. exists [], token, rest, [], e.
      repeat split; [constructor|exact Et].
Qed.

(** What a successful [parse] computed, stage by stage. *)
Lemma run_parse_Return uri self :
  run_parse' uri = (self, Return tt) ->
  exists p q f d k,
    split_ref uri = Ok (p, q, f) /\
    scan' path_reject p = Ok (_path self) /\
    scan' fragment_reject f = Ok (_fragment self) /\
    query_ref' q [] = (d, Ok tt) /\
    self = mkUriParser uri (_path self) (_fragment self) q d k.
Proof.
  intro H.
  destruct (run_parse_ref Py_UNICODE_ISSPACE Py_UNICODE_TODECIMAL uri) as [k Hk].
  rewrite H in Hk. unfold parse_ref in Hk.
  destruct (split_ref uri) as [[[p q] f]|e] eqn:Es; [|discriminate].
  destruct (scan' path_reject p) as [p'|e] eqn:Ep; [|discriminate].
  destruct (scan' fragment_reject f) as [f'|e] eqn:Ef; [|discriminate].
  destruct (query_ref' q []) as [d [[]|e]] eqn:Eq; [|discriminate].
  cbn in Hk. injection Hk as ->. exists p, q, f, d, k.
  cbn [_path _fragment]. repeat split; assumption || reflexivity.
Qed.


End Query.



(** * Reserved characters in the decoded path and fragment *)

Section Decoded.

Variable Py_UNICODE_ISSPACE : char -> bool.
Variable Py_UNICODE_TODECIMAL : char -> option N.

Local Abbreviation _decode' := (_decode Py_UNICODE_ISSPACE Py_UNICODE_TODECIMAL).
Local Abbreviation decode_pair' := (decode_pair Py_UNICODE_ISSPACE Py_UNICODE_TODECIMAL).
Local Abbreviation scan' := (scan Py_UNICODE_ISSPACE Py_UNICODE_TODECIMAL).
Local Abbreviation run_parse' := (run_parse Py_UNICODE_ISSPACE Py_UNICODE_TODECIMAL).
Local Abbreviation decoding' := (decoding Py_UNICODE_ISSPACE Py_UNICODE_TODECIMAL).

Lemma scan_decoding reject :
  forall n s d, length s <= n -> scan' reject s = Ok d -> decoding' reject s d.
Proof.
  induction n as [|n IH]; intros s d Hn.
  - destruct s; [|simpl in Hn; lia]. intro H. injection H as <-. constructor.
  - destruct s as [|c r]; [intro H; injection H as <-; constructor|].
    cbn [scan]. simpl in Hn.
    destruct (char_eqb c (ch "%")) eqn:Ec.
    + apply char_eqb_eq in Ec. subst c.
      destruct r as [|h1 [|h2 r']]; try discriminate.
      destruct (decode_pair' h1 h2) as [x|] eqn:Ed; [|discriminate].
      destruct (scan' reject r') as [o|] eqn:E; [|discriminate].
      intro H. injection H as <-. apply decoding_escape.
      * intro st. change [h1; h2] with ([h1] ++ [h2]).
        rewrite _decode_pair, Ed. reflexivity.
      * apply IH; [simpl in Hn; lia|exact E].
    + apply char_eqb_neq in Ec.
      destruct (reject c) eqn:Er; [discriminate|].
      destruct (scan' reject r) as [o|] eqn:E; [|discriminate].
      intro H. injection H as <-. apply decoding_literal; auto.
      apply IH; [lia|exact E].
Qed.

(** C1, amended. After a successful [parse], the decoded path is the raw
    path read from left to right in which every character copied literally is
    no reserved character other than [/] and [:], and the decoded fragment is
    the raw fragment in which every character copied literally is no reserved
    character; the characters that come from percent-escapes are not
    restricted. *)
Theorem decoded_literals_not_reserved (uri : str) (self : UriParser) :
  run_parse' uri = (self, Return tt) ->
  exists st,
    _split_uri (__init__ uri) = (st, Return tt) /\
    decoding' (fun c => in_tuple c _reserved_chars
                        && negb (in_tuple c [ch "/"; ch ":"]))
              (_path st) (get_path self) /\
    decoding' (fun c => in_tuple c _reserved_chars)
              (_fragment st) (get_fragment self).
Proof.
  intro H.
  destruct (run_parse_Return _ _ uri self H) as (p & q & f & d & k & Hs & Hp & Hf & _ & _).
  rewrite _split_uri_ref, Hs. eexists. split; [reflexivity|]. cbn [_path _fragment].
  split.
  - apply (scan_decoding path_reject (length p) p _ (Nat.le_refl _) Hp).
  - apply (scan_decoding fragment_reject (length f) f _ (Nat.le_refl _) Hf).
Qed.

End Decoded.

(** The path [/a%2Fb] and the fragment [x]. *)
Lemma decoded_literals_not_reserved_witness :
  let uri := py "/a%2Fb#x" in
  let self := mkUriParser uri (py "/a/b") (py "x") [] [] 1 in
  exists st,
    _split_uri (__init__ uri) = (st, Return tt) /\
    decoding unicode14_isspace unicode14_todecimal
             (fun c => in_tuple c _reserved_chars
                       && negb (in_tuple c [ch "/"; ch ":"]))
             (_path st) (get_path self) /\
    decoding unicode14_isspace unicode14_todecimal
             (fun c => in_tuple c _reserved_chars)
             (_fragment st) (get_fragment self).
Proof.
  intros uri self.
  apply (decoded_literals_not_reserved unicode14_isspace unicode14_todecimal uri self).
  vm_compute. reflexivity.
Defined.

(** C1 as stated fails: the path [%3F] decodes to a question mark, and the
    fragment [%2F] to a slash. *)
Lemma decoded_path_holds_reserved :
  (exists st, run_parse14 (py "%3F") = (st, Return tt) /\
              In (ch "?") (get_path st) /\
              in_tuple (ch "?") _reserved_chars = true /\
              in_tuple (ch "?") [ch "/"; ch ":"] = false) /\
  (exists st, run_parse14 (py "#%2F") = (st, Return tt) /\
              In (ch "/") (get_fragment st) /\
              in_tuple (ch "/") _reserved_chars = true).
Proof.
  split; eexists; (split; [vm_compute; reflexivity|]); vm_compute; auto.
Qed.

(** * What a failed [parse] leaves behind *)

Section Failure.

Variable Py_UNICODE_ISSPACE : char -> bool.
Variable Py_UNICODE_TODECIMAL : char -> option N.

Local Abbreviation scan' := (scan Py_UNICODE_ISSPACE Py_UNICODE_TODECIMAL).
Local Abbreviation token_pair' := (token_pair Py_UNICODE_ISSPACE Py_UNICODE_TODECIMAL).
Local Abbreviation tokens_ref' := (tokens_ref Py_UNICODE_ISSPACE Py_UNICODE_TODECIMAL).
Local Abbreviation query_ref' := (query_ref Py_UNICODE_ISSPACE Py_UNICODE_TODECIMAL).
Local Abbreviation parse_ref' := (parse_ref Py_UNICODE_ISSPACE Py_UNICODE_TODECIMAL).
Local Abbreviation _parse_path' := (_parse_path Py_UNICODE_ISSPACE Py_UNICODE_TODECIMAL).
Local Abbreviation _parse_fragment' :=
  (_parse_fragment Py_UNICODE_ISSPACE Py_UNICODE_TODECIMAL).
Local Abbreviation _parse_query_tokens' :=
  (_parse_query_tokens Py_UNICODE_ISSPACE Py_UNICODE_TODECIMAL).
Local Abbreviation run_parse' := (run_parse Py_UNICODE_ISSPACE Py_UNICODE_TODECIMAL).
Local Abbreviation token_decodes' :=
  (token_decodes Py_UNICODE_ISSPACE Py_UNICODE_TODECIMAL).

Lemma token_pair_Err_loop failing e st :
  token_pair' failing = Err e ->
  snd (_parse_query_tokens' [failing] st) = Raise e.
Proof.
  intro H.
  destruct (_parse_query_tokens_ref Py_UNICODE_ISSPACE Py_UNICODE_TODECIMAL [failing] st)
    as [k ->].
  cbn [tokens_ref snd]. rewrite H. reflexivity.
Qed.

(** C8, amended. When [parse] raises, it has stopped at the first violation,
    the stages being run in the order split, path, fragment, query, and the
    fields that the accessors read are left as they were at that point: the
    initial values when the split failed; the raw path and the raw fragment
    when the path failed; the decoded path and the raw fragment when the
    fragment failed; the decoded path, the decoded fragment and, when the
    query failed, no pair if a character was refused, else exactly the pairs
    of the tokens before the first token that fails. *)
Theorem parse_failure_state (uri : str) (self : UriParser) (e : exn) :
  run_parse' uri = (self, Raise e) ->
  (_split_uri (__init__ uri) = (__init__ uri, Raise e) /\ self = __init__ uri) \/
  exists st0,
    _split_uri (__init__ uri) = (st0, Return tt) /\
    ((snd (_parse_path' st0) = Raise e /\
      get_path self = _path st0 /\
      get_fragment self = _fragment st0 /\
      get_query_params self = []) \/
     (exists st1,
         _parse_path' st0 = (st1, Return tt) /\
         snd (_parse_fragment' st1) = Raise e /\
         get_path self = _path st1 /\
         get_fragment self = _fragment st0 /\
         get_query_params self = []) \/
     (exists st1 st2,
         _parse_path' st0 = (st1, Return tt) /\
         _parse_fragment' st1 = (st2, Return tt) /\
         get_path self = _path st1 /\
         get_fragment self = _fragment st2 /\
         _query st0 <> [] /\
         ((e = UriSyntaxError /\
           (exists c, In c (_query st0) /\ query_reject c = true) /\
           get_query_params self = []) \/
          (exists done failing rest pairs,
              str_split (_query st0) (ch "&") (-1) = done ++ failing :: rest /\
              Forall2 token_decodes' done pairs /\
              (forall st, snd (_parse_query_tokens' [failing] st) = Raise e) /\
              get_query_params self = dict_fill pairs [])))).
Proof.
  intro H.
  destruct (run_parse_ref Py_UNICODE_ISSPACE Py_UNICODE_TODECIMAL uri) as [k Hk].
  rewrite H in Hk. unfold parse_ref in Hk.
  pose proof (_split_uri_ref uri) as Hsplit.
  destruct (split_ref uri) as [[[p q] f]|e0] eqn:Es.
  2:{ left. cbn in Hk. injection Hk as -> ->. split; [exact Hsplit|].
      unfold run_parse, parse in H. rewrite bind_run, Hsplit in H. congruence. }
  right. eexists. split; [exact Hsplit|].
  set (st0 := mkUriParser uri p f q [] 0) in *.
  destruct (_parse_path_scan Py_UNICODE_ISSPACE Py_UNICODE_TODECIMAL st0) as [k1 Hpath].
  cbn [_path st0] in Hpath.
  destruct (scan' path_reject p) as [p'|e1] eqn:Ep.
  2:{ left. cbn in Hk. injection Hk as -> ->. rewrite Hpath. now repeat split. }
  right.
  set (st1 := set_iter k1 (set_path p' st0)) in *.
  destruct (_parse_fragment_scan Py_UNICODE_ISSPACE Py_UNICODE_TODECIMAL st1)
    as [k2 Hfrag].
  cbn [_fragment st1 st0 set_iter set_path] in Hfrag.
  destruct (scan' fragment_reject f) as [f'|e2] eqn:Ef.
  2:{ left. cbn in Hk. injection Hk as -> ->. exists st1.
      rewrite Hfrag. now repeat split. }
  right. exists st1. eexists. split; [exact Hpath|]. split; [exact Hfrag|].
  cbn [_fragment _path _query st1 st0 set_iter set_path set_fragment].
  unfold query_ref in Hk.
  destruct (str_eqb q []) eqn:Eq0; [cbn in Hk; discriminate|].
  apply str_eqb_neq in Eq0.
  destruct (existsb query_reject q) eqn:Er.
  - cbn in Hk. injection Hk as -> ->. repeat split; [exact Eq0|]. left.
    apply existsb_exists in Er. destruct Er as (c & Hc & Hr).
    repeat split. now exists c.
  - destruct (tokens_ref_cases Py_UNICODE_ISSPACE Py_UNICODE_TODECIMAL
                (str_split q (ch "&") (-1)) [])
      as [(pairs & _ & Hr)|(done & failing & rest & pairs & e3 & Ht & Hd & He & Hr)];
      rewrite Hr in Hk; cbn in Hk; [discriminate|].
    injection Hk as -> ->. repeat split; [exact Eq0|]. right.
    exists done, failing, rest, pairs. repeat split; [exact Ht|exact Hd|].
    intro st. now apply token_pair_Err_loop.
Qed.

End Failure.

(** On [p?a=1&b] the second token fails: the pair of the first one is left
    in the dictionary. *)
Lemma parse_failure_state_witness :
  let uri := py "p?a=1&b" in
  let self := mkUriParser uri (py "p") [] (py "a=1&b") [(py "a", py "1")] 1 in
  run_parse14 uri = (self, Raise UriSyntaxError) /\
  ((_split_uri (__init__ uri) = (__init__ uri, Raise UriSyntaxError) /\
    self = __init__ uri) \/
   exists st0, _split_uri (__init__ uri) = (st0, Return tt) /\ _query st0 = py "a=1&b").
Proof.
  intros uri self.
  assert (H : run_parse unicode14_isspace unicode14_todecimal uri
              = (self, Raise UriSyntaxError)) by (vm_compute; reflexivity).
  split; [exact H|].
  destruct (parse_failure_state unicode14_isspace unicode14_todecimal uri self
              UriSyntaxError H) as [Hl|(st0 & Hs & _)].
  - left. exact Hl.
  - right. exists st0. split; [exact Hs|].
    rewrite _split_uri_ref in Hs. vm_compute in Hs. injection Hs as <-. reflexivity.
Defined.

(** C8 as stated fails: after [parse] has raised on [p?a=1&b], the
    accessors return the decoded path and the pair of the first token. *)
Lemma failed_parse_exposes_partial_results :
  exists st,
    run_parse14 (py "p?a=1&b") = (st, Raise UriSyntaxError) /\
    get_path st = py "p" /\
    get_query_params st = [(py "a", py "1")].
Proof.
  eexists. split; [vm_compute; reflexivity|]. split; reflexivity.
Qed.

(** * Tokens with an empty key or an empty value *)

Lemma str_split_not_nil s sep m : str_split s sep m <> [].
Proof.
  destruct s as [|x r]; simpl; [discriminate|].
  destruct (char_eqb x sep && negb (m =? 0)%Z); [discriminate|].
  destruct (str_split r sep m); discriminate.
Qed.

Lemma str_split_no_sep s sep : forall m, ~ In sep s -> str_split s sep m = [s].
Proof.
  induction s as [|x r IH]; intros m Hn; [reflexivity|]. simpl.
  destruct (char_eqb x sep) eqn:E.
  - apply char_eqb_eq in E. exfalso. apply Hn. now left.
  - cbn [andb]. rewrite IH; [reflexivity|]. intro H. apply Hn. now right.
Qed.

Lemma break_at_app c a b : ~ In c a -> break_at c (a ++ c :: b) = Some (a, b).
Proof. intro H. now apply break_at_Some. Qed.

Lemma split_ref_assemble p q frag :
  ~ In (ch "?") p -> ~ In (ch "#") p -> ~ In (ch "#") q ->
  split_ref (assemble p q frag) =
  Ok (p, q, match frag with Some f => f | None => [] end).
Proof.
  intros Hqp Hhp Hhq. unfold split_ref, assemble.
  rewrite (break_at_app _ _ _ Hqp).
  assert (Hpre : ~ In (ch "#") (p ++ ch "?" :: q)).
  { intro H. apply in_app_or in H. destruct H as [H|[H|H]]; auto. discriminate. }
  destruct frag as [f|].
  - replace (p ++ ch "?" :: q ++ ch "#" :: f) with ((p ++ ch "?" :: q) ++ ch "#" :: f)
      by (rewrite <- app_assoc; reflexivity).
    rewrite (break_at_app _ _ _ Hpre), (break_at_app _ _ _ Hhq).
    destruct (Nat.ltb_spec (length (p ++ ch "?" :: q)) (length p)) as [Hl|]; [|reflexivity].
    rewrite length_app in Hl. lia.
  - rewrite app_nil_r. rewrite (proj2 (break_at_None _ _) Hpre). reflexivity.
Qed.







Section EmptyKeyOrValue.

Variable Py_UNICODE_ISSPACE : char -> bool.
Variable Py_UNICODE_TODECIMAL : char -> option N.

Local Abbreviation _decode_all' := (_decode_all Py_UNICODE_ISSPACE Py_UNICODE_TODECIMAL).
Local Abbreviation scan' := (scan Py_UNICODE_ISSPACE Py_UNICODE_TODECIMAL).
Local Abbreviation token_pair' := (token_pair Py_UNICODE_ISSPACE Py_UNICODE_TODECIMAL).
Local Abbreviation tokens_ref' := (tokens_ref Py_UNICODE_ISSPACE Py_UNICODE_TODECIMAL).
Local Abbreviation query_ref' := (query_ref Py_UNICODE_ISSPACE Py_UNICODE_TODECIMAL).
Local Abbreviation parse_ref' := (parse_ref Py_UNICODE_ISSPACE Py_UNICODE_TODECIMAL).
Local Abbreviation run_parse' := (run_parse Py_UNICODE_ISSPACE Py_UNICODE_TODECIMAL).
Local Abbreviation token_decodes' :=
  (token_decodes Py_UNICODE_ISSPACE Py_UNICODE_TODECIMAL).





End EmptyKeyOrValue.


(** * Which exceptions [parse] raises *)

Lemma _PyLong_DigitValue_nonneg c : (0 <= _PyLong_DigitValue c)%Z.
Proof.
  unfold _PyLong_DigitValue.
  destruct ((48 <=? c) && (c <=? 57))%N eqn:E1.
  { apply andb_true_iff in E1. destruct E1 as [E _]. apply N.leb_le in E. lia. }
  destruct ((97 <=? c) && (c <=? 122))%N eqn:E2.
  { apply andb_true_iff in E2. destruct E2 as [E _]. apply N.leb_le in E. lia. }
  destruct ((65 <=? c) && (c <=? 90))%N eqn:E3.
  { apply andb_true_iff in E3. destruct E3 as [E _]. apply N.leb_le in E. lia. }
  lia.
Qed.

Lemma scan_digits_bound a :
  forall prev acc n v n' rest,
    scan_digits a prev acc n = Some (v, n', rest) ->
    (0 <= acc)%Z ->
    (0 <= v < (acc + 1) * 16 ^ Z.of_nat (length a))%Z.
Proof.
  induction a as [|c r IH]; intros prev acc n v n' rest H Hacc.
  - cbn in H. destruct prev; [discriminate|]. injection H as <- _ _. cbn. lia.
  - cbn [scan_digits] in H.
    assert (Hpow : (16 ^ Z.of_nat (length (c :: r)) = 16 * 16 ^ Z.of_nat (length r))%Z).
    { cbn [length]. rewrite Nat2Z.inj_succ, Z.pow_succ_r; lia. }
    assert (Hpos : (0 < 16 ^ Z.of_nat (length r))%Z) by (apply Z.pow_pos_nonneg; lia).
    rewrite Hpow.
    destruct (char_eqb c (ch "_")).
    + destruct prev; [discriminate|].
      apply IH in H; [nia|exact Hacc].
    + destruct (Z.ltb_spec (_PyLong_DigitValue c) 16) as [Hd|Hd].
      * pose proof (_PyLong_DigitValue_nonneg c).
        apply IH in H; [nia|lia].
      * destruct prev; [discriminate|]. injection H as <- _ _. nia.
Qed.

Lemma skip_spaces_length a : length (skip_spaces a) <= length a.
Proof.
  induction a as [|c r IH]; [auto|]. cbn [skip_spaces].
  destruct (Py_ISSPACE c); cbn [length]; lia.
Qed.

(** The number [PyLong_FromString16] reads has fewer hexadecimal digits than
    the buffer has characters. *)
Lemma PyLong_FromString16_bound a v :
  PyLong_FromString16 a = Some v ->
  (- 16 ^ Z.of_nat (length a) < v < 16 ^ Z.of_nat (length a))%Z.
Proof.
  unfold PyLong_FromString16. pose proof (skip_spaces_length a) as Hs.
  set (a0 := skip_spaces a) in *. clearbody a0.
  set (sa := match a0 with
             | c :: r => if char_eqb c (ch "+") then (1%Z, r)
                         else if char_eqb c (ch "-") then ((-1)%Z, r) else (1%Z, a0)
             | [] => (1%Z, a0)
             end).
  assert (Hsa : (fst sa = 1 \/ fst sa = -1)%Z /\ length (snd sa) <= length a0).
  { subst sa. destruct a0 as [|c r]; [cbn; auto|].
    destruct (char_eqb c (ch "+")); [cbn; auto|].
    destruct (char_eqb c (ch "-")); cbn; auto. }
  destruct sa as [sign a1]. cbn [fst snd] in Hsa. destruct Hsa as [Hsign Hl1].
  set (a2 := match a1 with
             | c :: x :: r =>
                 if char_eqb c (ch "0") && (char_eqb x (ch "x") || char_eqb x (ch "X"))
                 then match r with
                      | u :: r' => if char_eqb u (ch "_") then r' else r
                      | [] => r
                      end
                 else a1
             | _ => a1
             end).
  assert (Hl2 : length a2 <= length a1).
  { subst a2. destruct a1 as [|c [|x r]]; auto.
    destruct (char_eqb c (ch "0") && _); auto.
    destruct r as [|u r']; [cbn [length]; lia|].
    destruct (char_eqb u (ch "_")); cbn [length]; lia. }
  clearbody a2.
  destruct a2 as [|u r2]; [discriminate|].
  destruct (char_eqb u (ch "_")); [discriminate|].
  destruct (scan_digits (u :: r2) false 0 0) as [[[v0 n] rest]|] eqn:E; [|discriminate].
  destruct n; [discriminate|].
  destruct (skip_spaces rest); [|discriminate].
  intro H. injection H as <-.
  apply scan_digits_bound in E; [|lia].
  assert (Hmono : (16 ^ Z.of_nat (length (u :: r2)) <= 16 ^ Z.of_nat (length a))%Z)
    by (apply Z.pow_le_mono_r; lia).
  destruct Hsign as [-> | ->]; lia.
Qed.

Section Exceptions.

Variable Py_UNICODE_ISSPACE : char -> bool.
Variable Py_UNICODE_TODECIMAL : char -> option N.

Local Abbreviation int16' := (int16 Py_UNICODE_ISSPACE Py_UNICODE_TODECIMAL).
Local Abbreviation decode_pair' := (decode_pair Py_UNICODE_ISSPACE Py_UNICODE_TODECIMAL).
Local Abbreviation scan' := (scan Py_UNICODE_ISSPACE Py_UNICODE_TODECIMAL).
Local Abbreviation token_pair' := (token_pair Py_UNICODE_ISSPACE Py_UNICODE_TODECIMAL).
Local Abbreviation tokens_ref' := (tokens_ref Py_UNICODE_ISSPACE Py_UNICODE_TODECIMAL).
Local Abbreviation query_ref' := (query_ref Py_UNICODE_ISSPACE Py_UNICODE_TODECIMAL).
Local Abbreviation parse_ref' := (parse_ref Py_UNICODE_ISSPACE Py_UNICODE_TODECIMAL).
Local Abbreviation run_parse' := (run_parse Py_UNICODE_ISSPACE Py_UNICODE_TODECIMAL).

Lemma transform_nonascii_length s :
  length (transform_nonascii Py_UNICODE_ISSPACE Py_UNICODE_TODECIMAL s) <= length s.
Proof.
  induction s as [|c r IH]; [auto|]. cbn [transform_nonascii].
  destruct (c <? 127)%N; [cbn; lia|].
  destruct (Py_UNICODE_ISSPACE c); [cbn; lia|].
  destruct (Py_UNICODE_TODECIMAL c); cbn; lia.
Qed.

Lemma int16_pair_bound h1 h2 v :
  int16' [h1; h2] = Some v -> (-256 < v < 256)%Z.
Proof.
  unfold int16, _PyUnicode_TransformDecimalAndSpaceToASCII. intro H.
  match type of H with PyLong_FromString16 ?t = _ => set (a := t) in * end.
  assert (Hl : length a <= 2).
  { subst a. destruct (forallb _ _); [auto|]. apply (transform_nonascii_length [h1; h2]). }
  clearbody a. apply PyLong_FromString16_bound in H.
  assert (Hmono : (16 ^ Z.of_nat (length a) <= 16 ^ 2)%Z)
    by (apply Z.pow_le_mono_r; lia).
  change (16 ^ 2)%Z with 256%Z in Hmono. lia.
Qed.

(** An escape fails with [UriSyntaxError], or with [ValueError] when [int]
    reads its two characters as a negative number. *)
Lemma decode_pair_Err h1 h2 e :
  decode_pair' h1 h2 = Err e ->
  e = UriSyntaxError \/
  (e = ValueError /\ exists v, int16' [h1; h2] = Some v /\ (v < 0)%Z).
Proof.
  unfold decode_pair. destruct (int16' [h1; h2]) as [v|] eqn:Ei.
  - pose proof (int16_pair_bound _ _ _ Ei) as Hb. unfold chr.
    destruct (Z.ltb_spec v (-2147483648)); [lia|].
    destruct (Z.ltb_spec 2147483647 v); [lia|]. cbn [orb].
    destruct (Z.ltb_spec v 0).
    + intro He. injection He as <-. right. split; [reflexivity|]. now exists v.
    + destruct (Z.ltb_spec 1114111 v); [lia|]. discriminate.
  - intro H. injection H as <-. now left.
Qed.

Lemma scan_Err reject :
  forall n s e, length s <= n -> scan' reject s = Err e ->
                e = UriSyntaxError \/ e = ValueError.
Proof.
  induction n as [|n IH]; intros s e Hn.
  - destruct s; [discriminate|simpl in Hn; lia].
  - destruct s as [|c r]; [discriminate|]. cbn [scan]. simpl in Hn.
    destruct (char_eqb c (ch "%")).
    + destruct r as [|h1 [|h2 r']]; try (intro H; injection H as <-; now left).
      destruct (decode_pair' h1 h2) as [x|e'] eqn:Ed.
      * destruct (scan' reject r') as [o|e'] eqn:E; [discriminate|].
        intro H. injection H as <-. apply (IH r'); [simpl in Hn; lia|exact E].
      * intro H. injection H as <-.
        destruct (decode_pair_Err _ _ _ Ed) as [->|[-> _]]; auto.
    + destruct (reject c); [intro H; injection H as <-; now left|].
      destruct (scan' reject r) as [o|e'] eqn:E; [discriminate|].
      intro H. injection H as <-. apply (IH r); [lia|exact E].
Qed.

Lemma token_pair_Err token e :
  token_pair' token = Err e -> e = UriSyntaxError \/ e = ValueError.
Proof.
  unfold token_pair.
  destruct (negb _); [intro H; injection H as <-; now left|].
  destruct (unpack2 _) as [[rk rv]|e'] eqn:Eu.
  - destruct (scan' no_reject rk) as [k|e'] eqn:Ek.
    + destruct (scan' no_reject rv) as [v|e'] eqn:Ev; [discriminate|].
      intro H. injection H as <-. apply (scan_Err no_reject (length rv) rv); auto.
    + intro H. injection H as <-. apply (scan_Err no_reject (length rk) rk); auto.
  - intro H. injection H as <-. right.
    unfold unpack2 in Eu. destruct (str_split _ _ _) as [|? [|? [|? ?]]]; congruence.
Qed.

Lemma split_ref_Err uri e : split_ref uri = Err e -> e = UriSyntaxError.
Proof.
  unfold split_ref.
  destruct (break_at (ch "?") uri) as [[p rest]|] eqn:Eq;
    destruct (break_at (ch "#") uri) as [[a b]|] eqn:Eh; try discriminate.
  destruct (Nat.ltb_spec (length a) (length p)) as [|Hl]; [congruence|].
  destruct (break_at_twice _ _ _ question_neq_hash _ _ _ _ Eq Eh Hl) as (q & -> & _).
  discriminate.
Qed.

(** [parse] terminates within the bounds given to its loops, and when it
    raises, the exception is [UriSyntaxError] or [ValueError]. *)
Theorem parse_outcomes (uri : str) :
  snd (run_parse' uri) = Return tt \/
  snd (run_parse' uri) = Raise UriSyntaxError \/
  snd (run_parse' uri) = Raise ValueError.
Proof.
  destruct (run_parse_ref Py_UNICODE_ISSPACE Py_UNICODE_TODECIMAL uri) as [k ->].
  cbn [snd]. unfold parse_ref.
  destruct (split_ref uri) as [[[p q] f]|e] eqn:Es.
  2:{ apply split_ref_Err in Es. subst e. auto. }
  destruct (scan' path_reject p) as [p'|e] eqn:Ep.
  2:{ destruct (scan_Err _ (length p) p e (Nat.le_refl _) Ep) as [-> | ->]; auto. }
  destruct (scan' fragment_reject f) as [f'|e] eqn:Ef.
  2:{ destruct (scan_Err _ (length f) f e (Nat.le_refl _) Ef) as [-> | ->]; auto. }
  unfold query_ref. destruct (str_eqb q []); [auto|].
  destruct (existsb query_reject q); [auto|].
  destruct (tokens_ref_cases Py_UNICODE_ISSPACE Py_UNICODE_TODECIMAL
              (str_split q (ch "&") (-1)) [])
    as [(pairs & _ & ->)|(done & failing & rest & pairs & e & _ & _ & He & ->)]; [auto|].
  destruct (token_pair_Err _ _ He) as [-> | ->]; auto.
Qed.

End Exceptions.

(** * The first violation *)

Section FirstViolation.

Variable Py_UNICODE_ISSPACE : char -> bool.
Variable Py_UNICODE_TODECIMAL : char -> option N.

Local Abbreviation int16' := (int16 Py_UNICODE_ISSPACE Py_UNICODE_TODECIMAL).
Local Abbreviation _decode' := (_decode Py_UNICODE_ISSPACE Py_UNICODE_TODECIMAL).
Local Abbreviation decode_pair' := (decode_pair Py_UNICODE_ISSPACE Py_UNICODE_TODECIMAL).
Local Abbreviation scan' := (scan Py_UNICODE_ISSPACE Py_UNICODE_TODECIMAL).
Local Abbreviation token_pair' := (token_pair Py_UNICODE_ISSPACE Py_UNICODE_TODECIMAL).
Local Abbreviation tokens_ref' := (tokens_ref Py_UNICODE_ISSPACE Py_UNICODE_TODECIMAL).
Local Abbreviation query_ref' := (query_ref Py_UNICODE_ISSPACE Py_UNICODE_TODECIMAL).
Local Abbreviation parse_ref' := (parse_ref Py_UNICODE_ISSPACE Py_UNICODE_TODECIMAL).
Local Abbreviation run_parse' := (run_parse Py_UNICODE_ISSPACE Py_UNICODE_TODECIMAL).
Local Abbreviation decoding' := (decoding Py_UNICODE_ISSPACE Py_UNICODE_TODECIMAL).
Local Abbreviation token_decodes' :=
  (token_decodes Py_UNICODE_ISSPACE Py_UNICODE_TODECIMAL).
Local Abbreviation violation' := (violation Py_UNICODE_ISSPACE Py_UNICODE_TODECIMAL).

Lemma decoding_scan reject s d : decoding' reject s d -> scan' reject s = Ok d.
Proof.
  induction 1 as [|c raw out Hc Hr _ IH|h1 h2 x raw out Hd _ IH]; [reflexivity| |].
  - cbn [scan]. apply char_eqb_neq in Hc. now rewrite Hc, Hr, IH.
  - cbn [scan]. rewrite char_eqb_refl.
    specialize (Hd (__init__ [])). change [h1; h2] with ([h1] ++ [h2]) in Hd.
    rewrite _decode_pair in Hd.
    destruct (decode_pair' h1 h2) as [y|]; [|discriminate].
    cbn in Hd. injection Hd as ->. now rewrite IH.
Qed.

(** A pass over [s0 ++ t] that gets through [s0] goes on with [t]. *)
Lemma scan_app reject s0 d t :
  decoding' reject s0 d ->
  scan' reject (s0 ++ t) = res_map (app d) (scan' reject t).
Proof.
  induction 1 as [|c raw out Hc Hr _ IH|h1 h2 x raw out Hd _ IH].
  - cbn [app]. now destruct (scan' reject t).
  - cbn [app scan]. apply char_eqb_neq in Hc. rewrite Hc, Hr, IH.
    now destruct (scan' reject t).
  - cbn [app scan]. rewrite char_eqb_refl.
    specialize (Hd (__init__ [])). change [h1; h2] with ([h1] ++ [h2]) in Hd.
    rewrite _decode_pair in Hd.
    destruct (decode_pair' h1 h2) as [y|]; [|discriminate].
    cbn in Hd. injection Hd as ->. rewrite IH.
    now destruct (scan' reject t).
Qed.

Lemma scan_violation reject s0 d t :
  decoding' reject s0 d -> violation' reject t ->
  scan' reject (s0 ++ t) = Err UriSyntaxError.
Proof.
  intros Hd Hv. rewrite (scan_app _ _ _ t Hd).
  destruct Hv as [t Hl|h1 h2 t Hi|c t Hc Hr]; cbn [scan].
  - rewrite char_eqb_refl. destruct t as [|h1 [|h2 t]]; try reflexivity.
    simpl in Hl. lia.
  - rewrite char_eqb_refl. unfold decode_pair. rewrite Hi. reflexivity.
  - apply char_eqb_neq in Hc. rewrite Hc, Hr. reflexivity.
Qed.

(** When the raw path is read without violation up to a position where a
    violation stands (a truncated escape, an escape whose two characters
    [int] refuses, or an unescaped reserved character other than [/] and
    [:]), [parse] raises [UriSyntaxError]. *)
Theorem path_violation_raises (uri : str) (st0 : UriParser) (s0 d t : str) :
  _split_uri (__init__ uri) = (st0, Return tt) ->
  _path st0 = s0 ++ t ->
  decoding' path_reject s0 d ->
  violation' path_reject t ->
  snd (run_parse' uri) = Raise UriSyntaxError.
Proof.
  intros Hs Hp Hd Hv.
  destruct (run_parse_ref Py_UNICODE_ISSPACE Py_UNICODE_TODECIMAL uri) as [k ->].
  cbn [snd]. unfold parse_ref. rewrite _split_uri_ref in Hs.
  destruct (split_ref uri) as [[[p q] f]|e]; [|discriminate].
  injection Hs as <-. cbn [_path] in Hp. subst p.
  now rewrite (scan_violation _ _ _ _ Hd Hv).
Qed.

(** The same in the raw fragment, where every unescaped reserved character
    is a violation, when the raw path is read without violation. *)
Theorem fragment_violation_raises (uri : str) (st0 : UriParser) (p' s0 d t : str) :
  _split_uri (__init__ uri) = (st0, Return tt) ->
  decoding' path_reject (_path st0) p' ->
  _fragment st0 = s0 ++ t ->
  decoding' fragment_reject s0 d ->
  violation' fragment_reject t ->
  snd (run_parse' uri) = Raise UriSyntaxError.
Proof.
  intros Hs Hpath Hf Hd Hv.
  destruct (run_parse_ref Py_UNICODE_ISSPACE Py_UNICODE_TODECIMAL uri) as [k ->].
  cbn [snd]. unfold parse_ref. rewrite _split_uri_ref in Hs.
  destruct (split_ref uri) as [[[p q] f]|e]; [|discriminate].
  injection Hs as <-. cbn [_path _fragment] in *. subst f.
  rewrite (decoding_scan _ _ _ Hpath).
  now rewrite (scan_violation _ _ _ _ Hd Hv).
Qed.

(** In a raw query that is not empty, when the path and the fragment are
    read without violation, no character of the query is refused, and the
    tokens before [bad] decode: a token [bad] that does not hold exactly one [=] makes
    [parse] raise [UriSyntaxError], and the dictionary then holds the pairs
    of the tokens before it. *)
Theorem token_violation_raises (uri : str) (st0 : UriParser) (p' f' : str)
  (done : list str) (bad : str) (rest : list str) (pairs : list (str * str)) :
  _split_uri (__init__ uri) = (st0, Return tt) ->
  decoding' path_reject (_path st0) p' ->
  decoding' fragment_reject (_fragment st0) f' ->
  _query st0 <> [] ->
  (forall c, In c (_query st0) -> query_reject c = false) ->
  str_split (_query st0) (ch "&") (-1) = done ++ bad :: rest ->
  Forall2 token_decodes' done pairs ->
  str_count bad (ch "=") <> 1 ->
  exists st, run_parse' uri = (st, Raise UriSyntaxError) /\
             get_query_params st = dict_fill pairs [] /\
             get_path st = p' /\ get_fragment st = f'.
Proof.
  intros Hs Hpath Hfrag Hne Hchars Htok Hdone Hbad.
  destruct (run_parse_ref Py_UNICODE_ISSPACE Py_UNICODE_TODECIMAL uri) as [k ->].
  unfold parse_ref. rewrite _split_uri_ref in Hs.
  destruct (split_ref uri) as [[[p q] f]|e]; [|discriminate].
  injection Hs as <-. cbn [_path _fragment _query] in *.
  rewrite (decoding_scan _ _ _ Hpath), (decoding_scan _ _ _ Hfrag).
  unfold query_ref.
  assert (Hq : str_eqb q [] = false).
  { now apply str_eqb_neq. }
  assert (Hr : existsb query_reject q = false).
  { destruct (existsb query_reject q) eqn:E; [|reflexivity].
    apply existsb_exists in E. destruct E as (c & Hc & Hrc).
    rewrite (Hchars c Hc) in Hrc. discriminate. }
  rewrite Hq, Hr, Htok.
  assert (Hfold : forall d0, tokens_ref' (done ++ bad :: rest) d0
                             = (dict_fill pairs d0, Err UriSyntaxError)).
  { clear Htok. induction Hdone as [|t kv l l' Ht _ IH]; intro d0.
    - cbn [app tokens_ref dict_fill fold_left]. unfold token_pair.
      destruct (Nat.eqb_spec (str_count bad (ch "=")) 1); [contradiction|reflexivity].
    - cbn [app tokens_ref]. apply token_pair_decodes in Ht. rewrite Ht.
      destruct kv as [k0 v0]. apply IH. }
  rewrite Hfold. cbn. eexists. repeat split.
Qed.

End FirstViolation.

Lemma path_violation_raises_witness :
  snd (run_parse14 (py "a%2Fb@c?x=1")) = Raise UriSyntaxError.
Proof.
  apply (path_violation_raises unicode14_isspace unicode14_todecimal
           (py "a%2Fb@c?x=1")
           (mkUriParser (py "a%2Fb@c?x=1") (py "a%2Fb@c") [] (py "x=1") [] 0)
           (py "a%2Fb") (py "a/b") (py "@c")).
  - vm_compute. reflexivity.
  - reflexivity.
  - apply scan_decoding with (n := 5); [vm_compute; lia|vm_compute; reflexivity].
  - apply violation_literal; [discriminate|reflexivity].
Defined.

Lemma fragment_violation_raises_witness :
  snd (run_parse14 (py "a#b/c")) = Raise UriSyntaxError.
Proof.
  apply (fragment_violation_raises unicode14_isspace unicode14_todecimal
           (py "a#b/c") (mkUriParser (py "a#b/c") (py "a") (py "b/c") [] [] 0)
           (py "a") (py "b") (py "b") (py "/c")).
  - vm_compute. reflexivity.
  - apply scan_decoding with (n := 1); [vm_compute; lia|vm_compute; reflexivity].
  - reflexivity.
  - apply scan_decoding with (n := 1); [vm_compute; lia|vm_compute; reflexivity].
  - apply violation_literal; [discriminate|reflexivity].
Defined.

Lemma token_violation_raises_witness :
  exists st, run_parse14 (py "p?a=1&b") = (st, Raise UriSyntaxError) /\
             get_query_params st = dict_fill [(py "a", py "1")] [] /\
             get_path st = py "p" /\ get_fragment st = [].
Proof.
  apply (token_violation_raises unicode14_isspace unicode14_todecimal
           (py "p?a=1&b") (mkUriParser (py "p?a=1&b") (py "p") [] (py "a=1&b") [] 0)
           (py "p") [] [py "a=1"] (py "b") [] [(py "a", py "1")]).
  - vm_compute. reflexivity.
  - apply scan_decoding with (n := 1); [vm_compute; lia|vm_compute; reflexivity].
  - constructor.
  - discriminate.
  - intros c Hc. vm_compute in Hc.
    repeat (destruct Hc as [<-|Hc]; [reflexivity|]). contradiction.
  - vm_compute. reflexivity.
  - constructor; [|constructor]. apply token_pair_decodes. vm_compute. reflexivity.
  - vm_compute. discriminate.
Defined.

(** * The scenarios of the documentation *)

Section Scenarios.

Variable Py_UNICODE_ISSPACE : char -> bool.
Variable Py_UNICODE_TODECIMAL : char -> option N.

Local Abbreviation run_parse' := (run_parse Py_UNICODE_ISSPACE Py_UNICODE_TODECIMAL).

(** The usage example of the module, an input with escapes in its three
    parts, and malformed inputs of each kind: a [#] before the [?],
    truncated escapes, an escape that is not hexadecimal, a token without
    [=] and a token with two. *)
Theorem documented_scenarios :
  (exists st,
      run_parse' (py "/src/dict1/dict2/file?param1=value&param2=value#fragment")
      = (st, Return tt) /\
      get_path st = py "/src/dict1/dict2/file" /\
      get_query_params st = [(py "param1", py "value"); (py "param2", py "value")] /\
      get_fragment st = py "fragment") /\
  (exists st,
      run_parse' (py "/a%2Fb?x=%2B1#frag%20ment") = (st, Return tt) /\
      get_path st = py "/a/b" /\
      get_query_params st = [(py "x", py "+1")] /\
      get_fragment st = py "frag ment") /\
  Forall (fun uri => snd (run_parse' uri) = Raise UriSyntaxError)
         [py "a#b?c"; py "%"; py "%A"; py "%GZ"; py "#%"; py "#%A"; py "?k=%";
          py "?%A=v"; py "?novalue"; py "?a=1=2"; py "?&a=1"; py "?a=1&";
          py "?a=1&&b=2"; py "a@b"; py "#a:b"; py "?a=b?c"].
Proof.
  split; [|split].
  - eexists. split; [vm_compute; reflexivity|]. repeat split.
  - eexists. split; [vm_compute; reflexivity|]. repeat split.
  - repeat constructor.
Qed.

End Scenarios.

(** * More on the splitter *)

(** The four shapes of an input that [_split_uri] accepts. *)
Lemma split_ref_shapes uri p q f :
  split_ref uri = Ok (p, q, f) ->
  (uri = p ++ ch "?" :: q ++ ch "#" :: f /\
   ~ In (ch "?") p /\ ~ In (ch "#") p /\ ~ In (ch "#") q) \/
  (uri = p ++ ch "?" :: q /\ f = [] /\ ~ In (ch "?") p /\ ~ In (ch "#") uri) \/
  (uri = p ++ ch "#" :: f /\ q = [] /\ ~ In (ch "#") p /\ ~ In (ch "?") uri) \/
  (uri = p /\ q = [] /\ f = [] /\ ~ In (ch "?") uri /\ ~ In (ch "#") uri).
Proof.
  unfold split_ref.
  destruct (break_at (ch "?") uri) as [[p0 rest]|] eqn:Eq;
    destruct (break_at (ch "#") uri) as [[a b]|] eqn:Eh.
  - destruct (Nat.ltb_spec (length a) (length p0)) as [|Hl]; [discriminate|].
    destruct (break_at_twice _ _ _ question_neq_hash _ _ _ _ Eq Eh Hl) as (q0 & Hq & Ha).
    rewrite Hq. intro H. injection H as <- <- <-. left.
    apply break_at_Some in Eq, Eh, Hq. destruct Eq as [-> Hp], Eh as [_ Hna], Hq as [-> Hnq].
    repeat split; auto. subst a. intro Hin. apply Hna. apply in_or_app. now left.
  - intro H. injection H as <- <- <-. right. left.
    apply break_at_Some in Eq. apply break_at_None in Eh. destruct Eq as [-> Hp].
    now repeat split.
  - intro H. injection H as <- <- <-. right. right. left.
    apply break_at_Some in Eh. apply break_at_None in Eq. destruct Eh as [-> Hp].
    now repeat split.
  - intro H. injection H as <- <- <-. right. right. right.
    apply break_at_None in Eq, Eh. now repeat split.
Qed.

(** The split loses nothing: the raw parts, put together again with the
    delimiters that occur in the input, are the input.  The raw path holds
    no [?] and no [#], the raw query no [#], and a part whose delimiter is
    absent is empty. *)
Theorem split_uri_lossless (uri : str) (st0 : UriParser) :
  _split_uri (__init__ uri) = (st0, Return tt) ->
  uri = _path st0
        ++ (if in_tuple (ch "?") uri then ch "?" :: _query st0 else [])
        ++ (if in_tuple (ch "#") uri then ch "#" :: _fragment st0 else []) /\
  ~ In (ch "?") (_path st0) /\ ~ In (ch "#") (_path st0) /\
  ~ In (ch "#") (_query st0) /\
  (~ In (ch "?") uri -> _query st0 = []) /\
  (~ In (ch "#") uri -> _fragment st0 = []).
Proof.
  intro H. rewrite _split_uri_ref in H.
  destruct (split_ref uri) as [[[p q] f]|e] eqn:Es; [|discriminate].
  injection H as <-. cbn [_path _query _fragment].
  destruct (split_ref_shapes _ _ _ _ Es)
    as [(Hu & Hp & Hhp & Hq)|[(Hu & -> & Hp & Hh)|[(Hu & -> & Hp & Hq)|(Hu & -> & -> & Hq & Hh)]]].
  - assert (Iq : in_tuple (ch "?") uri = true).
    { apply in_tuple_In. rewrite Hu. apply in_or_app. right. now left. }
    assert (Ih : in_tuple (ch "#") uri = true).
    { apply in_tuple_In. rewrite Hu. apply in_or_app. right. right.
      apply in_or_app. right. now left. }
    rewrite Iq, Ih. apply in_tuple_In in Iq, Ih.
    repeat split; auto; try contradiction.
  - assert (Iq : in_tuple (ch "?") uri = true).
    { apply in_tuple_In. rewrite Hu. apply in_or_app. right. now left. }
    rewrite Iq, (proj2 (in_tuple_not_In _ _) Hh). apply in_tuple_In in Iq.
    repeat split; auto; try contradiction.
    + rewrite app_nil_r. exact Hu.
    + intro Hin. apply Hh. rewrite Hu. apply in_or_app. now left.
    + intro Hin. apply Hh. rewrite Hu. apply in_or_app. right. now right.
  - assert (Ih : in_tuple (ch "#") uri = true).
    { apply in_tuple_In. rewrite Hu. apply in_or_app. right. now left. }
    rewrite Ih, (proj2 (in_tuple_not_In _ _) Hq). apply in_tuple_In in Ih.
    repeat split; auto; try contradiction.
    intro Hin. apply Hq. rewrite Hu. apply in_or_app. now left.
  - rewrite (proj2 (in_tuple_not_In _ _) Hq), (proj2 (in_tuple_not_In _ _) Hh).
    subst p. repeat split; auto. now rewrite !app_nil_r.
Qed.

Lemma split_uri_lossless_witness :
  let uri := py "/p?k=v#f" in
  let st0 := mkUriParser uri (py "/p") (py "f") (py "k=v") [] 0 in
  uri = _path st0
        ++ (if in_tuple (ch "?") uri then ch "?" :: _query st0 else [])
        ++ (if in_tuple (ch "#") uri then ch "#" :: _fragment st0 else []) /\
  ~ In (ch "?") (_path st0) /\ ~ In (ch "#") (_path st0) /\
  ~ In (ch "#") (_query st0) /\
  (~ In (ch "?") uri -> _query st0 = []) /\
  (~ In (ch "#") uri -> _fragment st0 = []).
Proof.
  intros uri st0. apply (split_uri_lossless uri st0). vm_compute. reflexivity.
Defined.

(** * The characters of an escape *)

Lemma PyLong_pair_chars y1 y2 v :
  PyLong_FromString16 [y1; y2] = Some v ->
  int_first_char y1 = true /\ int_second_char y2 = true.
Proof.
  unfold PyLong_FromString16, int_first_char, int_second_char.
  cbn [skip_spaces].
  destruct (Py_ISSPACE y1) eqn:S1; cbn [orb].
  - destruct (Py_ISSPACE y2) eqn:S2; cbn [orb]; [discriminate|].
    intro H. split; [reflexivity|].
    destruct (char_eqb y2 (ch "+")); [discriminate|].
    destruct (char_eqb y2 (ch "-")); [discriminate|].
    destruct (char_eqb y2 (ch "_")) eqn:U; [discriminate|].
    cbn [scan_digits] in H. rewrite U in H.
    destruct (_PyLong_DigitValue y2 <? 16)%Z; [reflexivity|discriminate].
  - destruct (char_eqb y1 (ch "+")) eqn:P1; cbn [orb].
    { intro H. split; [reflexivity|].
      destruct (char_eqb y2 (ch "_")) eqn:U; [discriminate|].
      cbn [scan_digits] in H. rewrite U in H.
      destruct (_PyLong_DigitValue y2 <? 16)%Z; [apply orb_true_r|discriminate]. }
    destruct (char_eqb y1 (ch "-")) eqn:M1; cbn [orb].
    { intro H. split; [reflexivity|].
      destruct (char_eqb y2 (ch "_")) eqn:U; [discriminate|].
      cbn [scan_digits] in H. rewrite U in H.
      destruct (_PyLong_DigitValue y2 <? 16)%Z; [apply orb_true_r|discriminate]. }
    destruct (char_eqb y1 (ch "0") && (char_eqb y2 (ch "x") || char_eqb y2 (ch "X")));
      [discriminate|].
    destruct (char_eqb y1 (ch "_")) eqn:U1; [discriminate|].
    cbn [scan_digits]. rewrite U1.
    destruct (_PyLong_DigitValue y1 <? 16)%Z; [|discriminate].
    destruct (char_eqb y2 (ch "_")) eqn:U2; [discriminate|].
    destruct (_PyLong_DigitValue y2 <? 16)%Z; [intros _; split; [reflexivity|apply orb_true_r]|].
    cbn [skip_spaces]. destruct (Py_ISSPACE y2); [now split|discriminate].
Qed.

Lemma PyLong_single_char y v :
  PyLong_FromString16 [y] = Some v -> (_PyLong_DigitValue y <? 16)%Z = true.
Proof.
  unfold PyLong_FromString16. cbn [skip_spaces].
  destruct (Py_ISSPACE y); [discriminate|].
  destruct (char_eqb y (ch "+")); [discriminate|].
  destruct (char_eqb y (ch "-")); [discriminate|].
  destruct (char_eqb y (ch "_")) eqn:U; [discriminate|].
  cbn [scan_digits]. rewrite U.
  destruct (_PyLong_DigitValue y <? 16)%Z; [reflexivity|discriminate].
Qed.

Lemma not_int_chars :
  forallb (fun c => negb (int_first_char c) && negb (int_second_char c) && (c <? 127)%N)
          (ch "%" :: _reserved_chars) = true.
Proof. vm_compute. reflexivity. Qed.

Section EscapeCharacters.

Variable Py_UNICODE_ISSPACE : char -> bool.
Variable Py_UNICODE_TODECIMAL : char -> option N.

Local Abbreviation int16' := (int16 Py_UNICODE_ISSPACE Py_UNICODE_TODECIMAL).
Local Abbreviation _decode' := (_decode Py_UNICODE_ISSPACE Py_UNICODE_TODECIMAL).
Local Abbreviation _decode_all' := (_decode_all Py_UNICODE_ISSPACE Py_UNICODE_TODECIMAL).
Local Abbreviation decode_pair' := (decode_pair Py_UNICODE_ISSPACE Py_UNICODE_TODECIMAL).
Local Abbreviation scan' := (scan Py_UNICODE_ISSPACE Py_UNICODE_TODECIMAL).
Local Abbreviation run_parse' := (run_parse Py_UNICODE_ISSPACE Py_UNICODE_TODECIMAL).
Local Abbreviation decoding' := (decoding Py_UNICODE_ISSPACE Py_UNICODE_TODECIMAL).

(** The ASCII characters of a pair that [int] accepts. *)
Lemma int16_pair_chars h1 h2 v :
  int16' [h1; h2] = Some v ->
  ((h1 < 127)%N -> int_first_char h1 = true) /\
  ((h2 < 127)%N -> int_second_char h2 = true).
Proof.
  unfold int16, _PyUnicode_TransformDecimalAndSpaceToASCII.
  destruct (forallb (fun c => (c <? 128)%N) [h1; h2]).
  { intro H. apply PyLong_pair_chars in H. tauto. }
  cbn [transform_nonascii].
  assert (Hq : forall a, PyLong_FromString16 [ch "?"] <> Some a) by (intro a; discriminate).
  destruct (N.ltb_spec h1 127) as [L1|L1].
  - destruct (N.ltb_spec h2 127) as [L2|L2].
    + intro H. apply PyLong_pair_chars in H. tauto.
    + destruct (Py_UNICODE_ISSPACE h2).
      * intro H. apply PyLong_pair_chars in H. split; [tauto|lia].
      * destruct (Py_UNICODE_TODECIMAL h2);
          intro H; apply PyLong_pair_chars in H; split; try tauto; lia.
  - assert (Hcut : forall y v0,
               PyLong_FromString16
                 (y :: (if (h2 <? 127)%N then [h2]
                        else if Py_UNICODE_ISSPACE h2 then [ch " "]
                             else match Py_UNICODE_TODECIMAL h2 with
                                  | Some d => [(ch "0" + d)%N]
                                  | None => [ch "?"]
                                  end)) = Some v0 ->
               ((h1 < 127)%N -> int_first_char h1 = true) /\
               ((h2 < 127)%N -> int_second_char h2 = true)).
    { intros y v0. destruct (N.ltb_spec h2 127) as [L2|L2].
      - intro H. apply PyLong_pair_chars in H. split; [lia|tauto].
      - intros _. split; lia. }
    destruct (Py_UNICODE_ISSPACE h1); [apply Hcut|].
    destruct (Py_UNICODE_TODECIMAL h1); [apply Hcut|].
    intro H. now apply Hq in H.
Qed.

(** Neither character of an escape that decodes is a percent sign or a
    reserved character. *)
Lemma decode_pair_Ok_chars h1 h2 d :
  decode_pair' h1 h2 = Ok d ->
  in_tuple h1 (ch "%" :: _reserved_chars) = false /\
  in_tuple h2 (ch "%" :: _reserved_chars) = false.
Proof.
  unfold decode_pair. destruct (int16' [h1; h2]) as [v|] eqn:E; [|discriminate].
  intros _. destruct (int16_pair_chars _ _ _ E) as [H1 H2].
  pose proof not_int_chars as Hn. rewrite forallb_forall in Hn.
  split; apply in_tuple_not_In; intro Hin; apply Hn in Hin;
    apply andb_true_iff in Hin; destruct Hin as [Hin Hl];
    apply andb_true_iff in Hin; destruct Hin as [Hf Hs]; apply N.ltb_lt in Hl.
  - rewrite (H1 Hl) in Hf. discriminate.
  - rewrite (H2 Hl) in Hs. discriminate.
Qed.

Lemma decoding_pair h1 h2 d :
  (forall st, _decode' [h1; h2] st = (st, Return [d])) -> decode_pair' h1 h2 = Ok d.
Proof.
  intro H. specialize (H (__init__ [])). change [h1; h2] with ([h1] ++ [h2]) in H.
  rewrite _decode_pair in H. destruct (decode_pair' h1 h2); cbn in H; congruence.
Qed.

(** In a raw string that is read without violation, a reserved character is
    a literal one that is not rejected, and each percent sign stands for two
    characters less in the result. *)
Lemma decoding_chars reject s d :
  decoding' reject s d ->
  (forall c, In c s -> in_tuple c _reserved_chars = true -> reject c = false) /\
  length d + 2 * str_count s (ch "%") = length s.
Proof.
  induction 1 as [|c raw out Hc Hr _ [IH1 IH2]|h1 h2 x raw out Hd _ [IH1 IH2]].
  - split; [intros c []|reflexivity].
  - split.
    + intros c' [<-|Hin] Hres; auto.
    + cbn [length str_count]. apply char_eqb_neq in Hc. rewrite Hc. lia.
  - apply decoding_pair, decode_pair_Ok_chars in Hd. destruct Hd as [H1 H2].
    cbn [in_tuple existsb] in H1, H2. apply orb_false_iff in H1, H2.
    destruct H1 as [P1 R1], H2 as [P2 R2]. split.
    + intros c' [<-|[<-|[<-|Hin]]] Hres; auto; try discriminate.
      * unfold in_tuple in Hres. congruence.
      * unfold in_tuple in Hres. congruence.
    + cbn [length str_count]. rewrite char_eqb_refl, P1, P2. lia.
Qed.

(** In an input that parses, every reserved character of the raw path is
    [/] or [:], the raw fragment holds no reserved character, every
    reserved character of the raw query is [&] or [=], whether inside an
    escape or not; so the input holds at most one [?] and at most one [#]. *)
Theorem accepted_input_charset (uri : str) (self : UriParser) :
  run_parse' uri = (self, Return tt) ->
  exists st0,
    _split_uri (__init__ uri) = (st0, Return tt) /\
    (forall c, In c (_path st0) -> in_tuple c _reserved_chars = true ->
               c = ch "/" \/ c = ch ":") /\
    (forall c, In c (_fragment st0) -> in_tuple c _reserved_chars = false) /\
    (forall c, In c (_query st0) -> in_tuple c _reserved_chars = true ->
               c = ch "&" \/ c = ch "=") /\
    str_count uri (ch "?") <= 1 /\
    str_count uri (ch "#") <= 1.
Proof.
  intro H.
  destruct (run_parse_Return _ _ uri self H) as (p & q & f & d & k & Hs & Hp & Hf & Hq & _).
  rewrite _split_uri_ref, Hs. eexists. split; [reflexivity|]. cbn [_path _fragment _query].
  apply (scan_decoding _ _ path_reject (length p) p _ (Nat.le_refl _)) in Hp.
  apply (scan_decoding _ _ fragment_reject (length f) f _ (Nat.le_refl _)) in Hf.
  apply decoding_chars in Hp, Hf. destruct Hp as [Hp _], Hf as [Hf _].
  assert (Hpath : forall c, In c p -> in_tuple c _reserved_chars = true ->
                            c = ch "/" \/ c = ch ":").
  { intros c Hin Hres. specialize (Hp c Hin Hres). unfold path_reject in Hp.
    rewrite Hres in Hp. cbn [andb] in Hp. apply negb_false_iff, in_tuple_In in Hp.
    destruct Hp as [<-|[<-|[]]]; auto. }
  assert (Hfrag : forall c, In c f -> in_tuple c _reserved_chars = false).
  { intros c Hin. destruct (in_tuple c _reserved_chars) eqn:Hres; [|reflexivity].
    specialize (Hf c Hin Hres). unfold fragment_reject in Hf. congruence. }
  assert (Hquery : forall c, In c q -> in_tuple c _reserved_chars = true ->
                             c = ch "&" \/ c = ch "=").
  { intros c Hin Hres. unfold query_ref in Hq.
    destruct (str_eqb q []) eqn:E0; [apply str_eqb_eq in E0; subst q; destruct Hin|].
    destruct (existsb query_reject q) eqn:Er; [discriminate|].
    assert (Hc : query_reject c = false).
    { destruct (query_reject c) eqn:Ec; [|reflexivity].
      assert (existsb query_reject q = true) by (apply existsb_exists; eauto).
      congruence. }
    unfold query_reject in Hc. rewrite Hres in Hc. cbn [andb] in Hc.
    apply negb_false_iff, in_tuple_In in Hc. destruct Hc as [<-|[<-|[]]]; auto. }
  repeat split; auto.
  - assert (Cp : str_count p (ch "?") = 0).
    { apply str_count_0. intro Hin. destruct (Hpath _ Hin eq_refl); discriminate. }
    assert (Cq : str_count q (ch "?") = 0).
    { apply str_count_0. intro Hin. destruct (Hquery _ Hin eq_refl); discriminate. }
    assert (Cf : str_count f (ch "?") = 0).
    { apply str_count_0. intro Hin. apply Hfrag in Hin. discriminate. }
    destruct (split_ref_shapes _ _ _ _ Hs)
      as [(Hu & _)|[(Hu & _)|[(Hu & _)|(Hu & _)]]];
      rewrite Hu; repeat (rewrite str_count_app || cbn [str_count char_eqb N.eqb]);
      rewrite ?Cp, ?Cq, ?Cf; cbn; lia.
  - assert (Cp : str_count p (ch "#") = 0).
    { apply str_count_0. intro Hin. destruct (Hpath _ Hin eq_refl); discriminate. }
    assert (Cq : str_count q (ch "#") = 0).
    { apply str_count_0. intro Hin. destruct (Hquery _ Hin eq_refl); discriminate. }
    assert (Cf : str_count f (ch "#") = 0).
    { apply str_count_0. intro Hin. apply Hfrag in Hin. discriminate. }
    destruct (split_ref_shapes _ _ _ _ Hs)
      as [(Hu & _)|[(Hu & _)|[(Hu & _)|(Hu & _)]]];
      rewrite Hu; repeat (rewrite str_count_app || cbn [str_count char_eqb N.eqb]);
      rewrite ?Cp, ?Cq, ?Cf; cbn; lia.
Qed.

End EscapeCharacters.

Lemma accepted_input_charset_witness :
  let uri := py "/a:b%2Fc?k=v&x=%3D#frag" in
  let self := mkUriParser uri (py "/a:b/c") (py "frag") (py "k=v&x=%3D")
                          [(py "k", py "v"); (py "x", py "=")] 3 in
  exists st0,
    _split_uri (__init__ uri) = (st0, Return tt) /\
    (forall c, In c (_path st0) -> in_tuple c _reserved_chars = true ->
               c = ch "/" \/ c = ch ":") /\
    (forall c, In c (_fragment st0) -> in_tuple c _reserved_chars = false) /\
    (forall c, In c (_query st0) -> in_tuple c _reserved_chars = true ->
               c = ch "&" \/ c = ch "=") /\
    str_count uri (ch "?") <= 1 /\
    str_count uri (ch "#") <= 1.
Proof.
  intros uri self.
  apply (accepted_input_charset unicode14_isspace unicode14_todecimal uri self).
  vm_compute. reflexivity.
Defined.

(** * How the decoders compose *)

Section Composition.

Variable Py_UNICODE_ISSPACE : char -> bool.
Variable Py_UNICODE_TODECIMAL : char -> option N.

Local Abbreviation int16' := (int16 Py_UNICODE_ISSPACE Py_UNICODE_TODECIMAL).
Local Abbreviation _decode' := (_decode Py_UNICODE_ISSPACE Py_UNICODE_TODECIMAL).
Local Abbreviation _decode_all' := (_decode_all Py_UNICODE_ISSPACE Py_UNICODE_TODECIMAL).
Local Abbreviation _parse_path' := (_parse_path Py_UNICODE_ISSPACE Py_UNICODE_TODECIMAL).
Local Abbreviation _parse_fragment' :=
  (_parse_fragment Py_UNICODE_ISSPACE Py_UNICODE_TODECIMAL).
Local Abbreviation decode_pair' := (decode_pair Py_UNICODE_ISSPACE Py_UNICODE_TODECIMAL).
Local Abbreviation scan' := (scan Py_UNICODE_ISSPACE Py_UNICODE_TODECIMAL).
Local Abbreviation run_parse' := (run_parse Py_UNICODE_ISSPACE Py_UNICODE_TODECIMAL).
Local Abbreviation decoding' := (decoding Py_UNICODE_ISSPACE Py_UNICODE_TODECIMAL).

(** [_decode] on two characters leaves the instance as it is, and either
    returns one character, of code point below 256, or raises
    [UriSyntaxError], or raises [ValueError], which happens when [int] reads
    the two characters as a negative number. *)
Theorem _decode_pair_outcome (h1 h2 : char) (self : UriParser) :
  (exists c, _decode' [h1; h2] self = (self, Return [c]) /\ (c < 256)%N) \/
  _decode' [h1; h2] self = (self, Raise UriSyntaxError) \/
  (_decode' [h1; h2] self = (self, Raise ValueError) /\
   exists v, int16' [h1; h2] = Some v /\ (v < 0)%Z).
Proof.
  change [h1; h2] with ([h1] ++ [h2]). rewrite _decode_pair.
  destruct (decode_pair' h1 h2) as [c|e] eqn:E.
  - left. exists c. split; [reflexivity|].
    unfold decode_pair in E. destruct (int16' [h1; h2]) as [v|] eqn:Ei; [|discriminate].
    pose proof (int16_pair_bound _ _ _ _ _ Ei) as Hb. unfold chr in E.
    destruct (_ || _)%bool; [discriminate|].
    destruct (Z.ltb_spec v 0); [discriminate|]. cbn [orb] in E.
    destruct (1114111 <? v)%Z; [discriminate|]. injection E as <-. lia.
  - right. destruct (decode_pair_Err _ _ _ _ _ E) as [->|[-> Hv]]; [left|right]; auto.
Qed.

(** The length of what a successful [parse] stores: each percent sign of
    the raw path, and of the raw fragment, stands for an escape of three
    characters that gives one, so the decoded parts are not longer than the
    input. *)
Theorem decoded_length (uri : str) (self : UriParser) :
  run_parse' uri = (self, Return tt) ->
  exists st0,
    _split_uri (__init__ uri) = (st0, Return tt) /\
    length (get_path self) + 2 * str_count (_path st0) (ch "%") = length (_path st0) /\
    length (get_fragment self) + 2 * str_count (_fragment st0) (ch "%")
      = length (_fragment st0) /\
    length (get_path self) + length (get_fragment self) <= length uri.
Proof.
  intro H.
  destruct (run_parse_Return _ _ uri self H) as (p & q & f & d & k & Hs & Hp & Hf & _ & _).
  rewrite _split_uri_ref, Hs. eexists. split; [reflexivity|]. cbn [_path _fragment].
  apply (scan_decoding _ _ path_reject (length p) p _ (Nat.le_refl _)) in Hp.
  apply (scan_decoding _ _ fragment_reject (length f) f _ (Nat.le_refl _)) in Hf.
  apply decoding_chars in Hp, Hf. destruct Hp as [_ Hp], Hf as [_ Hf].
  unfold get_path, get_fragment. repeat split; [exact Hp|exact Hf|].
  assert (length p + length f <= length uri); [|lia].
  destruct (split_ref_shapes _ _ _ _ Hs)
    as [(Hu & _)|[(Hu & -> & _)|[(Hu & _)|(Hu & _ & -> & _)]]];
    rewrite Hu; repeat (rewrite length_app || cbn [length]); lia.
Qed.

(** What the fragment decoder accepts, the path decoder accepts, and what
    the path decoder accepts, [_decode_all] accepts, each time with the same
    result. *)
Theorem decoders_inclusion (self st : UriParser) :
  (_parse_fragment' self = (st, Return tt) ->
   forall other, exists st',
     _parse_path' (set_path (_fragment self) other) = (st', Return tt) /\
     _path st' = _fragment st) /\
  (_parse_path' self = (st, Return tt) ->
   forall other, snd (_decode_all' (_path self) other) = Return (_path st)).
Proof.
  split.
  - intros H other.
    destruct (_parse_fragment_scan Py_UNICODE_ISSPACE Py_UNICODE_TODECIMAL self) as [k Hk].
    rewrite H in Hk.
    destruct (scan' fragment_reject (_fragment self)) as [d|e] eqn:E; [|discriminate].
    injection Hk as ->.
    destruct (_parse_path_scan Py_UNICODE_ISSPACE Py_UNICODE_TODECIMAL
                (set_path (_fragment self) other)) as [k' Hk'].
    cbn [_path set_path] in Hk'.
    rewrite (scan_weaken _ _ fragment_reject path_reject) with (n := length (_fragment self))
                                                                 (d := d) in Hk'; auto.
    + eexists. split; [exact Hk'|]. reflexivity.
    + intros c Hc. unfold path_reject in Hc. apply andb_true_iff in Hc. apply Hc.
  - intros H other.
    destruct (_parse_path_scan Py_UNICODE_ISSPACE Py_UNICODE_TODECIMAL self) as [k Hk].
    rewrite H in Hk.
    destruct (scan' path_reject (_path self)) as [d|e] eqn:E; [|discriminate].
    injection Hk as ->.
    destruct (_decode_all_scan Py_UNICODE_ISSPACE Py_UNICODE_TODECIMAL (_path self) other)
      as [k' ->].
    rewrite (scan_weaken _ _ path_reject no_reject) with (n := length (_path self)) (d := d);
      auto. discriminate.
Qed.

(** [_decode_all] goes through a concatenation part by part: when [a]
    decodes to [da], decoding [a ++ b] gives [da] followed by what [b]
    decodes to, and raises what decoding [b] raises. *)
Theorem _decode_all_app (a b da : str) :
  (forall st, snd (_decode_all' a st) = Return da) ->
  forall st st',
    snd (_decode_all' (a ++ b) st) =
    match snd (_decode_all' b st') with
    | Return db => Return (da ++ db)
    | Raise e => Raise e
    | OutOfFuel => OutOfFuel
    end.
Proof.
  intros Ha st st'. apply _decode_all_Return in Ha.
  apply (scan_decoding _ _ no_reject (length a) a _ (Nat.le_refl _)) in Ha.
  destruct (_decode_all_scan Py_UNICODE_ISSPACE Py_UNICODE_TODECIMAL (a ++ b) st) as [k ->].
  destruct (_decode_all_scan Py_UNICODE_ISSPACE Py_UNICODE_TODECIMAL b st') as [k' ->].
  cbn [snd]. rewrite (scan_app _ _ _ _ _ b Ha).
  now destruct (scan' no_reject b).
Qed.

End Composition.

Lemma decoded_length_witness :
  let uri := py "/a%2Fb#x%20y" in
  let self := mkUriParser uri (py "/a/b") (py "x y") [] [] 5 in
  exists st0,
    _split_uri (__init__ uri) = (st0, Return tt) /\
    length (get_path self) + 2 * str_count (_path st0) (ch "%") = length (_path st0) /\
    length (get_fragment self) + 2 * str_count (_fragment st0) (ch "%")
      = length (_fragment st0) /\
    length (get_path self) + length (get_fragment self) <= length uri.
Proof.
  intros uri self.
  apply (decoded_length unicode14_isspace unicode14_todecimal uri self).
  vm_compute. reflexivity.
Defined.

Lemma _decode_all_app_witness :
  snd (_decode_all unicode14_isspace unicode14_todecimal (py "a%20" ++ py "b%2Fc")
         (__init__ []))
  = Return (py "a " ++ py "b/c").
Proof.
  apply (_decode_all_app unicode14_isspace unicode14_todecimal
           (py "a%20") (py "b%2Fc") (py "a ") ) with (st' := __init__ []).
  intro st. apply _decode_all_Return. vm_compute. reflexivity.
Defined.

(** * Calling [parse] a second time *)

Lemma dict_get_None d k : dict_get d k = None <-> ~ In k (dict_keys d).
Proof.
  induction d as [|[k' v'] r IH]; cbn [dict_get dict_keys map fst In]; [tauto|].
  destruct (str_eqb k' k) eqn:E.
  - apply str_eqb_eq in E. split; [discriminate|]. intro H. exfalso. apply H. now left.
  - apply str_eqb_neq in E. unfold dict_keys in IH. rewrite IH. tauto.
Qed.

(** Two dictionaries with the same keys in the same order, each once, and
    the same value for every key, are equal. *)
Lemma dict_ext d1 :
  forall d2,
    NoDup (dict_keys d1) ->
    dict_keys d1 = dict_keys d2 ->
    (forall k, dict_get d1 k = dict_get d2 k) ->
    d1 = d2.
Proof.
  induction d1 as [|[k1 v1] r1 IH]; intros [|[k2 v2] r2] Hnd Hk Hg; try discriminate;
    [reflexivity|].
  cbn [dict_keys map fst] in Hk. injection Hk as <- Hk.
  cbn [dict_keys map fst] in Hnd. apply NoDup_cons_iff in Hnd. destruct Hnd as [Hn Hnd].
  pose proof (Hg k1) as Hv. cbn [dict_get] in Hv. rewrite str_eqb_refl in Hv.
  injection Hv as <-. f_equal. apply IH; auto.
  intro k. specialize (Hg k). cbn [dict_get] in Hg.
  destruct (str_eqb k1 k) eqn:E; [|exact Hg].
  apply str_eqb_eq in E. subst k.
  rewrite (proj2 (dict_get_None r1 k1)) by exact Hn.
  symmetry. apply dict_get_None. unfold dict_keys. rewrite <- Hk. exact Hn.
Qed.

Lemma first_occurrences_In l k : In k (first_occurrences l) <-> In k l.
Proof.
  induction l as [|x r IH]; [tauto|]. cbn [first_occurrences In].
  rewrite filter_In, IH. split.
  - intros [->|[H _]]; auto.
  - intros [->|H]; [now left|].
    destruct (str_eqb x k) eqn:E.
    + apply str_eqb_eq in E. now left.
    + right. now split.
Qed.

Lemma str_mem_spec k l : str_mem k l = true <-> In k l.
Proof.
  unfold str_mem. rewrite existsb_exists. split.
  - intros (x & Hx & E). apply str_eqb_eq in E. now subst.
  - intro H. exists k. split; [exact H|apply str_eqb_refl].
Qed.

Lemma filter_none {A} (f : A -> bool) l :
  (forall x, In x l -> f x = false) -> filter f l = [].
Proof.
  induction l as [|x r IH]; intro H; [reflexivity|]. cbn [filter].
  rewrite (H x) by now left. apply IH. intros y Hy. apply H. now right.
Qed.

Lemma filter_all {A} (f : A -> bool) l :
  (forall x, In x l -> f x = true) -> filter f l = l.
Proof.
  induction l as [|x r IH]; intro H; [reflexivity|]. cbn [filter].
  rewrite (H x) by now left. f_equal. apply IH. intros y Hy. apply H. now right.
Qed.

Lemma dict_fill_NoDup pairs : forall d, NoDup (dict_keys d) -> NoDup (dict_keys (dict_fill pairs d)).
Proof.
  induction pairs as [|[k v] r IH]; intros d Hd; [exact Hd|].
  cbn [dict_fill fold_left fst snd]. apply IH.
  rewrite dict_keys_setitem. destruct (str_mem k (dict_keys d)) eqn:E; [exact Hd|].
  apply NoDup_app; [exact Hd|repeat constructor; intros []|].
  intros x Hx [<-|[]]. apply str_mem_spec in Hx. congruence.
Qed.

(** Filling a dictionary twice with the same pairs is filling it once. *)
Lemma dict_fill_idem pairs d :
  NoDup (dict_keys d) ->
  dict_fill pairs (dict_fill pairs d) = dict_fill pairs d.
Proof.
  intro Hd. apply dict_ext.
  - now apply dict_fill_NoDup, dict_fill_NoDup.
  - rewrite (dict_keys_fill pairs (dict_fill pairs d)).
    rewrite filter_none; [apply app_nil_r|].
    intros k Hk. apply negb_false_iff, str_mem_spec.
    rewrite dict_keys_fill. apply in_or_app.
    destruct (str_mem k (dict_keys d)) eqn:E.
    + left. now apply str_mem_spec.
    + right. apply filter_In. split; [exact Hk|]. now rewrite E.
  - intro k. rewrite (dict_get_fill pairs k (dict_fill pairs d)), dict_get_fill.
    now destruct (last_value pairs k).
Qed.

Lemma _split_uri_again (self : UriParser) p q f :
  split_ref (_uri_content self) = Ok (p, q, f) ->
  (f = [] -> _fragment self = []) ->
  (q = [] -> _query self = []) ->
  _split_uri self =
  (mkUriParser (_uri_content self) p f q (_query_params self) (_iter self), Return tt).
Proof.
  destruct self as [uri P F Q D k]. cbn [_uri_content _fragment _query _query_params _iter].
  unfold _split_uri, split_ref, str_index.
  rewrite bind_run. cbn [gets _uri_content].
  rewrite !str_find_break, !str_split_1.
  destruct (break_at (ch "?") uri) as [[p0 rest]|] eqn:Eq;
    destruct (break_at (ch "#") uri) as [[a b]|] eqn:Eh.
  - replace (Z.of_nat (length p0) =? -1)%Z with false by (symmetry; apply Z.eqb_neq; lia).
    replace (Z.of_nat (length a) =? -1)%Z with false by (symmetry; apply Z.eqb_neq; lia).
    cbn [negb]. unfold bind, lift. cbn [to_outcome].
    destruct (Nat.ltb_spec (length a) (length p0)) as [Hl|Hl]; [discriminate|].
    replace (Z.of_nat (length p0) >? Z.of_nat (length a))%Z with false
      by (symmetry; rewrite Z.gtb_ltb; apply Z.ltb_ge; lia).
    destruct (break_at_twice _ _ _ question_neq_hash _ _ _ _ Eq Eh Hl) as (q0 & Hq & _).
    rewrite Hq. intro H. injection H as <- <- <-. intros _ _.
    cbn [getitem nth_error to_outcome modify].
    rewrite str_split_1, Hq. reflexivity.
  - replace (Z.of_nat (length p0) =? -1)%Z with false by (symmetry; apply Z.eqb_neq; lia).
    intro H. injection H as <- <- <-. intros HF _. rewrite (HF eq_refl). reflexivity.
  - replace (Z.of_nat (length a) =? -1)%Z with false by (symmetry; apply Z.eqb_neq; lia).
    intro H. injection H as <- <- <-. intros _ HQ. rewrite (HQ eq_refl). reflexivity.
  - intro H. injection H as <- <- <-. intros HF HQ.
    rewrite (HF eq_refl), (HQ eq_refl). reflexivity.
Qed.

Lemma _split_uri_again_Err (self : UriParser) e :
  split_ref (_uri_content self) = Err e -> _split_uri self = (self, Raise e).
Proof.
  destruct self as [uri P F Q D k]. cbn [_uri_content].
  unfold _split_uri, split_ref, str_index.
  rewrite bind_run. cbn [gets _uri_content].
  rewrite !str_find_break.
  destruct (break_at (ch "?") uri) as [[p0 rest]|] eqn:Eq;
    destruct (break_at (ch "#") uri) as [[a b]|] eqn:Eh; try discriminate.
  replace (Z.of_nat (length p0) =? -1)%Z with false by (symmetry; apply Z.eqb_neq; lia).
  replace (Z.of_nat (length a) =? -1)%Z with false by (symmetry; apply Z.eqb_neq; lia).
  cbn [negb]. unfold bind, lift. cbn [to_outcome].
  destruct (Nat.ltb_spec (length a) (length p0)) as [Hl|Hl].
  - replace (Z.of_nat (length p0) >? Z.of_nat (length a))%Z with true
      by (symmetry; apply Z.gtb_lt; lia).
    intro H. injection H as <-. reflexivity.
  - destruct (break_at_twice _ _ _ question_neq_hash _ _ _ _ Eq Eh Hl) as (q0 & Hq & _).
    rewrite Hq. discriminate.
Qed.

Section Again.

Variable Py_UNICODE_ISSPACE : char -> bool.
Variable Py_UNICODE_TODECIMAL : char -> option N.

Local Abbreviation scan' := (scan Py_UNICODE_ISSPACE Py_UNICODE_TODECIMAL).
Local Abbreviation token_pair' := (token_pair Py_UNICODE_ISSPACE Py_UNICODE_TODECIMAL).
Local Abbreviation tokens_ref' := (tokens_ref Py_UNICODE_ISSPACE Py_UNICODE_TODECIMAL).
Local Abbreviation query_ref' := (query_ref Py_UNICODE_ISSPACE Py_UNICODE_TODECIMAL).
Local Abbreviation parse_ref' := (parse_ref Py_UNICODE_ISSPACE Py_UNICODE_TODECIMAL).
Local Abbreviation parse' := (parse Py_UNICODE_ISSPACE Py_UNICODE_TODECIMAL).
Local Abbreviation run_parse' := (run_parse Py_UNICODE_ISSPACE Py_UNICODE_TODECIMAL).

(** The token loop fills the dictionary it finds with pairs that depend on
    the tokens only. *)
Lemma tokens_ref_fill tokens :
  exists pairs r, forall d0, tokens_ref' tokens d0 = (dict_fill pairs d0, r).
Proof.
  induction tokens as [|token rest (pairs & r & IH)].
  - exists [], (Ok tt). reflexivity.
  - cbn [tokens_ref]. destruct (token_pair' token) as [[k v]|e].
    + exists ((k, v) :: pairs), r. intro d0. apply IH.
    + exists [], (Err e). reflexivity.
Qed.

Lemma query_ref_again q d r :
  query_ref' q [] = (d, r) -> query_ref' q d = (d, r).
Proof.
  unfold query_ref. destruct (str_eqb q []); [congruence|].
  destruct (existsb query_reject q); [congruence|].
  destruct (tokens_ref_fill (str_split q (ch "&") (-1))) as (pairs & r0 & H).
  rewrite !H. intro E. injection E as <- <-.
  rewrite dict_fill_idem; [reflexivity|constructor].
Qed.

(** [parse] called again on the instance it has run on yields the same
    outcome and leaves the path, the fragment, the raw query and the query
    parameters as the first call left them. *)
Theorem parse_twice (uri : str) :
  let first := run_parse' uri in
  let second := parse' (fst first) in
  snd second = snd first /\
  get_path (fst second) = get_path (fst first) /\
  get_fragment (fst second) = get_fragment (fst first) /\
  get_query_params (fst second) = get_query_params (fst first) /\
  _query (fst second) = _query (fst first) /\
  _uri_content (fst second) = uri.
Proof.
  cbv zeta.
  destruct (run_parse_ref Py_UNICODE_ISSPACE Py_UNICODE_TODECIMAL uri) as [k ->].
  cbn [fst snd]. unfold parse_ref, parse.
  destruct (split_ref uri) as [[[p q] f]|e] eqn:Es.
  2:{ cbn [fst snd to_outcome]. rewrite bind_run.
      rewrite _split_uri_again_Err with (e := e) by exact Es. now repeat split. }
  assert (Hsplit : forall P F D k0,
             (f = [] -> F = []) ->
             _split_uri (mkUriParser uri P F q D k0)
             = (mkUriParser uri p f q D k0, Return tt)).
  { intros P F D k0 HF.
    rewrite (_split_uri_again (mkUriParser uri P F q D k0) p q f Es HF); auto. }
  destruct (scan' path_reject p) as [p'|e1] eqn:Ep.
  2:{ cbn [fst snd to_outcome]. rewrite bind_run, Hsplit by auto. rewrite bind_run.
      match goal with |- context [_parse_path _ _ ?st] =>
        destruct (_parse_path_scan Py_UNICODE_ISSPACE Py_UNICODE_TODECIMAL st) as [k1 ->] end.
      cbn [_path]. rewrite Ep. now repeat split. }
  destruct (scan' fragment_reject f) as [f'|e2] eqn:Ef.
  2:{ cbn [fst snd to_outcome]. rewrite bind_run, Hsplit by auto. rewrite bind_run.
      match goal with |- context [_parse_path _ _ ?st] =>
        destruct (_parse_path_scan Py_UNICODE_ISSPACE Py_UNICODE_TODECIMAL st) as [k1 ->] end.
      cbn [_path]. rewrite Ep. rewrite bind_run.
      match goal with |- context [_parse_fragment _ _ ?st] =>
        destruct (_parse_fragment_scan Py_UNICODE_ISSPACE Py_UNICODE_TODECIMAL st)
          as [k2 ->] end.
      cbn [_fragment set_iter set_path]. rewrite Ef. now repeat split. }
  destruct (query_ref' q []) as [d r] eqn:Eq. cbn [fst snd].
  rewrite bind_run, Hsplit.
  2:{ intros ->. cbn in Ef. congruence. }
  rewrite bind_run.
  match goal with |- context [_parse_path _ _ ?st] =>
    destruct (_parse_path_scan Py_UNICODE_ISSPACE Py_UNICODE_TODECIMAL st) as [k1 ->] end.
  cbn [_path]. rewrite Ep. rewrite bind_run.
  match goal with |- context [_parse_fragment _ _ ?st] =>
    destruct (_parse_fragment_scan Py_UNICODE_ISSPACE Py_UNICODE_TODECIMAL st)
      as [k2 ->] end.
  cbn [_fragment set_iter set_path]. rewrite Ef.
  match goal with |- context [_parse_query _ _ ?st] =>
    destruct (_parse_query_ref Py_UNICODE_ISSPACE Py_UNICODE_TODECIMAL st) as [k3 ->] end.
  cbn [_query _query_params set_iter set_path set_fragment].
  rewrite (query_ref_again _ _ _ Eq). now repeat split.
Qed.

End Again.

(** * Inputs without escapes, and inputs made of escapes *)

Lemma str_split_In s sep :
  forall m token c, In token (str_split s sep m) -> In c token -> In c s.
Proof.
  induction s as [|x r IH]; intros m token c Ht Hc.
  - cbn in Ht. destruct Ht as [<-|[]]. destruct Hc.
  - cbn [str_split] in Ht.
    destruct (char_eqb x sep && negb (m =? 0)%Z).
    + destruct Ht as [<-|Ht]; [destruct Hc|]. right. eapply IH; eauto.
    + pose proof (str_split_not_nil r sep m) as Hne.
      destruct (str_split r sep m) as [|h t] eqn:E; [contradiction|].
      cbn [cons_first] in Ht. destruct Ht as [<-|Ht].
      * destruct Hc as [<-|Hc]; [now left|]. right.
        apply (IH m h c); [rewrite E; now left|exact Hc].
      * right. apply (IH m token c); [rewrite E; now right|exact Hc].
Qed.

Lemma ascii_pair_cases :
  forallb (fun h1 =>
    forallb (fun h2 =>
      match PyLong_FromString16 [h1; h2], lenient_pair h1 h2 with
      | Some a, Some b => (a =? b)%Z
      | None, None => true
      | _, _ => false
      end) (map N.of_nat (seq 0 128))) (map N.of_nat (seq 0 128)) = true.
Proof. vm_compute. reflexivity. Qed.

Lemma below_128_In (c : N) : (c < 128)%N -> In c (map N.of_nat (seq 0 128)).
Proof.
  intro H. apply in_map_iff. exists (N.to_nat c). split; [lia|]. apply in_seq. lia.
Qed.

Section Escaping.

Variable Py_UNICODE_ISSPACE : char -> bool.
Variable Py_UNICODE_TODECIMAL : char -> option N.

Local Abbreviation int16' := (int16 Py_UNICODE_ISSPACE Py_UNICODE_TODECIMAL).
Local Abbreviation _decode' := (_decode Py_UNICODE_ISSPACE Py_UNICODE_TODECIMAL).
Local Abbreviation _decode_all' := (_decode_all Py_UNICODE_ISSPACE Py_UNICODE_TODECIMAL).
Local Abbreviation decode_pair' := (decode_pair Py_UNICODE_ISSPACE Py_UNICODE_TODECIMAL).
Local Abbreviation scan' := (scan Py_UNICODE_ISSPACE Py_UNICODE_TODECIMAL).
Local Abbreviation token_pair' := (token_pair Py_UNICODE_ISSPACE Py_UNICODE_TODECIMAL).
Local Abbreviation query_ref' := (query_ref Py_UNICODE_ISSPACE Py_UNICODE_TODECIMAL).
Local Abbreviation parse_ref' := (parse_ref Py_UNICODE_ISSPACE Py_UNICODE_TODECIMAL).
Local Abbreviation run_parse' := (run_parse Py_UNICODE_ISSPACE Py_UNICODE_TODECIMAL).
Local Abbreviation token_decodes' :=
  (token_decodes Py_UNICODE_ISSPACE Py_UNICODE_TODECIMAL).

(** On two ASCII characters, [_decode] returns exactly for the pairs that
    [lenient_pair] tells: two hexadecimal digits, but also white space or a
    plus sign before a digit, a digit before white space, and a minus sign
    before a zero; a minus sign before another digit raises [ValueError],
    and every other pair raises [UriSyntaxError]. *)
Theorem _decode_ascii_pair (h1 h2 : char) (self : UriParser) :
  (h1 < 128)%N -> (h2 < 128)%N ->
  _decode' [h1; h2] self =
  (self,
   match lenient_pair h1 h2 with
   | Some v => if (v <? 0)%Z then Raise ValueError else Return [Z.to_N v]
   | None => Raise UriSyntaxError
   end).
Proof.
  intros H1 H2.
  assert (Hi : int16' [h1; h2] = lenient_pair h1 h2).
  { unfold int16, _PyUnicode_TransformDecimalAndSpaceToASCII. cbn [forallb].
    rewrite (proj2 (N.ltb_lt _ _) H1), (proj2 (N.ltb_lt _ _) H2). cbn [andb].
    pose proof ascii_pair_cases as Hc. rewrite forallb_forall in Hc.
    specialize (Hc h1 (below_128_In _ H1)). rewrite forallb_forall in Hc.
    specialize (Hc h2 (below_128_In _ H2)).
    destruct (PyLong_FromString16 [h1; h2]) as [a|], (lenient_pair h1 h2) as [b|];
      try discriminate; [|reflexivity].
    apply Z.eqb_eq in Hc. now subst. }
  unfold _decode. rewrite Hi.
  destruct (lenient_pair h1 h2) as [v|] eqn:El; [|reflexivity].
  assert (Hb : (-256 < v < 256)%Z).
  { apply (int16_pair_bound Py_UNICODE_ISSPACE Py_UNICODE_TODECIMAL h1 h2). now rewrite Hi. }
  unfold bind, lift, chr.
  destruct (Z.ltb_spec v (-2147483648)); [lia|].
  destruct (Z.ltb_spec 2147483647 v); [lia|]. cbn [orb].
  destruct (Z.ltb_spec v 0); [reflexivity|].
  destruct (Z.ltb_spec 1114111 v); [lia|]. reflexivity.
Qed.

Lemma scan_no_percent reject s :
  ~ In (ch "%") s -> forall d, scan' reject s = Ok d -> d = s.
Proof.
  induction s as [|c r IH]; intros Hn d; cbn [scan].
  - intro H. now injection H as <-.
  - destruct (char_eqb c (ch "%")) eqn:E.
    { apply char_eqb_eq in E. exfalso. apply Hn. now left. }
    destruct (reject c); [discriminate|].
    destruct (scan' reject r) as [o|] eqn:Eo; [|discriminate].
    intro H. injection H as <-. f_equal. apply IH; auto.
    intro Hin. apply Hn. now right.
Qed.

(** On an input without percent sign, a successful [parse] only cuts: the
    path and the fragment are the raw ones, and each token of the raw query
    is its key, an [=] and its value. *)
Theorem parse_without_escape (uri : str) (self : UriParser) :
  run_parse' uri = (self, Return tt) ->
  ~ In (ch "%") uri ->
  exists st0,
    _split_uri (__init__ uri) = (st0, Return tt) /\
    get_path self = _path st0 /\
    get_fragment self = _fragment st0 /\
    (_query st0 <> [] ->
     exists pairs,
       Forall2 (fun token kv => token = fst kv ++ ch "=" :: snd kv)
               (str_split (_query st0) (ch "&") (-1)) pairs /\
       get_query_params self = dict_fill pairs []).
Proof.
  intros H Hn.
  destruct (run_parse_Return _ _ uri self H) as (p & q & f & d & k & Hs & Hp & Hf & Hq & ->).
  rewrite _split_uri_ref, Hs. eexists. split; [reflexivity|].
  cbn [_path _fragment _query get_path get_fragment get_query_params _query_params] in *.
  assert (Hparts : forall c, (In c p \/ In c q \/ In c f) -> In c uri).
  { intros c Hc.
    destruct (split_ref_shapes _ _ _ _ Hs)
      as [(Hu & _)|[(Hu & -> & _)|[(Hu & -> & _)|(Hu & -> & -> & _)]]]; rewrite Hu;
      cbn [In] in Hc; repeat (rewrite in_app_iff || cbn [In]); tauto. }
  split; [|split].
  - apply (scan_no_percent path_reject p); [|exact Hp]. intro Hin. apply Hn, Hparts. auto.
  - apply (scan_no_percent fragment_reject f); [|exact Hf].
    intro Hin. apply Hn, Hparts. auto.
  - intro Hne. unfold query_ref in Hq.
    destruct (str_eqb q []) eqn:E; [apply str_eqb_eq in E; contradiction|].
    destruct (existsb query_reject q); [discriminate|].
    destruct (tokens_ref_cases Py_UNICODE_ISSPACE Py_UNICODE_TODECIMAL
                (str_split q (ch "&") (-1)) [])
      as [(pairs & Hfa & Hr)|(done & failing & rest' & pairs & e & _ & _ & _ & Hr)];
      rewrite Hr in Hq; [|discriminate].
    injection Hq as <-. exists pairs. split; [|reflexivity].
    assert (Htok : forall token, In token (str_split q (ch "&") (-1)) ->
                                 ~ In (ch "%") token).
    { intros token Ht Hin. apply Hn, Hparts. right. left.
      apply (str_split_In _ _ _ _ _ Ht Hin). }
    clear Hr. revert Htok.
    induction Hfa as [|token kv l l' Hd _ IH]; intro Htok; constructor.
    + destruct Hd as (rk & rv & -> & _ & _ & Hk & Hv).
      apply _decode_all_Return in Hk, Hv.
      assert (Hnt : ~ In (ch "%") (rk ++ ch "=" :: rv)) by (apply Htok; now left).
      assert (Hnk : ~ In (ch "%") rk).
      { intro Hin. apply Hnt. apply in_or_app. now left. }
      assert (Hnv : ~ In (ch "%") rv).
      { intro Hin. apply Hnt. apply in_or_app. right. now right. }
      apply (scan_no_percent no_reject rk Hnk) in Hk.
      apply (scan_no_percent no_reject rv Hnv) in Hv.
      destruct kv as [key value]. cbn [fst snd] in *. now subst.
    + apply IH. intros t Ht. apply Htok. now right.
Qed.

Lemma scan_percent_encode_all reject u1 u2 bytes :
  Forall (fun b => (b < 256)%N) bytes ->
  scan' reject (percent_encode_all u1 u2 bytes) = Ok bytes.
Proof.
  induction 1 as [|b r Hb _ IH]; [reflexivity|].
  cbn [percent_encode_all flat_map]. unfold percent_encode at 1.
  cbn [app scan]. rewrite char_eqb_refl, (decode_pair_hex _ _ u1 u2 b Hb).
  fold (percent_encode_all u1 u2 r). now rewrite IH.
Qed.

Lemma percent_encode_all_chars u1 u2 bytes c :
  Forall (fun b => (b < 256)%N) bytes ->
  In c (percent_encode_all u1 u2 bytes) -> in_tuple c _reserved_chars = false.
Proof.
  intros Hb Hin. unfold percent_encode_all in Hin. apply in_flat_map in Hin.
  destruct Hin as (b & Hbin & Hc). rewrite Forall_forall in Hb.
  apply in_tuple_not_In. intro Hres.
  exact (percent_encode_no_delimiter Py_UNICODE_ISSPACE Py_UNICODE_TODECIMAL
           u1 u2 b c (Hb b Hbin) Hres Hc).
Qed.

(** Round trip.  Any four strings of bytes, each byte written as an escape
    (in either case), put together as path, key, value and fragment, parse
    to exactly these strings: the path, the one pair of key and value, and
    the fragment. *)
Theorem parse_percent_encode_all (u1 u2 : bool) (p k v f : str) :
  Forall (fun b => (b < 256)%N) p -> Forall (fun b => (b < 256)%N) k ->
  Forall (fun b => (b < 256)%N) v -> Forall (fun b => (b < 256)%N) f ->
  exists st,
    run_parse' (percent_encode_all u1 u2 p
                ++ ch "?" :: (percent_encode_all u1 u2 k
                              ++ ch "=" :: percent_encode_all u1 u2 v)
                ++ ch "#" :: percent_encode_all u1 u2 f) = (st, Return tt) /\
    get_path st = p /\
    get_query_params st = [(k, v)] /\
    get_fragment st = f.
Proof.
  intros Hp Hk Hv Hf.
  set (ep := percent_encode_all u1 u2 p). set (ek := percent_encode_all u1 u2 k).
  set (ev := percent_encode_all u1 u2 v). set (ef := percent_encode_all u1 u2 f).
  assert (Hnot : forall bytes c, Forall (fun b => (b < 256)%N) bytes ->
                                 in_tuple c _reserved_chars = true ->
                                 ~ In c (percent_encode_all u1 u2 bytes)).
  { intros bytes c Hb Hres Hin.
    rewrite (percent_encode_all_chars u1 u2 bytes c Hb Hin) in Hres. discriminate. }
  change (ep ++ ch "?" :: (ek ++ ch "=" :: ev) ++ ch "#" :: ef)
    with (assemble ep (ek ++ ch "=" :: ev) (Some ef)).
  destruct (run_parse_ref Py_UNICODE_ISSPACE Py_UNICODE_TODECIMAL
              (assemble ep (ek ++ ch "=" :: ev) (Some ef))) as [n ->].
  unfold parse_ref. rewrite split_ref_assemble.
  2:{ apply Hnot; auto. }
  2:{ apply Hnot; auto. }
  2:{ intro Hin. apply in_app_or in Hin. destruct Hin as [Hin|[Hin|Hin]];
        [revert Hin; apply Hnot; auto|discriminate|revert Hin; apply Hnot; auto]. }
  unfold ep, ef. rewrite !scan_percent_encode_all by assumption.
  assert (Hq : query_ref' (ek ++ ch "=" :: ev) [] = ([(k, v)], Ok tt)).
  { unfold query_ref.
    replace (str_eqb (ek ++ ch "=" :: ev) []) with false by (now destruct ek).
    assert (Hr : existsb query_reject (ek ++ ch "=" :: ev) = false).
    { rewrite existsb_app. cbn [existsb].
      replace (query_reject (ch "=")) with false by reflexivity.
      assert (He : forall bytes, Forall (fun b => (b < 256)%N) bytes ->
                                 existsb query_reject (percent_encode_all u1 u2 bytes) = false).
      { intros bytes Hb. destruct (existsb _ _) eqn:E; [|reflexivity].
        apply existsb_exists in E. destruct E as (c & Hc & Hr).
        unfold query_reject in Hr.
        rewrite (percent_encode_all_chars u1 u2 bytes c Hb Hc) in Hr. discriminate. }
      unfold ek, ev. now rewrite !He. }
    rewrite Hr, str_split_no_sep.
    2:{ intro Hin. apply in_app_or in Hin. destruct Hin as [Hin|[Hin|Hin]];
          [revert Hin; apply Hnot; auto|discriminate|revert Hin; apply Hnot; auto]. }
    cbn [tokens_ref].
    assert (Ht : token_pair' (ek ++ ch "=" :: ev) = Ok (k, v)).
    { apply token_pair_decodes. exists ek, ev. cbn [fst snd].
      repeat split; try (apply Hnot; auto);
        intro st; apply _decode_all_Return; now apply scan_percent_encode_all. }
    rewrite Ht. reflexivity. }
  rewrite Hq. eexists. split; [reflexivity|]. now repeat split.
Qed.

End Escaping.

Lemma _decode_ascii_pair_witness :
  _decode unicode14_isspace unicode14_todecimal [ch "+"; ch "A"] (__init__ [])
  = (__init__ [], Return [10%N]).
Proof.
  apply (_decode_ascii_pair unicode14_isspace unicode14_todecimal
           (ch "+") (ch "A") (__init__ [])); reflexivity.
Defined.

Lemma parse_without_escape_witness :
  let uri := py "/a/b?k=v&x=#top" in
  let self := mkUriParser uri (py "/a/b") (py "top") (py "k=v&x=")
                          [(py "k", py "v"); (py "x", [])] 0 in
  exists st0,
    _split_uri (__init__ uri) = (st0, Return tt) /\
    get_path self = _path st0 /\
    get_fragment self = _fragment st0 /\
    (_query st0 <> [] ->
     exists pairs,
       Forall2 (fun token kv => token = fst kv ++ ch "=" :: snd kv)
               (str_split (_query st0) (ch "&") (-1)) pairs /\
       get_query_params self = dict_fill pairs []).
Proof.
  intros uri self.
  apply (parse_without_escape unicode14_isspace unicode14_todecimal uri self).
  - vm_compute. reflexivity.
  - vm_compute. intuition discriminate.
Defined.

Lemma parse_percent_encode_all_witness :
  exists st,
    run_parse14 (percent_encode_all true false (py "a/?")
                 ++ ch "?" :: (percent_encode_all true false (py "k=")
                               ++ ch "=" :: percent_encode_all true false (py "&v"))
                 ++ ch "#" :: percent_encode_all true false (py "#"))
    = (st, Return tt) /\
    get_path st = py "a/?" /\
    get_query_params st = [(py "k=", py "&v")] /\
    get_fragment st = py "#".
Proof.
  apply (parse_percent_encode_all unicode14_isspace unicode14_todecimal true false
           (py "a/?") (py "k=") (py "&v") (py "#"));
    repeat constructor.
Defined.

(** * The size of the query parameters, and refused query characters *)

Lemma str_split_length s sep :
  forall m, (m < 0)%Z -> length (str_split s sep m) = S (str_count s sep).
Proof.
  induction s as [|x r IH]; intros m Hm; [reflexivity|]. cbn [str_split str_count].
  destruct (Z.eqb_spec m 0); [lia|]. cbn [negb]. rewrite andb_true_r.
  destruct (char_eqb x sep).
  - cbn [length]. rewrite IH by lia. reflexivity.
  - pose proof (str_split_not_nil r sep m) as Hne. specialize (IH m Hm).
    destruct (str_split r sep m); [contradiction|]. cbn [cons_first length] in *. lia.
Qed.

Lemma first_occurrences_length l : length (first_occurrences l) <= length l.
Proof.
  induction l as [|k r IH]; [auto|]. cbn [first_occurrences length].
  pose proof (filter_length_le (fun k' => negb (str_eqb k k')) (first_occurrences r)). lia.
Qed.

Section QuerySize.

Variable Py_UNICODE_ISSPACE : char -> bool.
Variable Py_UNICODE_TODECIMAL : char -> option N.

Local Abbreviation scan' := (scan Py_UNICODE_ISSPACE Py_UNICODE_TODECIMAL).
Local Abbreviation query_ref' := (query_ref Py_UNICODE_ISSPACE Py_UNICODE_TODECIMAL).
Local Abbreviation parse_ref' := (parse_ref Py_UNICODE_ISSPACE Py_UNICODE_TODECIMAL).
Local Abbreviation _parse_path' := (_parse_path Py_UNICODE_ISSPACE Py_UNICODE_TODECIMAL).
Local Abbreviation _parse_fragment' :=
  (_parse_fragment Py_UNICODE_ISSPACE Py_UNICODE_TODECIMAL).
Local Abbreviation run_parse' := (run_parse Py_UNICODE_ISSPACE Py_UNICODE_TODECIMAL).
Local Abbreviation decoding' := (decoding Py_UNICODE_ISSPACE Py_UNICODE_TODECIMAL).

(** After a successful [parse] the query parameters hold at most one entry
    per token: none for an empty raw query, and otherwise at most one more
    than the raw query has [&]. *)
Theorem query_params_size (uri : str) (self : UriParser) :
  run_parse' uri = (self, Return tt) ->
  length (get_query_params self) <=
  match _query self with
  | [] => 0
  | _ :: _ => S (str_count (_query self) (ch "&"))
  end.
Proof.
  intro H.
  destruct (run_parse_Return _ _ uri self H) as (p & q & f & d & k & _ & _ & _ & Hq & ->).
  unfold get_query_params. cbn [_query _query_params]. unfold query_ref in Hq.
  destruct q as [|x r]; [cbn in Hq; injection Hq as <-; auto|].
  cbn [str_eqb] in Hq.
  destruct (existsb query_reject (x :: r)); [discriminate|].
  destruct (tokens_ref_cases Py_UNICODE_ISSPACE Py_UNICODE_TODECIMAL
              (str_split (x :: r) (ch "&") (-1)) [])
    as [(pairs & Hf & Hr)|(done & failing & rest' & pairs & e & _ & _ & _ & Hr)];
    rewrite Hr in Hq; [|discriminate].
  injection Hq as <-.
  rewrite <- (length_map fst (dict_fill pairs [])).
  change (map fst (dict_fill pairs [])) with (dict_keys (dict_fill pairs [])).
  rewrite dict_keys_fill. cbn [dict_keys map app].
  pose proof (filter_length_le (fun k0 => negb (str_mem k0 []))
                (first_occurrences (map fst pairs))) as Hl1.
  pose proof (first_occurrences_length (map fst pairs)) as Hl2.
  rewrite length_map in Hl2. apply Forall2_length in Hf.
  rewrite str_split_length in Hf by lia. lia.
Qed.

(** A character of the raw query that is reserved and is neither [&] nor
    [=] makes [parse] raise [UriSyntaxError] before any token is looked at,
    when the path and the fragment are read without violation: the query
    parameters stay empty. *)
Theorem query_charset_violation_raises (uri : str) (st0 : UriParser) (p' f' : str)
  (c : char) :
  _split_uri (__init__ uri) = (st0, Return tt) ->
  decoding' path_reject (_path st0) p' ->
  decoding' fragment_reject (_fragment st0) f' ->
  In c (_query st0) ->
  in_tuple c _reserved_chars = true -> c <> ch "&" -> c <> ch "=" ->
  exists st, run_parse' uri = (st, Raise UriSyntaxError) /\
             get_query_params st = [] /\
             get_path st = p' /\ get_fragment st = f'.
Proof.
  intros Hs Hpath Hfrag Hin Hres Ha He.
  destruct (run_parse_ref Py_UNICODE_ISSPACE Py_UNICODE_TODECIMAL uri) as [k ->].
  unfold parse_ref. rewrite _split_uri_ref in Hs.
  destruct (split_ref uri) as [[[p q] f]|e]; [|discriminate].
  injection Hs as <-. cbn [_path _fragment _query] in *.
  rewrite (decoding_scan _ _ _ _ _ Hpath), (decoding_scan _ _ _ _ _ Hfrag).
  unfold query_ref.
  replace (str_eqb q []) with false by (destruct q; [destruct Hin|reflexivity]).
  assert (Hr : existsb query_reject q = true).
  { apply existsb_exists. exists c. split; [exact Hin|].
    unfold query_reject. rewrite Hres. cbn [andb]. apply negb_true_iff.
    apply in_tuple_not_In. intros [E|[E|[]]]; congruence. }
  rewrite Hr. cbn. eexists. repeat split.
Qed.

End QuerySize.

Lemma query_params_size_witness :
  let uri := py "?a=1&a=2&b=3" in
  let self := mkUriParser uri [] [] (py "a=1&a=2&b=3")
                          [(py "a", py "2"); (py "b", py "3")] 1 in
  length (get_query_params self) <=
  match _query self with
  | [] => 0
  | _ :: _ => S (str_count (_query self) (ch "&"))
  end.
Proof.
  intros uri self.
  apply (query_params_size unicode14_isspace unicode14_todecimal uri self).
  vm_compute. reflexivity.
Defined.

Lemma query_charset_violation_raises_witness :
  exists st, run_parse14 (py "p?a=1&b=@#f") = (st, Raise UriSyntaxError) /\
             get_query_params st = [] /\
             get_path st = py "p" /\ get_fragment st = py "f".
Proof.
  apply (query_charset_violation_raises unicode14_isspace unicode14_todecimal
           (py "p?a=1&b=@#f")
           (mkUriParser (py "p?a=1&b=@#f") (py "p") (py "f") (py "a=1&b=@") [] 0)
           (py "p") (py "f") (ch "@")).
  - vm_compute. reflexivity.
  - apply scan_decoding with (n := 1); [vm_compute; lia|vm_compute; reflexivity].
  - apply scan_decoding with (n := 1); [vm_compute; lia|vm_compute; reflexivity].
  - vm_compute. tauto.
  - reflexivity.
  - discriminate.
  - discriminate.
Defined.

Lemma decoders_inclusion_witness :
  exists st',
    _parse_path unicode14_isspace unicode14_todecimal
      (set_path (py "a%20b") (__init__ [])) = (st', Return tt) /\
    _path st' = py "a b".
Proof.
  apply (proj1 (decoders_inclusion unicode14_isspace unicode14_todecimal
                  (set_fragment (py "a%20b") (__init__ []))
                  (set_iter 5 (set_fragment (py "a b") (__init__ []))))).
  vm_compute. reflexivity.
Defined.
